(** * Name resolution core of source3/libsmb/namequery.c

    A shallow embedding of the resolver pipeline, the NetBIOS name
    query, the WINS sequencer, the ADS/KDC resolver and the address
    ranking of [namequery.c], with the properties the specification
    states about them.

    Conventions of the embedding.
    - Allocation is taken to succeed: the [NT_STATUS_NO_MEMORY] exits of
      the C code are not represented, except where the allocator returns
      NULL without any shortage of memory.
    - The build is the one with [HAVE_IPV6] defined.
    - An address is its family together with the address bytes read as
      one big-endian number ([1.2.3.4] is [0x01020304]); ports live in
      [ip_service].
    - The event loop of tevent is replaced by the sequence of events it
      would deliver; a deadline is the end of that sequence, and where
      its length matters the events come with their time of arrival and
      the deadline cuts them off.
    - Code outside [namequery.c] (lib/util, the name cache, the DNS and
      interface primitives) enters as a parameter, or as a definition
      whose comment says what it is modelled from. *)

From Stdlib Require Import ZArith String Ascii List Bool Lia.
From stdpp Require Import base gmap strings list sorting.

Local Open Scope Z_scope.

(** ** Status codes *)

Inductive NTSTATUS :=
| NT_STATUS_OK
| NT_STATUS_UNSUCCESSFUL
| NT_STATUS_INVALID_PARAMETER
| NT_STATUS_NO_MEMORY
| NT_STATUS_NOT_FOUND
| NT_STATUS_IO_TIMEOUT
| NT_STATUS_INVALID_ADDRESS
| NT_STATUS_NOT_SUPPORTED
| NT_STATUS_INTERNAL_ERROR
| NT_STATUS_UNIX (errno : Z).   (* map_nt_error_from_unix(errno) *)

#[global] Instance NTSTATUS_eq_dec : EqDecision NTSTATUS.
Proof. solve_decision. Defined.

Definition NT_STATUS_IS_OK (s : NTSTATUS) : bool :=
  match s with NT_STATUS_OK => true | _ => false end.

Definition NT_STATUS_EQUAL (a b : NTSTATUS) : bool := bool_decide (a = b).

(** ** Socket addresses *)

Inductive sa_family := AF_UNSPEC | AF_INET | AF_INET6.

#[global] Instance sa_family_eq_dec : EqDecision sa_family.
Proof. solve_decision. Defined.

Record sockaddr_storage := mk_ss {
  ss_family : sa_family;
  ss_addr : Z
}.

#[global] Instance sockaddr_storage_eq_dec : EqDecision sockaddr_storage.
Proof. solve_decision. Defined.

Record samba_sockaddr := mk_sa {
  sa_socklen : Z;
  u_ss : sockaddr_storage
}.

Definition PORT_NONE : Z := 0.

Record ip_service := mk_ip_service {
  ss : sockaddr_storage;
  port : Z
}.

#[global] Instance ip_service_eq_dec : EqDecision ip_service.
Proof. solve_decision. Defined.

(** What [talloc_zero_array] leaves in a slot that is never written. *)
Definition zeroed_sockaddr : sockaddr_storage := mk_ss AF_UNSPEC 0.

Definition sizeof_sockaddr_in : Z := 16.
Definition sizeof_sockaddr_in6 : Z := 28.

(** namequery.c:47 *)
Definition sockaddr_storage_to_samba_sockaddr (s : sockaddr_storage)
  : option samba_sockaddr :=
  match ss_family s with
  | AF_INET => Some (mk_sa sizeof_sockaddr_in s)
  | AF_INET6 => Some (mk_sa sizeof_sockaddr_in6 s)
  | AF_UNSPEC => None
  end.

(** Modelled from the spec: [is_zero_addr] is in lib/util, outside the
    sources at hand; the zero addresses are [0.0.0.0] and [::]. *)
Definition is_zero_addr (s : sockaddr_storage) : bool :=
  match ss_family s with
  | AF_INET | AF_INET6 => ss_addr s =? 0
  | AF_UNSPEC => false
  end.

(** Modelled from the spec: [in_addr_to_sockaddr_storage] (lib/util)
    wraps an IPv4 address into an [AF_INET] socket address. *)
Definition in_addr_to_sockaddr_storage (ip : Z) : sockaddr_storage :=
  mk_ss AF_INET ip.

(** Modelled from the spec: [sockaddr_equal] (lib/util) compares family
    and address; the port is compared separately by its callers. *)
Definition sockaddr_equal (a b : sockaddr_storage) : bool :=
  bool_decide (ss_family a = ss_family b) && (ss_addr a =? ss_addr b).

(** Modelled from the spec: [zero_sockaddr] (lib/util) overwrites an
    address with the IPv4 zero address. *)
Definition zero_sockaddr : sockaddr_storage := mk_ss AF_INET 0.

(** ** Address ranking (namequery.c:1094-1219) *)

(** Big-endian bytes of an address of [len] bytes. *)
Fixpoint addr_bytes (len : nat) (a : Z) : list Z :=
  match len with
  | O => []
  | S k => Z.land (Z.shiftr a (8 * Z.of_nat k)) 255 :: addr_bytes k a
  end.

Fixpoint matching_bits_in_byte (j : nat) (b1 b2 : Z) : Z :=
  match j with
  | O => 0
  | S k =>
      if Bool.eqb (Z.testbit b1 (Z.of_nat k)) (Z.testbit b2 (Z.of_nat k))
      then 1 + matching_bits_in_byte k b1 b2
      else 0
  end.

(** Modelled from the spec: [matching_len_bits] (lib/util) is the number
    of leading bits two byte strings share. *)
Fixpoint matching_len_bits (p1 p2 : list Z) : Z :=
  match p1, p2 with
  | b1 :: r1, b2 :: r2 =>
      if b1 =? b2 then 8 + matching_len_bits r1 r2
      else matching_bits_in_byte 8 b1 b2
  | _, _ => 0
  end.

(** The local interface table, an external collaborator. *)
Record interfaces := mk_interfaces {
  iface_count : nat;
  iface_n_bcast : nat -> sockaddr_storage;
  iface_local : sockaddr_storage -> bool
}.

Definition family_len (f : sa_family) : nat :=
  match f with AF_INET => 4%nat | AF_INET6 => 16%nat | AF_UNSPEC => 0%nat end.

(** The [for (i=0;i<num_interfaces;i++)] loop of [addr_compare]; [None]
    is its [return 0]. *)
Fixpoint addr_compare_ifaces (ifs : interfaces) (sa1 sa2 : sockaddr_storage)
    (idx : list nat) (max_bits1 max_bits2 : Z) : option (Z * Z) :=
  match idx with
  | [] => Some (max_bits1, max_bits2)
  | i :: rest =>
      match sockaddr_storage_to_samba_sockaddr (iface_n_bcast ifs i) with
      | None => None
      | Some sif =>
          if negb (bool_decide (ss_family (u_ss sif) = ss_family sa1))
          then addr_compare_ifaces ifs sa1 sa2 rest max_bits1 max_bits2
          else
            let len := family_len (ss_family (u_ss sif)) in
            if (len =? 0)%nat
            then addr_compare_ifaces ifs sa1 sa2 rest max_bits1 max_bits2
            else
            let p_if := addr_bytes len (ss_addr (u_ss sif)) in
            let bits1 := matching_len_bits (addr_bytes len (ss_addr sa1)) p_if in
            let bits2 := matching_len_bits (addr_bytes len (ss_addr sa2)) p_if in
            addr_compare_ifaces ifs sa1 sa2 rest
              (Z.max bits1 max_bits1) (Z.max bits2 max_bits2)
      end
  end.

Definition local_bonus (ifs : interfaces) (s : sockaddr_storage) : Z :=
  if iface_local ifs s
  then (if bool_decide (ss_family s = AF_INET) then 32 else 128)
  else 0.

(** namequery.c:1094 *)
Definition addr_compare (ifs : interfaces) (ss1 ss2 : sockaddr_storage) : Z :=
  match sockaddr_storage_to_samba_sockaddr ss1 with
  | None => 0
  | Some sa1 =>
      match sockaddr_storage_to_samba_sockaddr ss2 with
      | None => 0
      | Some sa2 =>
          if negb (bool_decide (ss_family (u_ss sa1) = ss_family (u_ss sa2)))
          then (if bool_decide (ss_family (u_ss sa2) = AF_INET) then 1 else -1)
          else
            match addr_compare_ifaces ifs (u_ss sa1) (u_ss sa2)
                    (seq 0 (iface_count ifs)) 0 0 with
            | None => 0
            | Some (max_bits1, max_bits2) =>
                (max_bits2 + local_bonus ifs (u_ss sa2))
                - (max_bits1 + local_bonus ifs (u_ss sa1))
            end
      end
  end.

(** [TYPESAFE_QSORT] hands the array to the C library's [qsort]; the
    library routine is represented by an insertion sort driven by the
    same comparison callback. *)
Fixpoint qsort_insert {A} (cmp : A -> A -> Z) (x : A) (l : list A) : list A :=
  match l with
  | [] => [x]
  | y :: r => if cmp x y <=? 0 then x :: y :: r else y :: qsort_insert cmp x r
  end.

Definition TYPESAFE_QSORT {A} (cmp : A -> A -> Z) (l : list A) : list A :=
  foldr (qsort_insert cmp) [] l.

(** namequery.c:1212 *)
Definition sort_addr_list (ifs : interfaces) (sslist : list sockaddr_storage)
  : list sockaddr_storage :=
  if Z.of_nat (length sslist) <=? 1 then sslist
  else TYPESAFE_QSORT (addr_compare ifs) sslist.

(** ** The NetBIOS name query (namequery.c:1322-1687) *)

Record nmb_header := mk_nmb_header {
  name_trn_id : Z;
  opcode : Z;
  response : bool;
  nm_bcast : bool;
  recursion_available : bool;
  recursion_desired : bool;
  trunc : bool;
  authoritative : bool;
  rcode : Z;
  ancount : Z
}.

Record res_rec := mk_res_rec {
  rdlength : Z;
  rdata : list Z
}.

(** [answers] is the record the C pointer refers to; [parse_packet]
    allocates it whenever [ancount] is not zero, the only case in which
    the validator reads it. *)
Record packet_struct := mk_packet {
  header : nmb_header;
  answers : res_rec
}.

Definition NM_FLAGS_RS : Z := 0x80.
Definition NM_FLAGS_AA : Z := 0x40.
Definition NM_FLAGS_TC : Z := 0x20.
Definition NM_FLAGS_RD : Z := 0x10.
Definition NM_FLAGS_RA : Z := 0x08.
Definition NM_FLAGS_B : Z := 0x01.

Record name_query_state := mk_nq {
  nq_bcast : bool;
  nq_bcast_star_query : bool;
  nq_validate_error : NTSTATUS;
  nq_flags : Z;
  nq_addrs : list sockaddr_storage    (* num_addrs = length nq_addrs *)
}.

Definition rdata_byte (r : res_rec) (k : nat) : Z := nth k (rdata r) 0.

(** [RSVAL(&rdata[i*6], 0)] *)
Definition RSVAL (r : res_rec) (pos : nat) : Z :=
  Z.lor (Z.shiftl (rdata_byte r pos) 8) (rdata_byte r (pos + 1)).

(** [putip((char * )&ip, &rdata[2+i*6])] *)
Definition putip (r : res_rec) (pos : nat) : Z :=
  Z.lor (Z.shiftl (rdata_byte r pos) 24)
    (Z.lor (Z.shiftl (rdata_byte r (pos + 1)) 16)
       (Z.lor (Z.shiftl (rdata_byte r (pos + 2)) 8) (rdata_byte r (pos + 3)))).

(** The inner [for (j=0; j<state->num_addrs; j++)] search. *)
Definition already_got (sa : sockaddr_storage) (l : list sockaddr_storage) : bool :=
  existsb (fun a =>
    match sockaddr_storage_to_samba_sockaddr a with
    | None => false
    | Some sa_j => sockaddr_equal sa (u_ss sa_j)
    end) l.

(** One turn of the [for (i=0; i<rdlength/6; i++)] loop. *)
Definition name_query_record (r : res_rec) (i : nat)
    (acc : bool * list sockaddr_storage) : bool * list sockaddr_storage :=
  let '(got_unique_netbios_name, addrs) := acc in
  let flags := RSVAL r (i * 6) in
  let got := got_unique_netbios_name || (Z.land flags 0x8000 =? 0) in
  let addr := in_addr_to_sockaddr_storage (putip r (2 + i * 6)) in
  match sockaddr_storage_to_samba_sockaddr addr with
  | None => (got, addrs)
  | Some sa =>
      if is_zero_addr (u_ss sa) then (got, addrs)
      else if already_got (u_ss sa) addrs then (got, addrs)
      else (got, addrs ++ [addr])
  end.

Definition name_query_records (r : res_rec) (addrs : list sockaddr_storage)
  : bool * list sockaddr_storage :=
  fold_left (fun acc i => name_query_record r i acc)
    (seq 0 (Z.to_nat (Z.quot (rdlength r) 6))) (false, addrs).

Definition add_flag (c : bool) (f : Z) (flags : Z) : Z :=
  if c then Z.lor flags f else flags.

(** [talloc_realloc] (lib/talloc, outside the sources at hand) asked for
    an array of [count] elements: for no element at all it frees the
    array and returns NULL, as [realloc] does for size zero; a negative
    [count], read as unsigned, is beyond the size it accepts.  For any
    other [count] it is taken to succeed: its limit of 256 MB is out of
    the reach of the answers of a query. *)
Definition talloc_realloc_null (count : Z) : bool := count <=? 0.

(** namequery.c:1440 *)
Definition name_query_validator (p : packet_struct) (state : name_query_state)
  : bool * name_query_state :=
  let h := header p in
  if (opcode h =? 0) && negb (nq_bcast state) && negb (rcode h =? 0) then
    (true, mk_nq (nq_bcast state) (nq_bcast_star_query state)
             NT_STATUS_NOT_FOUND (nq_flags state) (nq_addrs state))
  else if negb (opcode h =? 0) || nm_bcast h || negb (rcode h =? 0)
          || (ancount h =? 0) then
    (false, state)
  else if talloc_realloc_null
            (Z.of_nat (length (nq_addrs state)) + Z.quot (rdlength (answers p)) 6)
  then
    (true, mk_nq (nq_bcast state) (nq_bcast_star_query state)
             NT_STATUS_NO_MEMORY (nq_flags state) (nq_addrs state))
  else
    let '(got_unique_netbios_name, addrs) :=
      name_query_records (answers p) (nq_addrs state) in
    let flags :=
      add_flag (nm_bcast h) NM_FLAGS_B
        (add_flag (recursion_available h) NM_FLAGS_RA
           (add_flag (recursion_desired h) NM_FLAGS_RD
              (add_flag (trunc h) NM_FLAGS_TC
                 (add_flag (authoritative h) NM_FLAGS_AA
                    (add_flag (response h) NM_FLAGS_RS (nq_flags state)))))) in
    let state' := mk_nq (nq_bcast state) (nq_bcast_star_query state)
                    (nq_validate_error state) flags addrs in
    if nq_bcast state
    then (got_unique_netbios_name && negb (nq_bcast_star_query state), state')
    else (true, state').

(** namequery.c:1342.  [disable_netbios] is [lp_disable_netbios()],
    [buflen] what [build_packet] returns for the request.  The first
    component is the error the request is posted with, if any; without
    one the request is in flight. *)
Definition name_query_send (disable_netbios : bool) (buflen : Z)
    (name : string) (bcast : bool) (addr : sockaddr_storage)
  : option NTSTATUS * name_query_state :=
  let state := mk_nq bcast false NT_STATUS_OK 0 [] in
  if negb (bool_decide (ss_family addr = AF_INET))
  then (Some NT_STATUS_INVALID_ADDRESS, state)
  else if disable_netbios then (Some NT_STATUS_NOT_SUPPORTED, state)
  else match sockaddr_storage_to_samba_sockaddr addr with
       | None => (Some NT_STATUS_INVALID_ADDRESS, state)
       | Some _ =>
           let state := mk_nq bcast (bcast && String.eqb name "*")
                          NT_STATUS_OK 0 [] in
           if buflen =? 0 then (Some NT_STATUS_INTERNAL_ERROR, state)
           else (None, state)
       end.

(** namequery.c:1597.  [status] is what [nb_trans_recv] returned; the
    result is the status the request completes with. *)
Definition name_query_done (status : NTSTATUS) (state : name_query_state)
  : NTSTATUS :=
  if negb (NT_STATUS_IS_OK status) then status
  else if negb (NT_STATUS_IS_OK (nq_validate_error state))
       then nq_validate_error state
       else NT_STATUS_OK.

(** namequery.c:1618.  [req_status] is the error the request carries,
    [NT_STATUS_OK] when it carries none. *)
Definition name_query_recv (ifs : interfaces) (req_status : NTSTATUS)
    (state : name_query_state) : NTSTATUS * list sockaddr_storage * Z :=
  let status :=
    if negb (NT_STATUS_IS_OK req_status)
       && nq_bcast state && NT_STATUS_EQUAL req_status NT_STATUS_IO_TIMEOUT
    then NT_STATUS_OK else req_status in
  if negb (NT_STATUS_IS_OK status) then (status, [], 0)
  else if Z.of_nat (length (nq_addrs state)) =? 0 then (NT_STATUS_NOT_FOUND, [], 0)
  else (NT_STATUS_OK, sort_addr_list ifs (nq_addrs state), nq_flags state).

(** What the transaction delivers to a request in flight: the packets
    that reach the validator, or the failure of both receive paths.  The
    end of the sequence is the request's deadline, which tevent reports
    as [NT_STATUS_IO_TIMEOUT]. *)
Inductive nb_event :=
| Response (p : packet_struct)
| TransportFailure (status : NTSTATUS).

Fixpoint name_query_poll (state : name_query_state) (evs : list nb_event)
  : NTSTATUS * name_query_state :=
  match evs with
  | [] => (NT_STATUS_IO_TIMEOUT, state)
  | Response p :: rest =>
      let '(accepted, state') := name_query_validator p state in
      if accepted then (name_query_done NT_STATUS_OK state', state')
      else name_query_poll state' rest
  | TransportFailure status :: _ => (name_query_done status state, state)
  end.

(** A request as the event loop completes it: posted with an error, or
    driven by what the transaction delivers. *)
Definition name_query_complete (posted : option NTSTATUS)
    (state : name_query_state) (evs : list nb_event)
  : NTSTATUS * name_query_state :=
  match posted with
  | Some status => (status, state)
  | None => name_query_poll state evs
  end.

(** namequery.c:1651 *)
Definition name_query (ifs : interfaces) (disable_netbios : bool) (buflen : Z)
    (name : string) (bcast : bool) (to_ss : sockaddr_storage)
    (evs : list nb_event) : NTSTATUS * list sockaddr_storage * Z :=
  let '(posted, state) := name_query_send disable_netbios buflen name bcast to_ss in
  let '(req_status, state') := name_query_complete posted state evs in
  name_query_recv ifs req_status state'.

(** ** The packet race engine (namequery.c:369-572) *)

Inductive tevent_req_state :=
| TEVENT_REQ_IN_PROGRESS
| TEVENT_REQ_DONE
| TEVENT_REQ_ERROR (status : NTSTATUS).

(** [tevent_req_is_nterror] (lib/util/tevent_ntstatus.c, outside the
    sources at hand): only a request that is done carries no error; one
    that failed carries the status it failed with, and one asked while
    still in progress is answered with [NT_STATUS_INTERNAL_ERROR]. *)
Definition tevent_req_is_nterror (state : tevent_req_state) : option NTSTATUS :=
  match state with
  | TEVENT_REQ_DONE => None
  | TEVENT_REQ_ERROR status => Some status
  | TEVENT_REQ_IN_PROGRESS => Some NT_STATUS_INTERNAL_ERROR
  end.

(** [reader_req] and [socket_req] are the two sub-waits; [true] while
    the pointer is not NULL.  [V] is the type behind [private_data]. *)
Record sock_packet_read_state (V : Type) := mk_spr {
  spr_reader : bool;
  spr_reader_req : bool;
  spr_socket_req : bool;
  spr_trn_id : Z;
  spr_validator : option (packet_struct -> V -> bool * V);
  spr_private_data : V;
  spr_packet : option packet_struct
}.
Arguments mk_spr {V}.
Arguments spr_reader {V}.
Arguments spr_reader_req {V}.
Arguments spr_socket_req {V}.
Arguments spr_trn_id {V}.
Arguments spr_validator {V}.
Arguments spr_private_data {V}.
Arguments spr_packet {V}.

(** What [nb_packet_read_recv] hands back. *)
Inductive reader_result :=
| ReaderError (status : NTSTATUS)
| ReaderPacket (p : packet_struct).

(** What [tdgram_recvfrom_recv] hands back: [-1] with an errno, or a
    datagram, of which the engine looks at the source family, at the
    conversion of the source address (an errno when it fails) and at
    what [parse_packet_talloc] makes of the bytes. *)
Record datagram := mk_datagram {
  dg_is_ipv4 : bool;
  dg_bsd_sockaddr_errno : option Z;
  dg_parsed : option packet_struct
}.

Inductive socket_result :=
| SocketError (err : Z)
| SocketDatagram (d : datagram).

(** namequery.c:390 *)
Definition sock_packet_read_send {V} (reader : bool) (trn_id : Z)
    (validator : option (packet_struct -> V -> bool * V)) (private_data : V)
  : tevent_req_state * sock_packet_read_state V :=
  (TEVENT_REQ_IN_PROGRESS,
   mk_spr reader reader true trn_id validator private_data None).

(** Runs the validator, when there is one, threading [private_data]. *)
Definition run_validator {V} (state : sock_packet_read_state V)
    (p : packet_struct) : bool * V :=
  match spr_validator state with
  | None => (true, spr_private_data state)
  | Some validator => validator p (spr_private_data state)
  end.

(** namequery.c:435 *)
Definition sock_packet_read_got_packet {V} (res : reader_result)
    (state : sock_packet_read_state V)
  : tevent_req_state * sock_packet_read_state V :=
  let state := mk_spr (spr_reader state) false (spr_socket_req state)
                 (spr_trn_id state) (spr_validator state)
                 (spr_private_data state) (spr_packet state) in
  match res with
  | ReaderError status =>
      if spr_socket_req state then (TEVENT_REQ_IN_PROGRESS, state)
      else (TEVENT_REQ_ERROR status, state)
  | ReaderPacket p =>
      let '(ok, priv) := run_validator state p in
      if negb ok then
        (TEVENT_REQ_IN_PROGRESS,
         mk_spr (spr_reader state) true (spr_socket_req state)
           (spr_trn_id state) (spr_validator state) priv None)
      else
        (TEVENT_REQ_DONE,
         mk_spr (spr_reader state) false false
           (spr_trn_id state) (spr_validator state) priv (Some p))
  end.

(** The [retry:] label of [sock_packet_read_got_socket]. *)
Definition sock_packet_read_retry {V} (state : sock_packet_read_state V) (priv : V)
  : tevent_req_state * sock_packet_read_state V :=
  (TEVENT_REQ_IN_PROGRESS,
   mk_spr (spr_reader state) (spr_reader_req state) true
     (spr_trn_id state) (spr_validator state) priv None).

(** namequery.c:481 *)
Definition sock_packet_read_got_socket {V} (res : socket_result)
    (state : sock_packet_read_state V)
  : tevent_req_state * sock_packet_read_state V :=
  let state := mk_spr (spr_reader state) (spr_reader_req state) false
                 (spr_trn_id state) (spr_validator state)
                 (spr_private_data state) (spr_packet state) in
  match res with
  | SocketError err =>
      if spr_reader_req state then (TEVENT_REQ_IN_PROGRESS, state)
      else (TEVENT_REQ_ERROR (NT_STATUS_UNIX err), state)
  | SocketDatagram d =>
      if negb (dg_is_ipv4 d) then sock_packet_read_retry state (spr_private_data state)
      else match dg_bsd_sockaddr_errno d with
      | Some errno => (TEVENT_REQ_ERROR (NT_STATUS_UNIX errno), state)
      | None =>
          match dg_parsed d with
          | None => sock_packet_read_retry state (spr_private_data state)
          | Some p =>
              if negb (spr_trn_id state =? -1)
                 && negb (spr_trn_id state =? name_trn_id (header p))
              then sock_packet_read_retry state (spr_private_data state)
              else
                let '(ok, priv) := run_validator state p in
                if negb ok then sock_packet_read_retry state priv
                else
                  (TEVENT_REQ_DONE,
                   mk_spr (spr_reader state) (spr_reader_req state) false
                     (spr_trn_id state) (spr_validator state) priv (Some p))
          end
      end
  end.

(** A sub-wait that completes calls its callback; a request that is no
    longer in progress has released its sub-waits and receives nothing. *)
Inductive race_event :=
| FromReader (res : reader_result)
| FromSocket (res : socket_result).

Definition sock_packet_read_step {V} (ev : race_event)
    (st : tevent_req_state * sock_packet_read_state V)
  : tevent_req_state * sock_packet_read_state V :=
  match fst st with
  | TEVENT_REQ_IN_PROGRESS =>
      match ev with
      | FromReader res =>
          if spr_reader_req (snd st) then sock_packet_read_got_packet res (snd st)
          else st
      | FromSocket res =>
          if spr_socket_req (snd st) then sock_packet_read_got_socket res (snd st)
          else st
      end
  | _ => st
  end.

Definition sock_packet_read_run {V} (evs : list race_event)
    (st : tevent_req_state * sock_packet_read_state V)
  : tevent_req_state * sock_packet_read_state V :=
  fold_left (fun st ev => sock_packet_read_step ev st) evs st.

(** namequery.c:559 *)
Definition sock_packet_read_recv {V}
    (st : tevent_req_state * sock_packet_read_state V)
  : NTSTATUS * option packet_struct :=
  match tevent_req_is_nterror (fst st) with
  | Some status => (status, None)
  | None => (NT_STATUS_OK, spr_packet (snd st))
  end.

(** ** The WINS sequencer (namequery.c:2074-2205) *)

(** What the NetBIOS client code reads from its surroundings. *)
Record nbt_env := mk_nbt_env {
  nbt_ifs : interfaces;
  lp_disable_netbios : bool;
  build_packet_len : Z;
  my_socket_addr_v4 : Z
}.

Record query_wins_list_state := mk_qwl {
  qwl_servers : list Z;
  qwl_num_sent : nat;
  qwl_addrs : list sockaddr_storage;
  qwl_flags : Z
}.

(** [timeval_current_ofs(secs, usecs)]: a point in time, counted in
    microseconds from the moment it is asked for. *)
Definition timeval_current_ofs (secs usecs : Z) : Z := secs * 1000000 + usecs.

(** A deadline set by [tevent_req_set_endtime]: of what arrives for a
    request, each event paired with its time of arrival in microseconds
    from the sending of the request, the event loop delivers what
    arrives before the deadline; what arrives later finds the request
    gone. *)
Definition tevent_before_endtime {E} (endtime : Z) (arrivals : list (Z * E))
  : list E :=
  map snd (filter (fun a => fst a < endtime) arrivals).

(** A [name_query] sub-request with the deadline that
    [tevent_req_set_endtime] put on it. *)
Record name_query_req := mk_nqr {
  nqr_posted : option NTSTATUS;
  nqr_state : name_query_state;
  nqr_endtime : Z
}.

Inductive query_wins_list_req :=
| QWL_WAITING (subreq : name_query_req)
| QWL_FINISHED (status : NTSTATUS).

(** Modelled from the spec: [wins_srv_died] keeps, per pair of server
    and source address, a dead flag in a side table. *)
Definition wins_srv_died (wins_ip src_ip : Z) (dead : gset (Z * Z)) : gset (Z * Z) :=
  {[ (wins_ip, src_ip) ]} ∪ dead.

(** The sub-request [query_wins_list] starts for [servers[num_sent]]. *)
Definition query_wins_list_subreq (env : nbt_env) (name : string)
    (state : query_wins_list_state) : name_query_req :=
  let server := in_addr_to_sockaddr_storage
                  (nth (qwl_num_sent state) (qwl_servers state) 0) in
  let '(posted, nq) :=
    name_query_send (lp_disable_netbios env) (build_packet_len env)
      name false server in
  mk_nqr posted nq (timeval_current_ofs 2 0).

(** namequery.c:2095 *)
Definition query_wins_list_send (env : nbt_env) (name : string)
    (servers : list Z) : query_wins_list_req * query_wins_list_state :=
  let state := mk_qwl servers 0 [] 0 in
  if (length servers =? 0)%nat then (QWL_FINISHED NT_STATUS_NOT_FOUND, state)
  else
    let subreq := query_wins_list_subreq env name state in
    (QWL_WAITING subreq,
     mk_qwl servers (qwl_num_sent state + 1) [] 0).

(** What [name_query_recv] returns for a sub-request for which
    [arrivals] come in. *)
Definition name_query_req_recv (env : nbt_env) (subreq : name_query_req)
    (arrivals : list (Z * nb_event)) : NTSTATUS * list sockaddr_storage * Z :=
  let evs := tevent_before_endtime (nqr_endtime subreq) arrivals in
  let '(req_status, nq) :=
    name_query_complete (nqr_posted subreq) (nqr_state subreq) evs in
  name_query_recv (nbt_ifs env) req_status nq.

(** namequery.c:2137 *)
Definition query_wins_list_done (env : nbt_env) (name : string)
    (subreq : name_query_req) (arrivals : list (Z * nb_event))
    (state : query_wins_list_state) (dead : gset (Z * Z))
  : query_wins_list_req * query_wins_list_state * gset (Z * Z) :=
  let '(status, addrs, flags) := name_query_req_recv env subreq arrivals in
  if NT_STATUS_IS_OK status then
    (QWL_FINISHED NT_STATUS_OK,
     mk_qwl (qwl_servers state) (qwl_num_sent state) addrs flags, dead)
  else if negb (NT_STATUS_EQUAL status NT_STATUS_IO_TIMEOUT) then
    (QWL_FINISHED status, state, dead)
  else
    let dead := wins_srv_died
                  (nth (qwl_num_sent state - 1) (qwl_servers state) 0)
                  (my_socket_addr_v4 env) dead in
    if (qwl_num_sent state =? length (qwl_servers state))%nat then
      (QWL_FINISHED NT_STATUS_NOT_FOUND, state, dead)
    else
      let subreq := query_wins_list_subreq env name state in
      (QWL_WAITING subreq,
       mk_qwl (qwl_servers state) (qwl_num_sent state + 1)
         (qwl_addrs state) (qwl_flags state), dead).

(** The event loop around the chain: [wire k] is what arrives for the
    query sent to [servers[k]]. *)
Fixpoint query_wins_list_loop (fuel : nat) (env : nbt_env) (name : string)
    (wire : nat -> list (Z * nb_event)) (req : query_wins_list_req)
    (state : query_wins_list_state) (dead : gset (Z * Z))
  : option (NTSTATUS * query_wins_list_state * gset (Z * Z)) :=
  match req with
  | QWL_FINISHED status => Some (status, state, dead)
  | QWL_WAITING subreq =>
      match fuel with
      | O => None
      | S fuel' =>
          let '(req', state', dead') :=
            query_wins_list_done env name subreq
              (wire (qwl_num_sent state - 1)%nat) state dead in
          query_wins_list_loop fuel' env name wire req' state' dead'
      end
  end.

(** namequery.c:2182 *)
Definition query_wins_list_recv (status : NTSTATUS)
    (state : query_wins_list_state) : NTSTATUS * list sockaddr_storage * Z :=
  if negb (NT_STATUS_IS_OK status) then (status, [], 0)
  else (NT_STATUS_OK, qwl_addrs state, qwl_flags state).

Definition query_wins_list (env : nbt_env) (name : string) (servers : list Z)
    (wire : nat -> list (Z * nb_event)) (dead : gset (Z * Z))
  : option (NTSTATUS * query_wins_list_state * gset (Z * Z)) :=
  let '(req, state) := query_wins_list_send env name servers in
  query_wins_list_loop (length servers) env name wire req state dead.

(** ** Asynchronous DNS lookups (namequery.c:2429-2807) *)

(** An SRV record: [ss_s] is the array of embedded addresses, [None]
    for the NULL pointer; [num_ips] is the length of that array. *)
Record dns_rr_srv := mk_dns_rr_srv {
  hostname : option string;
  ss_s : option (list sockaddr_storage)
}.

(** What one A or AAAA lookup comes to before the deadline: nothing, or
    the status, DNS rcode and addresses its [_recv] function returns. *)
Inductive dns_reply :=
| DnsPending
| DnsReturned (status : NTSTATUS) (rcode : Z) (addrs : list samba_sockaddr).

Definition DNS_RCODE_OK : Z := 0.

Record dns_query_state := mk_dns_query {
  query_name : string;
  dq_addrs : list samba_sockaddr      (* num_addrs is its length *)
}.

(** namequery.c:2669 and 2742: the two completion callbacks have the
    same body. *)
Definition dns_lookup_list_done (reply : dns_reply) (state : dns_query_state)
  : dns_query_state :=
  match reply with
  | DnsPending => state
  | DnsReturned status rcode addrs =>
      if negb (NT_STATUS_IS_OK status) then state
      else if negb (rcode =? DNS_RCODE_OK) then state
      else if (length addrs =? 0)%nat then state
      else mk_dns_query (query_name state) addrs
  end.

Definition zeroed_samba_sockaddr : samba_sockaddr := mk_sa 0 zeroed_sockaddr.

(** The inner copy loop, namequery.c:2644-2646:
    [for (j = 0; j < query->num_addrs; j++) addr_out[num_addrs] = query->addrs[j];] *)
Definition dns_copy_query (addr_out : list samba_sockaddr) (num_addrs : nat)
    (addrs : list samba_sockaddr) : list samba_sockaddr :=
  fold_left (fun out a => <[num_addrs := a]> out) addrs addr_out.

(** The outer copy loop, namequery.c:2620-2648. *)
Fixpoint dns_copy_back (queries : list dns_query_state)
    (addr_out : list samba_sockaddr) (num_addrs : nat)
  : list samba_sockaddr * nat :=
  match queries with
  | [] => (addr_out, num_addrs)
  | query :: rest =>
      if (length (dq_addrs query) =? 0)%nat
      then dns_copy_back rest addr_out num_addrs
      else dns_copy_back rest
             (dns_copy_query addr_out num_addrs (dq_addrs query))
             (num_addrs + length (dq_addrs query))
  end.

(** The query array when the wait loop of [dns_lookup_list_async] ends:
    per name an A query, then an AAAA query, each with what its
    callback stored.  [lookup_a] and [lookup_aaaa] give what a query
    has come to by then, by deadline or because every query returned. *)
Definition dns_lookup_queries (lookup_a lookup_aaaa : string -> dns_reply)
    (dns_lookup_names : list string) : list dns_query_state :=
  flat_map (fun n =>
    [ dns_lookup_list_done (lookup_a n) (mk_dns_query n []);
      dns_lookup_list_done (lookup_aaaa n) (mk_dns_query n []) ])
    dns_lookup_names.

(** namequery.c:2458, called with [pp_dns_names == NULL]. *)
Definition dns_lookup_list_async (lookup_a lookup_aaaa : string -> dns_reply)
    (dns_lookup_names : list string) : NTSTATUS * list samba_sockaddr :=
  if (length dns_lookup_names =? 0)%nat then (NT_STATUS_OK, [])
  else
    let queries := dns_lookup_queries lookup_a lookup_aaaa dns_lookup_names in
    let num_addrs :=
      fold_left (fun n query => (n + length (dq_addrs query))%nat) queries 0%nat in
    let addr_out := replicate num_addrs zeroed_samba_sockaddr in
    let '(addr_out, num_addrs) := dns_copy_back queries addr_out 0 in
    (NT_STATUS_OK, addr_out).

(** ** The ADS/KDC resolver (namequery.c:2905-3157) *)

Definition KDC_NAME_TYPE : Z := 0xDCDC.

Record dns_env := mk_dns_env {
  ads_dns_query_pdc : string -> NTSTATUS * list dns_rr_srv;
  ads_dns_query_dcs : string -> option string -> NTSTATUS * list dns_rr_srv;
  ads_dns_query_kdcs : string -> option string -> NTSTATUS * list dns_rr_srv;
  ads_dns_lookup_a : string -> dns_reply;
  ads_dns_lookup_aaaa : string -> dns_reply
}.

(** [(int)] conversion of a [size_t], and back for the comparison of an
    [int] with a [size_t]. *)
Definition int_of_size_t (n : Z) : Z :=
  let m := n mod 2 ^ 32 in if m <? 2 ^ 31 then m else m - 2 ^ 32.
Definition size_t_of_int (n : Z) : Z := n mod 2 ^ 64.

(** First loop (namequery.c:2998-3030): a record that carries addresses
    loses its hostname. *)
Definition resolve_ads_clear_hostname (dc : dns_rr_srv) : dns_rr_srv :=
  match ss_s dc with
  | Some ips => mk_dns_rr_srv None (Some ips)
  | None => dc
  end.

(** Second loop (namequery.c:3043-3063): a zero address is overwritten
    by the next one. *)
Definition resolve_ads_srv_addrs (dcs : list dns_rr_srv) : list sockaddr_storage :=
  fold_left (fun srv_addrs dc =>
    fold_left (fun srv_addrs a =>
      if is_zero_addr a then srv_addrs else srv_addrs ++ [a])
      (default [] (ss_s dc)) srv_addrs) dcs [].

(** Third loop (namequery.c:3076-3086). *)
Definition resolve_ads_lookup_names (dcs : list dns_rr_srv) : list string :=
  fold_left (fun names dc =>
    match hostname dc with
    | None => names
    | Some h => names ++ [h]
    end) dcs [].

(** namequery.c:2905.  The [size_t] wrap checks of the counting loops
    cannot fire on the length of a list and are left out; the [int]
    conversion of the total is kept. *)
Definition resolve_ads (env : dns_env) (name : string) (name_type : Z)
    (sitename : option string) : NTSTATUS * list sockaddr_storage :=
  if negb (name_type =? 0x1c) && negb (name_type =? KDC_NAME_TYPE)
     && negb (name_type =? 0x1b)
  then (NT_STATUS_INVALID_PARAMETER, [])
  else
    let '(status, dcs) :=
      if name_type =? 0x1b then ads_dns_query_pdc env name
      else if name_type =? 0x1c then ads_dns_query_dcs env name sitename
      else ads_dns_query_kdcs env name sitename in
    if negb (NT_STATUS_IS_OK status) then (status, [])
    else if (length dcs =? 0)%nat then (NT_STATUS_OK, [])
    else
      let dcs := map resolve_ads_clear_hostname dcs in
      let srv_addrs := resolve_ads_srv_addrs dcs in
      let dns_lookup_names := resolve_ads_lookup_names dcs in
      let '(status, dns_addrs) :=
        dns_lookup_list_async (ads_dns_lookup_a env) (ads_dns_lookup_aaaa env)
          dns_lookup_names in
      if negb (NT_STATUS_IS_OK status) then (status, [])
      else
        let num_srv_addrs := Z.of_nat (length srv_addrs) in
        let num_dns_addrs := Z.of_nat (length dns_addrs) in
        let numaddrs := int_of_size_t (num_srv_addrs + num_dns_addrs) in
        if (size_t_of_int numaddrs <? num_srv_addrs) || (numaddrs <? 0)
        then (NT_STATUS_INVALID_PARAMETER, [])
        else if numaddrs =? 0 then (NT_STATUS_OK, [])
        else (NT_STATUS_OK, srv_addrs ++ map u_ss dns_addrs).

(** ** Duplicate removal (namequery.c:1234-1281) *)

(** First loop: every later pair equal to pair [i] gets a zero address. *)
Definition mark_duplicate (x y : ip_service) : ip_service :=
  match sockaddr_storage_to_samba_sockaddr (ss y) with
  | None => y
  | Some sa_j =>
      if sockaddr_equal (ss x) (u_ss sa_j) && (port x =? port y)
      then mk_ip_service zero_sockaddr (port y)
      else y
  end.

(** The inner loop [for ( j=i+1; j<count; j++ )]. *)
Definition mark_duplicates_of (i : nat) (x : ip_service)
    (iplist : list ip_service) : list ip_service :=
  fold_left (fun l j =>
    match l !! j with
    | Some y => <[j := mark_duplicate x y]> l
    | None => l
    end) (seq (i + 1) (length iplist - (i + 1))) iplist.

(** The outer loop [for ( i=0; i<count; i++ )]. *)
Definition mark_duplicates (iplist : list ip_service) : list ip_service :=
  fold_left (fun l i =>
    match l !! i with
    | None => l
    | Some x =>
        match sockaddr_storage_to_samba_sockaddr (ss x) with
        | None => l
        | Some sa_i =>
            if is_zero_addr (u_ss sa_i) then l
            else mark_duplicates_of i x l
        end
    end) (seq 0 (length iplist)) iplist.

(** Second loop: [ARRAY_DEL_ELEMENT] on every zero address. *)
Definition remove_duplicate_addrs2 (iplist : list ip_service) : list ip_service :=
  filter (fun s => is_zero_addr (ss s) = false) (mark_duplicates iplist).

(** namequery.c:1697; [None] is its [false]. *)
Definition convert_ss2service (ss_list : list sockaddr_storage)
  : option (list ip_service) :=
  if (length ss_list =? 0)%nat then None
  else
    let kept := filter (fun a => is_zero_addr a = false) ss_list in
    if (length kept =? 0)%nat then None
    else Some (map (fun a => mk_ip_service a PORT_NONE) kept).

(** namequery.c:73 *)
Definition ip_service_to_samba_sockaddr (iplist : list ip_service)
  : NTSTATUS * list samba_sockaddr :=
  if (length iplist =? 0)%nat then (NT_STATUS_OK, [])
  else
    match mapM (fun s => sockaddr_storage_to_samba_sockaddr (ss s)) iplist with
    | Some sa => (NT_STATUS_OK, sa)
    | None => (NT_STATUS_INVALID_PARAMETER, [])
    end.

(** ** The pipeline driver (namequery.c:2814-2896, 3159-3602) *)

(** The collaborators of the driver.  [resolve_wins] and
    [name_resolve_bcast] enter it through the status and the address
    list they return. *)
Record resolver_env := mk_resolver_env {
  strequal : string -> string -> bool;
  is_ipaddress : string -> bool;
  interpret_string_addr : string -> option sockaddr_storage;
  is_broadcast_addr : sockaddr_storage -> bool;
  getaddrinfo : string -> list (option sockaddr_storage);
  dns : dns_env;
  resolve_lmhosts_file_as_sockaddr : string -> Z -> NTSTATUS * list sockaddr_storage;
  resolve_wins : string -> Z -> NTSTATUS * list sockaddr_storage;
  name_resolve_bcast : string -> Z -> NTSTATUS * list sockaddr_storage;
  sitename_fetch : option string;
  lp_name_resolve_order : option (list string)
}.

Inductive backend :=
| BACKEND_HOST | BACKEND_KDC | BACKEND_ADS
| BACKEND_LMHOSTS | BACKEND_WINS | BACKEND_BCAST.

#[global] Instance backend_eq_dec : EqDecision backend.
Proof. solve_decision. Defined.

(** What the driver asks of its surroundings, in the order it asks. *)
Inductive resolver_call :=
| CALL_NAMECACHE_FETCH (name : string) (name_type : Z)
| CALL_BACKEND (b : backend) (status : NTSTATUS).

#[global] Instance resolver_call_eq_dec : EqDecision resolver_call.
Proof. solve_decision. Defined.

Record resolver_state := mk_resolver_state {
  namecache : gmap (string * Z) (list samba_sockaddr);
  calls : list resolver_call
}.

(** Modelled from the spec: [namecache_fetch] (namecache.c) is outside
    the sources at hand; an entry of the name cache maps a pair of name
    and type to a list of endpoints. *)
Definition namecache_fetch (name : string) (name_type : Z)
    (cache : gmap (string * Z) (list samba_sockaddr))
  : option (list samba_sockaddr) :=
  cache !! (name, name_type).

(** Modelled from the spec: [namecache_store] (namecache.c) is outside
    the sources at hand; a positive result is stored under its name and
    type, except that nothing is stored for the kdc backend, which the
    driver makes known by the synthetic type [KDC_NAME_TYPE]. *)
Definition namecache_store (name : string) (name_type : Z)
    (sa_list : list samba_sockaddr)
    (cache : gmap (string * Z) (list samba_sockaddr))
  : gmap (string * Z) (list samba_sockaddr) :=
  if name_type =? KDC_NAME_TYPE then cache
  else <[ (name, name_type) := sa_list ]> cache.

(** namequery.c:2814 *)
Definition resolve_hosts (env : resolver_env) (name : string) (name_type : Z)
  : NTSTATUS * list sockaddr_storage :=
  if negb (name_type =? 0x20) && negb (name_type =? 0x0)
  then (NT_STATUS_INVALID_PARAMETER, [])
  else
    let return_iplist :=
      fold_left (fun acc res =>
        match res with
        | None => acc
        | Some a => if is_zero_addr a then acc else acc ++ [a]
        end) (getaddrinfo env name) [] in
    if negb (length return_iplist =? 0)%nat then (NT_STATUS_OK, return_iplist)
    else (NT_STATUS_UNSUCCESSFUL, return_iplist).

(** namequery.c:3159 *)
Fixpoint filter_out_nbt_lookup (env : resolver_env) (resolve_order : list string)
  : list string :=
  match resolve_order with
  | [] => []
  | tok :: rest =>
      if strequal env tok "lmhosts" || strequal env tok "wins"
         || strequal env tok "bcast"
      then filter_out_nbt_lookup env rest
      else tok :: filter_out_nbt_lookup env rest
  end.

Definition MAX_NETBIOSNAME_LEN : Z := 16.

Definition strchr (name : string) (c : ascii) : bool :=
  existsb (fun x => bool_decide (x = c)) (list_ascii_of_string name).

(** namequery.c:3311-3332: the order the backend loop iterates over;
    [None] when lookups are disabled by a leading [NULL] tag.  An empty
    vector is taken past the [strcmp], as the test that follows it
    expects. *)
Definition effective_resolve_order (env : resolver_env) (name : string)
    (resolve_order : option (list string)) : option (list string) :=
  match resolve_order with
  | Some (tok :: _) => if String.eqb tok "NULL" then None else Some ()
  | _ => Some ()
  end ≫= fun _ =>
  let resolve_order :=
    match resolve_order with
    | None | Some [] => ["host"%string]
    | Some order => order
    end in
  if (Z.of_nat (String.length name) >? MAX_NETBIOSNAME_LEN - 1)
     || strchr name "."%char
  then Some (filter_out_nbt_lookup env resolve_order)
  else Some resolve_order.

(** One turn of [for (i=0; resolve_order[i]; i++)]: the backend tried,
    if any, with the status and addresses it returned and the name type
    the result is to be filed under. *)
Definition resolve_dispatch (env : resolver_env) (name : string) (name_type : Z)
    (sitename : option string) (tok : string)
  : option (backend * (NTSTATUS * list sockaddr_storage) * Z) :=
  if strequal env tok "host" || strequal env tok "hosts" then
    Some (BACKEND_HOST, resolve_hosts env name name_type, name_type)
  else if strequal env tok "kdc" then
    Some (BACKEND_KDC, resolve_ads (dns env) name KDC_NAME_TYPE sitename,
          KDC_NAME_TYPE)
  else if strequal env tok "ads" then
    Some (BACKEND_ADS, resolve_ads (dns env) name name_type sitename, name_type)
  else if strequal env tok "lmhosts" then
    Some (BACKEND_LMHOSTS, resolve_lmhosts_file_as_sockaddr env name name_type,
          name_type)
  else if strequal env tok "wins" then
    if name_type =? 0x1D then None
    else Some (BACKEND_WINS, resolve_wins env name name_type, name_type)
  else if strequal env tok "bcast" then
    Some (BACKEND_BCAST, name_resolve_bcast env name name_type, name_type)
  else None.

(** The backend loop: [inr] is [goto done] with the address list and the
    name type, [inl] the status left when the order is exhausted. *)
Fixpoint resolve_backends (env : resolver_env) (name : string) (name_type : Z)
    (sitename : option string) (resolve_order : list string)
    (status : NTSTATUS) (log : list resolver_call)
  : (NTSTATUS + list sockaddr_storage * Z) * list resolver_call :=
  match resolve_order with
  | [] => (inl status, log)
  | tok :: rest =>
      match resolve_dispatch env name name_type sitename tok with
      | None => resolve_backends env name name_type sitename rest status log
      | Some (b, (status', ss_list), name_type') =>
          let log := log ++ [CALL_BACKEND b status'] in
          if negb (NT_STATUS_IS_OK status')
          then resolve_backends env name name_type sitename rest status' log
          else (inr (ss_list, name_type'), log)
      end
  end.

(** namequery.c:3202 *)
Definition internal_resolve_name (env : resolver_env) (name : string)
    (name_type : Z) (sitename : option string)
    (resolve_order : option (list string)) (st : resolver_state)
  : NTSTATUS * list ip_service * resolver_state :=
  if is_ipaddress env name then
    match interpret_string_addr env name with
    | None => (NT_STATUS_INVALID_PARAMETER, [], st)
    | Some a =>
        if is_zero_addr a then (NT_STATUS_UNSUCCESSFUL, [], st)
        else (NT_STATUS_OK, [mk_ip_service a PORT_NONE], st)
    end
  else
    let st := mk_resolver_state (namecache st)
                (calls st ++ [CALL_NAMECACHE_FETCH name name_type]) in
    match namecache_fetch name name_type (namecache st) with
    | Some sa_list =>
        let iplist :=
          map (fun sa => mk_ip_service (u_ss sa) 0)
            (filter (fun sa => is_zero_addr (u_ss sa) = false) sa_list) in
        let iplist := remove_duplicate_addrs2 iplist in
        if (length iplist =? 0)%nat then (NT_STATUS_UNSUCCESSFUL, [], st)
        else (NT_STATUS_OK, iplist, st)
    | None =>
        match effective_resolve_order env name resolve_order with
        | None => (NT_STATUS_INVALID_PARAMETER, [], st)
        | Some order =>
            match resolve_backends env name name_type sitename order
                    NT_STATUS_UNSUCCESSFUL (calls st) with
            | (inl status, log) =>
                (status, [], mk_resolver_state (namecache st) log)
            | (inr (ss_list, name_type), log) =>
                let st := mk_resolver_state (namecache st) log in
                match convert_ss2service ss_list with
                | None => (NT_STATUS_NO_MEMORY, [], st)
                | Some iplist =>
                    let iplist := remove_duplicate_addrs2 iplist in
                    if negb (length iplist =? 0)%nat then
                      match ip_service_to_samba_sockaddr iplist with
                      | (NT_STATUS_OK, sa_converted_list) =>
                          (NT_STATUS_OK, iplist,
                           mk_resolver_state
                             (namecache_store name name_type sa_converted_list
                                (namecache st)) log)
                      | (status, _) => (status, [], st)
                      end
                    else (NT_STATUS_OK, iplist, st)
                end
            end
        end
    end.

(** The two scans of [resolve_name] over the resolved list: the first
    entry that is not a broadcast address (and is IPv4, when
    [v4_only]); an entry that fails the conversion ends the call. *)
Fixpoint resolve_name_scan (env : resolver_env) (v4_only : bool)
    (ss_list : list ip_service) : option (bool * option sockaddr_storage) :=
  match ss_list with
  | [] => None
  | s :: rest =>
      match sockaddr_storage_to_samba_sockaddr (ss s) with
      | None => Some (false, None)
      | Some sa =>
          if negb (is_broadcast_addr env (u_ss sa))
             && (negb v4_only || bool_decide (ss_family (u_ss sa) = AF_INET))
          then Some (true, Some (ss s))
          else resolve_name_scan env v4_only rest
      end
  end.

(** namequery.c:3527 *)
Definition resolve_name (env : resolver_env) (name : string) (name_type : Z)
    (prefer_ipv4 : bool) (st : resolver_state)
  : bool * option sockaddr_storage * resolver_state :=
  if is_ipaddress env name then
    match interpret_string_addr env name with
    | Some a => (true, Some a, st)
    | None => (false, None, st)
    end
  else
    let '(status, ss_list, st) :=
      internal_resolve_name env name name_type (sitename_fetch env)
        (lp_name_resolve_order env) st in
    if NT_STATUS_IS_OK status then
      match (if prefer_ipv4 then resolve_name_scan env true ss_list else None) with
      | Some (ok, r) => (ok, r, st)
      | None =>
          match resolve_name_scan env false ss_list with
          | Some (ok, r) => (ok, r, st)
          | None => (false, None, st)
          end
      end
    else (false, None, st).

(** ** Concrete surroundings used to run the definitions *)

Definition ip4 (a b c d : Z) : Z :=
  Z.lor (Z.shiftl a 24) (Z.lor (Z.shiftl b 16) (Z.lor (Z.shiftl c 8) d)).

Definition v4 (a b c d : Z) : sockaddr_storage := mk_ss AF_INET (ip4 a b c d).

Definition digit_of (c : ascii) : option Z :=
  let n := Z.of_N (N_of_ascii c) in
  if (48 <=? n) && (n <=? 57) then Some (n - 48) else None.

Fixpoint parse_decimal (l : list ascii) (acc : option Z) : option Z :=
  match l with
  | [] => acc
  | c :: r =>
      match digit_of c with
      | None => None
      | Some d => parse_decimal r (Some (10 * default 0 acc + d))
      end
  end.

Fixpoint split_dots (l cur : list ascii) : list (list ascii) :=
  match l with
  | [] => [cur]
  | c :: r =>
      if bool_decide (c = "."%char) then cur :: split_dots r []
      else split_dots r (cur ++ [c])
  end.

Definition octet (l : list ascii) : option Z :=
  match parse_decimal l None with
  | Some n => if (n <=? 255) && (length l <=? 3)%nat then Some n else None
  | None => None
  end.

(** Modelled from the spec: [is_ipaddress] and [interpret_string_addr]
    (lib/util) recognise and parse a numeric IP literal.  The model
    reads dotted quads, and of the IPv6 texts the unspecified address
    only. *)
Definition sample_interpret_string_addr (name : string) : option sockaddr_storage :=
  if String.eqb name "::" then Some (mk_ss AF_INET6 0)
  else
    match map octet (split_dots (list_ascii_of_string name) []) with
    | [Some a; Some b; Some c; Some d] => Some (v4 a b c d)
    | _ => None
    end.

Definition to_lower (c : ascii) : ascii :=
  let n := N_of_ascii c in
  if ((65 <=? n) && (n <=? 90))%N then ascii_of_N (n + 32) else c.

(** Modelled from the spec: [strequal] (lib/util) is the comparison the
    backend tags are recognised with; the model ignores ASCII case. *)
Definition sample_strequal (a b : string) : bool :=
  bool_decide (map to_lower (list_ascii_of_string a)
               = map to_lower (list_ascii_of_string b)).

(** Two SRV records, the first with its address embedded, the second a
    bare hostname. *)
Definition sample_srv_reply : list dns_rr_srv :=
  [ mk_dns_rr_srv (Some "dc1.example.com"%string) (Some [v4 192 0 2 1]);
    mk_dns_rr_srv (Some "dc2.example.com"%string) None ].

(** [dc2.example.com] has one A record. *)
Definition sample_dns_one : dns_env :=
  mk_dns_env
    (fun _ => (NT_STATUS_OK, sample_srv_reply))
    (fun _ _ => (NT_STATUS_OK, sample_srv_reply))
    (fun _ _ => (NT_STATUS_OK, sample_srv_reply))
    (fun n => if String.eqb n "dc2.example.com"
              then DnsReturned NT_STATUS_OK 0 [mk_sa sizeof_sockaddr_in (v4 192 0 2 2)]
              else DnsReturned NT_STATUS_OK 3 [])
    (fun _ => DnsReturned NT_STATUS_OK 0 []).

(** [dc2.example.com] has two A records. *)
Definition sample_dns_two : dns_env :=
  mk_dns_env
    (fun _ => (NT_STATUS_OK, sample_srv_reply))
    (fun _ _ => (NT_STATUS_OK, sample_srv_reply))
    (fun _ _ => (NT_STATUS_OK, sample_srv_reply))
    (fun n => if String.eqb n "dc2.example.com"
              then DnsReturned NT_STATUS_OK 0
                     [mk_sa sizeof_sockaddr_in (v4 192 0 2 2);
                      mk_sa sizeof_sockaddr_in (v4 192 0 2 3)]
              else DnsReturned NT_STATUS_OK 3 [])
    (fun _ => DnsReturned NT_STATUS_OK 0 []).

Definition sample_env : resolver_env :=
  mk_resolver_env
    sample_strequal
    (fun name => bool_decide (is_Some (sample_interpret_string_addr name)))
    sample_interpret_string_addr
    (fun a => bool_decide (a = v4 255 255 255 255))
    (fun name => if String.eqb name "fileserver"
                 then [Some (v4 10 0 0 5)] else [])
    sample_dns_one
    (fun _ _ => (NT_STATUS_NOT_FOUND, []))
    (fun name _ => if String.eqb name "FIFTEEN-CHARS-X"
                   then (NT_STATUS_OK, [v4 10 0 0 7])
                   else (NT_STATUS_NOT_FOUND, []))
    (fun _ _ => (NT_STATUS_NOT_FOUND, []))
    None
    (Some ["lmhosts"; "wins"; "host"; "bcast"]%string).

Definition empty_resolver_state : resolver_state := mk_resolver_state ∅ [].

(** One interface, 10.0.0.255 being its broadcast address; addresses in
    10.0.0.0/24 are local. *)
Definition sample_ifs : interfaces :=
  mk_interfaces 1 (fun _ => v4 10 0 0 255)
    (fun a => Z.shiftr (ss_addr a) 8 =? Z.shiftr (ip4 10 0 0 0) 8).

Definition sample_nbt_env : nbt_env := mk_nbt_env sample_ifs false 50 (ip4 10 0 0 9).


Definition sample_header (rc an : Z) : nmb_header :=
  mk_nmb_header 7 0 true false false true false true rc an.

(** A positive response carrying the given six-byte records. *)
Definition sample_response (records : list Z) : packet_struct :=
  mk_packet (sample_header 0 1) (mk_res_rec (Z.of_nat (length records)) records).

(** A negative response: rcode 3, the name does not exist. *)
Definition sample_negative : packet_struct :=
  mk_packet (sample_header 3 0) (mk_res_rec 0 []).

(** ** Vocabulary of the statements *)

(** Every interface address converts, so the interface loop of
    [addr_compare] runs to its end. *)
Definition ifaces_usable (ifs : interfaces) (idx : list nat) : bool :=
  forallb (fun i =>
    bool_decide (is_Some (sockaddr_storage_to_samba_sockaddr (iface_n_bcast ifs i))))
    idx.

(** The largest number of leading bits an address shares with an
    interface of its family. *)
Fixpoint max_matching_bits (ifs : interfaces) (a : sockaddr_storage)
    (idx : list nat) (max_bits : Z) : Z :=
  match idx with
  | [] => max_bits
  | i :: rest =>
      let sif := iface_n_bcast ifs i in
      if bool_decide (ss_family sif = ss_family a)
         && negb (family_len (ss_family sif) =? 0)%nat
      then
        let len := family_len (ss_family sif) in
        max_matching_bits ifs a rest
          (Z.max (matching_len_bits (addr_bytes len (ss_addr a))
                    (addr_bytes len (ss_addr sif))) max_bits)
      else max_matching_bits ifs a rest max_bits
  end.

(** The score of section 4.12 of the specification, in its words: the
    largest number of leading bits shared with an interface of the
    family, and for an address that [iface_local] takes for directly
    reachable 32 more if it is IPv4 and 128 more if it is IPv6. *)
Definition shared_bits (ifs : interfaces) (a : sockaddr_storage) : Z :=
  max_matching_bits ifs a (seq 0 (iface_count ifs)) 0.

Definition proximity (ifs : interfaces) (a : sockaddr_storage) : Z :=
  shared_bits ifs a
  + (if iface_local ifs a
     then match ss_family a with AF_INET => 32 | _ => 128 end
     else 0).

(** The header test a broadcast response has to pass before its answers
    are read. *)
Definition positive_response (p : packet_struct) : bool :=
  (opcode (header p) =? 0) && negb (nm_bcast (header p))
  && (rcode (header p) =? 0) && negb (ancount (header p) =? 0).

(** Some six-byte answer record has the group bit [0x8000] clear. *)
Definition has_unique_answer (p : packet_struct) : bool :=
  existsb (fun i => Z.land (RSVAL (answers p) (i * 6)) 0x8000 =? 0)
    (seq 0 (Z.to_nat (Z.quot (rdlength (answers p)) 6))).

(** The state of a query once [pkts] went through the validator, and
    the addresses it has collected by then. *)
Definition validated (state : name_query_state) (pkts : list packet_struct)
  : name_query_state :=
  fold_left (fun st p => snd (name_query_validator p st)) pkts state.

Definition collected (state : name_query_state) (pkts : list packet_struct)
  : list sockaddr_storage :=
  nq_addrs (validated state pkts).

(** The addresses a response carries: one in each six-byte record of its
    answer, two bytes of flags followed by the four bytes of an IPv4
    address. *)
Definition response_addrs (p : packet_struct) : list sockaddr_storage :=
  map (fun i => in_addr_to_sockaddr_storage (putip (answers p) (2 + i * 6)))
    (seq 0 (Z.to_nat (Z.quot (rdlength (answers p)) 6))).

(** The addresses there are to collect from the packets a query has
    consumed: those of the positive responses, the zero address left
    out. *)
Definition collectable_addresses (pkts : list packet_struct) : list sockaddr_storage :=
  filter (fun a => is_zero_addr a = false)
    (flat_map response_addrs (filter (fun p => positive_response p = true) pkts)).

(** A positive response comes with at least one six-byte record. *)
Definition carries_record (p : packet_struct) : bool :=
  implb (positive_response p) (6 <=? rdlength (answers p)).

(** What a broadcast query that has consumed [pkts] completes with:
    [NT_STATUS_NOT_FOUND] when they hold no address, and otherwise
    success with their addresses, each once, in ranked order. *)
Definition collection_result (ifs : interfaces) (pkts : list packet_struct)
    (res : NTSTATUS * list sockaddr_storage * Z) : Prop :=
  match collectable_addresses pkts with
  | [] => res = (NT_STATUS_NOT_FOUND, [], 0)
  | _ :: _ =>
      exists addrs flags,
        res = (NT_STATUS_OK, addrs, flags)
        /\ NoDup addrs
        /\ (forall a, a ∈ addrs <-> a ∈ collectable_addresses pkts)
        /\ StronglySorted (fun a b => addr_compare ifs a b <= 0) addrs
  end.

(** A broadcast response that ends the collection: a positive response
    with a unique name in it, to a query for a name other than ["*"]. *)
Definition ends_collection (name : string) (p : packet_struct) : bool :=
  positive_response p && has_unique_answer p && negb (String.eqb name "*").

(** A response a unicast query takes for its answer: a query response
    (opcode 0) that is negative (rcode not 0), or positive (B flag
    clear, rcode 0, at least one answer).  Any other packet is dropped
    and the query goes on waiting. *)
Definition unicast_answer (p : packet_struct) : bool :=
  (opcode (header p) =? 0)
  && (negb (rcode (header p) =? 0)
      || (negb (nm_bcast (header p)) && negb (ancount (header p) =? 0))).

(** What ends a unicast query before its deadline: an answer, or the
    failure of the transport. *)
Definition ends_unicast (ev : nb_event) : bool :=
  match ev with
  | Response p => unicast_answer p
  | TransportFailure _ => true
  end.

(** What ends the query sent to a WINS server: the first arrival within
    [seconds] seconds of the sending that is an answer or a failure of
    the transport.  There is none exactly when the deadline of [seconds]
    seconds fires. *)
Definition wins_query_end (seconds : Z) (arrivals : list (Z * nb_event))
  : option nb_event :=
  match find (fun a => (fst a <? seconds * 1000000) && ends_unicast (snd a))
          arrivals with
  | Some a => Some (snd a)
  | None => None
  end.

Definition wins_deadline_fires (seconds : Z) (arrivals : list (Z * nb_event))
  : bool :=
  match wins_query_end seconds arrivals with
  | None => true
  | Some _ => false
  end.

(** The query to a server times out: its two-second deadline fires, or
    the transport fails within the two seconds with the very status of
    a timeout. *)
Definition wins_timed_out (arrivals : list (Z * nb_event)) : bool :=
  match wins_query_end 2 arrivals with
  | None => true
  | Some (TransportFailure status) => NT_STATUS_EQUAL status NT_STATUS_IO_TIMEOUT
  | Some (Response _) => false
  end.

(** The number of servers at the head of the list whose query times
    out. *)
Fixpoint wins_timeouts_from (wire : nat -> list (Z * nb_event)) (k n : nat) : nat :=
  match n with
  | O => k
  | S n' => if wins_timed_out (wire k) then wins_timeouts_from wire (S k) n' else k
  end.

Definition wins_timeouts (servers : list Z) (wire : nat -> list (Z * nb_event))
  : nat :=
  wins_timeouts_from wire 0 (length servers).

(** What [name_query] returns for the query to [servers[k]], run on
    what arrives for it within two seconds. *)
Definition wins_reply (env : nbt_env) (name : string) (servers : list Z)
    (wire : nat -> list (Z * nb_event)) (k : nat)
  : NTSTATUS * list sockaddr_storage * Z :=
  name_query (nbt_ifs env) (lp_disable_netbios env) (build_packet_len env)
    name false (in_addr_to_sockaddr_storage (nth k servers 0))
    (map snd (filter (fun a => fst a < 2 * 1000000) (wire k))).

(** The dead flags for [servers[k..m)] as seen from [src_ip]. *)
Definition wins_marked (src_ip : Z) (servers : list Z) (k m : nat) : gset (Z * Z) :=
  list_to_set (map (fun s => (s, src_ip)) (drop k (take m servers))).

(** The backends that speak NetBIOS. *)
Definition is_nbt_backend (b : backend) : bool :=
  match b with
  | BACKEND_LMHOSTS | BACKEND_WINS | BACKEND_BCAST => true
  | _ => false
  end.

Definition is_nbt_tag (env : resolver_env) (tok : string) : bool :=
  strequal env tok "lmhosts" || strequal env tok "wins" || strequal env tok "bcast".

(** The list section 4.8 of the specification asks of the hostname
    lookups: every address of every query, in the order the queries
    were issued. *)
Definition dns_lookup_list_spec (lookup_a lookup_aaaa : string -> dns_reply)
    (dns_lookup_names : list string) : list samba_sockaddr :=
  flat_map dq_addrs (dns_lookup_queries lookup_a lookup_aaaa dns_lookup_names).

(** The resolve order as configured, before the NetBIOS filter: none
    when a leading [NULL] tag disables all lookups, [host] alone when
    nothing is configured. *)
Definition configured_order (resolve_order : option (list string))
  : option (list string) :=
  match resolve_order with
  | None | Some [] => Some ["host"%string]
  | Some (tok :: rest) =>
      if String.eqb tok "NULL" then None else Some (tok :: rest)
  end.

(** ** Ranking and partition of service lists (namequery.c:1187-1228, 1283-1313) *)

(** namequery.c:1187 *)
Definition ip_service_compare (ifs : interfaces) (ss1 ss2 : ip_service) : Z :=
  let result := addr_compare ifs (ss ss1) (ss ss2) in
  if negb (result =? 0) then result
  else if port ss1 >? port ss2 then 1
  else if port ss1 <? port ss2 then -1
  else 0.

(** namequery.c:1221 *)
Definition sort_service_list (ifs : interfaces) (servlist : list ip_service)
  : list ip_service :=
  if Z.of_nat (length servlist) <=? 1 then servlist
  else TYPESAFE_QSORT (ip_service_compare ifs) servlist.

(** namequery.c:1283: the two copy loops into [iplist_new], which is
    then copied back over [iplist]. *)
Definition prioritize_ipv4_list (iplist : list ip_service) : list ip_service :=
  let iplist_new :=
    fold_left (fun new s =>
      if bool_decide (ss_family (ss s) = AF_INET) then new ++ [s] else new)
      iplist [] in
  fold_left (fun new s =>
    if negb (bool_decide (ss_family (ss s) = AF_INET)) then new ++ [s] else new)
    iplist iplist_new.

(** ** The NBT client address and transaction ids (namequery.c:292-326) *)

(** namequery.c:292.  [configured] is what [interpret_string_addr] makes
    of [lp_nbt_client_socket_address()], [None] when it fails; [addr] is
    the structure the caller passes in. *)
Definition set_socket_addr_v4 (configured : option sockaddr_storage)
    (addr : samba_sockaddr) : samba_sockaddr :=
  let addr :=
    match configured with
    | Some a => mk_sa (sa_socklen addr) a
    | None => mk_sa sizeof_sockaddr_in zero_sockaddr
    end in
  if negb (bool_decide (ss_family (u_ss addr) = AF_INET))
  then mk_sa sizeof_sockaddr_in zero_sockaddr
  else addr.

(** namequery.c:319.  [id] is the 16-bit number that
    [generate_random_buffer] fills in. *)
Definition generate_trn_id (id : Z) : Z := (id mod 2 ^ 16) mod 0x7FFF.

(** ** Server affinity (namequery.c:117-290) *)

(** Modelled from the spec: the generic TTL key/value store [gencache]
    is outside the sources at hand; it has get, set and delete, and an
    entry lives until its expiry time.  An entry is a value with its
    expiry time; [now] is [time(NULL)]. *)
Definition gencache_set (key value : string) (expire : Z)
    (cache : gmap string (string * Z)) : bool * gmap string (string * Z) :=
  (true, <[key := (value, expire)]> cache).

Definition gencache_get (key : string) (now : Z)
    (cache : gmap string (string * Z)) : option string :=
  match cache !! key with
  | Some (value, expire) => if expire <=? now then None else Some value
  | None => None
  end.

Definition gencache_del (key : string) (now : Z)
    (cache : gmap string (string * Z)) : bool * gmap string (string * Z) :=
  (bool_decide (is_Some (gencache_get key now cache)), delete key cache).

Definition to_upper (c : ascii) : ascii :=
  let n := N_of_ascii c in
  if ((97 <=? n) && (n <=? 122))%N then ascii_of_N (n - 32) else c.

(** Modelled from the spec: [talloc_asprintf_strupper_m] (lib/util)
    formats and then upper-cases the whole string; the model upper-cases
    ASCII letters. *)
Definition strupper (s : string) : string :=
  string_of_list_ascii (map to_upper (list_ascii_of_string s)).

Definition SAF_TTL : Z := 900.
Definition SAFJOIN_TTL : Z := 3600.

(** namequery.c:122 *)
Definition saf_key (domain : string) : string :=
  strupper ("SAF/DOMAIN/" +:+ domain).

(** namequery.c:127 *)
Definition saf_join_key (domain : string) : string :=
  strupper ("SAFJOIN/DOMAIN/" +:+ domain).

(** namequery.c:135.  [ttl] is [lp_parm_int(-1, "saf", "ttl", SAF_TTL)];
    a NULL string is [None]. *)
Definition saf_store (domain servername : option string) (now ttl : Z)
    (cache : gmap string (string * Z)) : bool * gmap string (string * Z) :=
  match domain, servername with
  | Some domain, Some servername =>
      if (String.length domain =? 0)%nat || (String.length servername =? 0)%nat
      then (false, cache)
      else gencache_set (saf_key domain) servername (now + ttl) cache
  | _, _ => (false, cache)
  end.

(** namequery.c:170.  [ttl] is
    [lp_parm_int(-1, "saf", "join ttl", SAFJOIN_TTL)]. *)
Definition saf_join_store (domain servername : option string) (now ttl : Z)
    (cache : gmap string (string * Z)) : bool * gmap string (string * Z) :=
  match domain, servername with
  | Some domain, Some servername =>
      if (String.length domain =? 0)%nat || (String.length servername =? 0)%nat
      then (false, cache)
      else gencache_set (saf_join_key domain) servername (now + ttl) cache
  | _, _ => (false, cache)
  end.

(** namequery.c:203 *)
Definition saf_delete (domain : option string) (now : Z)
    (cache : gmap string (string * Z)) : bool * gmap string (string * Z) :=
  match domain with
  | None => (false, cache)
  | Some domain =>
      let '(ret, cache) := gencache_del (saf_join_key domain) now cache in
      let '(ret, cache) := gencache_del (saf_key domain) now cache in
      (ret, cache)
  end.

(** namequery.c:243 *)
Definition saf_fetch (domain : option string) (now : Z)
    (cache : gmap string (string * Z)) : option string :=
  match domain with
  | None => None
  | Some domain =>
      if (String.length domain =? 0)%nat then None
      else
        match gencache_get (saf_join_key domain) now cache with
        | Some server => Some server
        | None => gencache_get (saf_key domain) now cache
        end
  end.

(** The marking pass of [remove_duplicate_addrs2] read from the front:
    an entry marks the later ones when it is an IPv4 or IPv6 address
    other than zero; the head stays, its copies in the tail are zeroed,
    and the tail is treated in turn. *)
Definition is_marker (x : ip_service) : bool :=
  match sockaddr_storage_to_samba_sockaddr (ss x) with
  | None => false
  | Some sa_i => negb (is_zero_addr (u_ss sa_i))
  end.

Fixpoint mark_duplicates_rec (fuel : nat) (iplist : list ip_service)
  : list ip_service :=
  match fuel, iplist with
  | S fuel', x :: rest =>
      x :: mark_duplicates_rec fuel'
             (if is_marker x then map (mark_duplicate x) rest else rest)
  | _, _ => iplist
  end.

(** A host with an IPv6 and an IPv4 address, in that order. *)
Definition sample_env_dual : resolver_env :=
  mk_resolver_env
    (strequal sample_env) (is_ipaddress sample_env)
    (interpret_string_addr sample_env) (is_broadcast_addr sample_env)
    (fun _ => [Some (mk_ss AF_INET6 1); Some (v4 10 0 0 5)])
    (dns sample_env)
    (resolve_lmhosts_file_as_sockaddr sample_env)
    (resolve_wins sample_env) (name_resolve_bcast sample_env)
    None (Some ["host"%string]).

(** What holds of a [sock_packet_read] request between two events: in
    progress it holds no packet and waits for at least one receive; done
    it holds a packet its validator accepted. *)
Definition spr_invariant {V} (validator : option (packet_struct -> V -> bool * V))
    (st : tevent_req_state * sock_packet_read_state V) : Prop :=
  spr_validator (snd st) = validator /\
  match fst st with
  | TEVENT_REQ_IN_PROGRESS =>
      spr_packet (snd st) = None
      /\ spr_reader_req (snd st) || spr_socket_req (snd st) = true
  | TEVENT_REQ_DONE =>
      spr_socket_req (snd st) = false
      /\ exists p, spr_packet (snd st) = Some p
           /\ match validator with
              | None => True
              | Some v => exists priv, v p priv = (true, spr_private_data (snd st))
              end
  | TEVENT_REQ_ERROR _ => spr_socket_req (snd st) = false
  end.

(** What the copy loop of [dns_lookup_list_async] leaves of one query in
    the output: the last of its addresses in the first of the slots
    counted for it, the other slots as allocated. *)
Definition dns_query_slots (query : dns_query_state) : list samba_sockaddr :=
  match last (dq_addrs query) with
  | None => []
  | Some a => a :: replicate (length (dq_addrs query) - 1) zeroed_samba_sockaddr
  end.

(** The hostnames [resolve_ads] hands to the DNS lookups: those of the
    SRV records that came without an address. *)
Definition srv_lookup_name (dc : dns_rr_srv) : option string :=
  match ss_s dc with
  | Some _ => None
  | None => hostname dc
  end.

(** ** Node status (namequery.c:332-365, 908-1088) *)

(** A name of the node status reply: the bytes of the name, its type
    and its flags. *)
Record node_status := mk_node_status {
  ns_name : list Z;
  ns_type : Z;
  ns_flags : Z
}.







#[global] Instance sa_family_countable : Countable sa_family.
Proof.
  refine (inj_countable'
            (fun f => match f with
                      | AF_UNSPEC => 0%nat | AF_INET => 1%nat | AF_INET6 => 2%nat
                      end)
            (fun n => match n with
                      | O => AF_UNSPEC | S O => AF_INET | _ => AF_INET6
                      end) _).
  intros []; reflexivity.
Defined.

#[global] Instance sockaddr_storage_countable : Countable sockaddr_storage.
Proof.
  refine (inj_countable' (fun s => (ss_family s, ss_addr s))
            (fun p => mk_ss (fst p) (snd p)) _).
  intros []; reflexivity.
Defined.

(** What [name_status_find] reads from its surroundings: the entries
    [getlmhostsent] reads from the lmhosts file, [None] when
    [startlmhosts] cannot open it; what [node_status_query] returns for a
    name, a type and a target; the conversion of a name of the reply by
    [pull_ascii_nstring]; and the lifetime in seconds of an entry of the
    name caches. *)
Record name_status_env := mk_name_status_env {
  lmhosts_entries : option (list (string * Z * sockaddr_storage));
  node_status_query : string -> Z -> sockaddr_storage
                      -> NTSTATUS * list node_status;
  pull_ascii_nstring : list Z -> string;
  lp_name_cache_timeout : Z
}.

(** Modelled from the spec: the name-status cache (namecache.c) is
    outside the sources at hand; it maps the queried name and type, the
    desired type and the target address to a name with a TTL.  An entry
    is a name with its expiry time, the time it was stored at plus the
    lifetime of the name caches, and is found until then; [now] is
    [time(NULL)]. *)
Definition namecache_status_fetch (q_name : string) (q_type type : Z)
    (to_ss : sockaddr_storage) (now : Z)
    (cache : gmap (string * Z * Z * sockaddr_storage) (string * Z))
  : option string :=
  match cache !! (q_name, q_type, type, to_ss) with
  | Some (name, expire) => if expire <=? now then None else Some name
  | None => None
  end.

Definition namecache_status_store (q_name : string) (q_type type : Z)
    (to_ss : sockaddr_storage) (name : string) (now timeout : Z)
    (cache : gmap (string * Z * Z * sockaddr_storage) (string * Z))
  : gmap (string * Z * Z * sockaddr_storage) (string * Z) :=
  <[ (q_name, q_type, type, to_ss) := (name, now + timeout) ]> cache.

(** namequery.c:962 *)
Definition name_status_lmhosts (env : name_status_env)
    (paddr : sockaddr_storage) (qname_type : Z) : option string :=
  match sockaddr_storage_to_samba_sockaddr paddr with
  | None => None
  | Some addr_in =>
      if negb (bool_decide (ss_family (u_ss addr_in) = AF_INET)) then None
      else
        match lmhosts_entries env with
        | None => None
        | Some entries =>
            match
              find (fun e : string * Z * sockaddr_storage =>
                let '(name, name_type, addr) := e in
                bool_decide (ss_family addr = AF_INET)
                && (name_type =? qname_type)
                && sockaddr_equal (u_ss addr_in) addr) entries
            with
            | Some (name, _, _) => Some name
            | None => None
            end
        end
  end.

(** namequery.c:1007.  [disable_netbios] is [lp_disable_netbios()] and
    [now] the time of the call; the result is what is returned, the name
    written to [name] if any, and the name-status cache afterwards. *)
Definition name_status_find (disable_netbios : bool) (env : name_status_env)
    (q_name : string) (q_type type : Z) (to_ss : sockaddr_storage) (now : Z)
    (cache : gmap (string * Z * Z * sockaddr_storage) (string * Z))
  : bool * option string
    * gmap (string * Z * Z * sockaddr_storage) (string * Z) :=
  if disable_netbios then (false, None, cache)
  else
    match namecache_status_fetch q_name q_type type to_ss now cache with
    | Some name => (true, Some name, cache)
    | None =>
        if negb (bool_decide (ss_family to_ss = AF_INET)) then (false, None, cache)
        else
          match name_status_lmhosts env to_ss type with
          | Some name =>
              (true, Some name,
               namecache_status_store q_name q_type type to_ss name now
                 (lp_name_cache_timeout env) cache)
          | None =>
              let '(status, addrs) := node_status_query env q_name q_type to_ss in
              if negb (NT_STATUS_IS_OK status) then (false, None, cache)
              else
                match find (fun a => (ns_type a =? type)
                                     && (Z.land (ns_flags a) 0x80 =? 0)) addrs with
                | None => (false, None, cache)
                | Some a =>
                    let name := pull_ascii_nstring env (ns_name a) in
                    (true, Some name,
                     if negb (q_type =? 0x1c)
                     then namecache_status_store q_name q_type type to_ss name
                            now (lp_name_cache_timeout env) cache
                     else cache)
                end
          end
    end.

(** ** Queries to several destinations (namequery.c:1744-1937) *)

(** [nqs_subreqs] holds, per destination, whether [subreqs[i]] is not
    NULL; [nqs_wakeup] whether a [tevent_wakeup] is pending. *)
Record name_queries_state := mk_nqs {
  nqs_num_addrs : nat;
  nqs_subreqs : list bool;
  nqs_num_received : nat;
  nqs_num_sent : nat;
  nqs_received_index : nat;
  nqs_result_addrs : list sockaddr_storage;
  nqs_flags : Z;
  nqs_wakeup : bool
}.

(** What the event loop delivers to the request: the sub-request that is
    [subreqs[i]] completes, [res] being what [name_query_recv] returns
    for it; or the wakeup fires, [ok] being what [tevent_wakeup_recv]
    returns. *)
Inductive name_queries_event :=
| NameQueryDone (i : nat) (res : NTSTATUS * list sockaddr_storage * Z)
| WakeupFired (ok : bool).

(** namequery.c:1772.  [None] for an empty array of destinations: the
    first query is sent to [addrs[0]] and stored in [subreqs[0]], which
    are then outside the arrays. *)
Definition name_queries_send (num_addrs : nat)
  : option (tevent_req_state * name_queries_state) :=
  if (num_addrs =? 0)%nat then None
  else
    let subreqs := replicate num_addrs false in
    let num_sent := 0%nat in
    let subreqs := <[num_sent := true]> subreqs in
    let num_sent := (num_sent + 1)%nat in
    Some (TEVENT_REQ_IN_PROGRESS,
          mk_nqs num_addrs subreqs 0 num_sent 0 [] 0 (num_sent <? num_addrs)%nat).

(** namequery.c:1832 *)
Definition name_queries_done (i : nat)
    (res : NTSTATUS * list sockaddr_storage * Z) (state : name_queries_state)
  : tevent_req_state * name_queries_state :=
  let '(status, addrs, flags) := res in
  let state :=
    if NT_STATUS_IS_OK status
    then mk_nqs (nqs_num_addrs state) (nqs_subreqs state)
           (nqs_num_received state) (nqs_num_sent state)
           (nqs_received_index state) addrs flags (nqs_wakeup state)
    else state in
  if negb ((i <? nqs_num_sent state)%nat && nth i (nqs_subreqs state) false)
  then (TEVENT_REQ_ERROR NT_STATUS_INTERNAL_ERROR, state)
  else
    let state :=
      mk_nqs (nqs_num_addrs state) (<[i := false]> (nqs_subreqs state))
        (nqs_num_received state + 1) (nqs_num_sent state)
        (nqs_received_index state) (nqs_result_addrs state) (nqs_flags state)
        (nqs_wakeup state) in
    if negb (NT_STATUS_IS_OK status) then
      if (nqs_num_addrs state <=? nqs_num_received state)%nat
      then (TEVENT_REQ_ERROR status, state)
      else (TEVENT_REQ_IN_PROGRESS, state)
    else
      (TEVENT_REQ_DONE,
       mk_nqs (nqs_num_addrs state) (nqs_subreqs state)
         (nqs_num_received state) (nqs_num_sent state)
         i (nqs_result_addrs state) (nqs_flags state) (nqs_wakeup state)).

(** namequery.c:1872 *)
Definition name_queries_next (ok : bool) (state : name_queries_state)
  : tevent_req_state * name_queries_state :=
  let state :=
    mk_nqs (nqs_num_addrs state) (nqs_subreqs state)
      (nqs_num_received state) (nqs_num_sent state)
      (nqs_received_index state) (nqs_result_addrs state) (nqs_flags state)
      false in
  if negb ok then (TEVENT_REQ_ERROR NT_STATUS_INTERNAL_ERROR, state)
  else
    let subreqs := <[nqs_num_sent state := true]> (nqs_subreqs state) in
    let num_sent := (nqs_num_sent state + 1)%nat in
    (TEVENT_REQ_IN_PROGRESS,
     mk_nqs (nqs_num_addrs state) subreqs (nqs_num_received state) num_sent
       (nqs_received_index state) (nqs_result_addrs state) (nqs_flags state)
       (num_sent <? nqs_num_addrs state)%nat).

(** A request that is no longer in progress has released its
    sub-requests and receives nothing; a wakeup fires only while one is
    pending. *)
Definition name_queries_step (ev : name_queries_event)
    (st : tevent_req_state * name_queries_state)
  : tevent_req_state * name_queries_state :=
  match fst st with
  | TEVENT_REQ_IN_PROGRESS =>
      match ev with
      | NameQueryDone i res => name_queries_done i res (snd st)
      | WakeupFired ok =>
          if nqs_wakeup (snd st) then name_queries_next ok (snd st) else st
      end
  | _ => st
  end.

Definition name_queries_run (evs : list name_queries_event)
    (st : tevent_req_state * name_queries_state)
  : tevent_req_state * name_queries_state :=
  fold_left (fun st ev => name_queries_step ev st) evs st.

(** namequery.c:1911 *)
Definition name_queries_recv (st : tevent_req_state * name_queries_state)
  : NTSTATUS * list sockaddr_storage * Z * nat :=
  match tevent_req_is_nterror (fst st) with
  | Some status => (status, [], 0, 0%nat)
  | None => (NT_STATUS_OK, nqs_result_addrs (snd st), nqs_flags (snd st),
             nqs_received_index (snd st))
  end.

(** ** The broadcast backend (namequery.c:1950-2009) *)

(** The loop over the interfaces of [name_resolve_bcast_send]. *)
Definition name_resolve_bcast_addrs (ifs : interfaces) : list sockaddr_storage :=
  fold_left (fun bcast_addrs i =>
    let pss := iface_n_bcast ifs i in
    if negb (bool_decide (ss_family pss = AF_INET)) then bcast_addrs
    else bcast_addrs ++ [pss]) (seq 0 (iface_count ifs)) [].

(** namequery.c:1950: the error the request is posted with, or the
    destinations and the [name_queries] request started for them. *)
Definition name_resolve_bcast_send (env : nbt_env)
  : NTSTATUS
    + list sockaddr_storage * option (tevent_req_state * name_queries_state) :=
  if lp_disable_netbios env then inl NT_STATUS_INVALID_PARAMETER
  else
    let bcast_addrs := name_resolve_bcast_addrs (nbt_ifs env) in
    inr (bcast_addrs, name_queries_send (length bcast_addrs)).

(** ** The WINS backend (namequery.c:2218-2390) *)

(** What [resolve_wins_send] reads from its surroundings;
    [nbt_client_socket_address] is what [interpret_string_addr] makes of
    the configured address. *)
Record wins_env := mk_wins_env {
  wins_srv_count : Z;
  nbt_client_socket_address : option sockaddr_storage;
  wins_srv_tags : option (list string);
  wins_server_tag_ips : string -> option (list Z);
  global_in_nmbd : bool;
  ismyip_v4 : Z -> bool
}.

(** Modelled from the spec: [wins_srv_is_dead] reads the flag that
    [wins_srv_died] sets for a pair of server and source address. *)
Definition wins_srv_is_dead (wins_ip src_ip : Z) (dead : gset (Z * Z)) : bool :=
  bool_decide ((wins_ip, src_ip) ∈ dead).

(** The inner loop of [resolve_wins_send] over the servers of a tag. *)
Definition resolve_wins_alive (env : wins_env) (src_ip : Z)
    (dead : gset (Z * Z)) (servers : list Z) : list Z :=
  fold_left (fun alive wins_ip =>
    if global_in_nmbd env && ismyip_v4 env wins_ip then alive
    else if wins_srv_is_dead wins_ip src_ip dead then alive
    else alive ++ [wins_ip]) servers [].

(** The loop over the tags: the server lists of the [query_wins_list]
    sub-requests sent, in the order sent. *)
Definition resolve_wins_tags (env : wins_env) (src_ip : Z)
    (dead : gset (Z * Z)) (wins_tags : list string) : list (list Z) :=
  fold_left (fun sent tag =>
    match wins_server_tag_ips env tag with
    | None => sent
    | Some servers =>
        let alive := resolve_wins_alive env src_ip dead servers in
        if (length alive =? 0)%nat then sent else sent ++ [alive]
    end) wins_tags [].

(** namequery.c:2218: the error the request is posted with, or the
    source address and the sub-requests sent. *)
Definition resolve_wins_send (env : wins_env) (dead : gset (Z * Z))
  : NTSTATUS + Z * list (list Z) :=
  if wins_srv_count env <? 1 then inl NT_STATUS_INVALID_PARAMETER
  else
    let src_ss :=
      match nbt_client_socket_address env with
      | Some a => a
      | None => zero_sockaddr
      end in
    match sockaddr_storage_to_samba_sockaddr src_ss with
    | None => inl NT_STATUS_INVALID_PARAMETER
    | Some src_sa =>
        if negb (bool_decide (ss_family (u_ss src_sa) = AF_INET))
        then inl NT_STATUS_INVALID_PARAMETER
        else
          let src_ip := ss_addr (u_ss src_sa) in
          match wins_srv_tags env with
          | None => inl NT_STATUS_INVALID_PARAMETER
          | Some wins_tags =>
              let sent := resolve_wins_tags env src_ip dead wins_tags in
              if (length sent =? 0)%nat then inl NT_STATUS_NOT_FOUND
              else inr (src_ip, sent)
          end
    end.

Record resolve_wins_state := mk_rws {
  rws_num_sent : nat;
  rws_num_received : nat;
  rws_addrs : list sockaddr_storage;
  rws_flags : Z
}.

(** namequery.c:2343.  [res] is what [query_wins_list_recv] returns for
    the sub-request that completed. *)
Definition resolve_wins_done (res : NTSTATUS * list sockaddr_storage * Z)
    (state : resolve_wins_state) : tevent_req_state * resolve_wins_state :=
  let '(status, addrs, flags) := res in
  if NT_STATUS_IS_OK status then
    (TEVENT_REQ_DONE,
     mk_rws (rws_num_sent state) (rws_num_received state) addrs flags)
  else
    let state := mk_rws (rws_num_sent state) (rws_num_received state + 1)
                   (rws_addrs state) (rws_flags state) in
    if (rws_num_received state <? rws_num_sent state)%nat
    then (TEVENT_REQ_IN_PROGRESS, state)
    else (TEVENT_REQ_ERROR status, state).

(** The sub-requests complete in the order of [results]; a request that
    is no longer in progress has released those still running. *)
Definition resolve_wins_run (results : list (NTSTATUS * list sockaddr_storage * Z))
    (st : tevent_req_state * resolve_wins_state)
  : tevent_req_state * resolve_wins_state :=
  fold_left (fun st res =>
    match fst st with
    | TEVENT_REQ_IN_PROGRESS => resolve_wins_done res (snd st)
    | _ => st
    end) results st.

(** namequery.c:2369 *)
Definition resolve_wins_recv (st : tevent_req_state * resolve_wins_state)
  : NTSTATUS * list sockaddr_storage * Z :=
  match tevent_req_is_nterror (fst st) with
  | Some status => (status, [], 0)
  | None => (NT_STATUS_OK, rws_addrs (snd st), rws_flags (snd st))
  end.

(** ** Callers of the driver (namequery.c:3611-3807) *)

(** The status codes of the callers of the driver: those of [NTSTATUS]
    and the ones only the callers produce. *)
Inductive caller_status :=
| NT_STATUS_BAD_NETWORK_NAME
| NT_STATUS_DOMAIN_CONTROLLER_NOT_FOUND
| NT_STATUS_NO_LOGON_SERVERS
| NT_STATUS_OF (status : NTSTATUS).

#[global] Instance caller_status_eq_dec : EqDecision caller_status.
Proof. solve_decision. Defined.

Definition caller_status_is_ok (status : caller_status) : bool :=
  match status with
  | NT_STATUS_OF status => NT_STATUS_IS_OK status
  | _ => false
  end.

(** The test both loops of [resolve_name_list] apply to an entry. *)
Definition resolve_name_list_keeps (env : resolver_env) (s : ip_service) : bool :=
  match sockaddr_storage_to_samba_sockaddr (ss s) with
  | None => false
  | Some sa =>
      negb (is_zero_addr (u_ss sa)) && negb (is_broadcast_addr env (u_ss sa))
  end.

(** namequery.c:3611 *)
Definition resolve_name_list (env : resolver_env) (name : string) (name_type : Z)
    (st : resolver_state)
  : caller_status * list sockaddr_storage * resolver_state :=
  if is_ipaddress env name then
    match interpret_string_addr env name with
    | None => (NT_STATUS_BAD_NETWORK_NAME, [], st)
    | Some a => (NT_STATUS_OF NT_STATUS_OK, [a], st)
    end
  else
    let '(status, ss_list, st) :=
      internal_resolve_name env name name_type (sitename_fetch env)
        (lp_name_resolve_order env) st in
    if negb (NT_STATUS_IS_OK status) then (NT_STATUS_OF status, [], st)
    else
      let num_entries :=
        fold_left (fun num_entries s =>
          if resolve_name_list_keeps env s then (num_entries + 1)%nat
          else num_entries) ss_list 0%nat in
      if (num_entries =? 0)%nat then (NT_STATUS_BAD_NETWORK_NAME, [], st)
      else
        let result_arr :=
          fold_left (fun result_arr s =>
            if resolve_name_list_keeps env s then result_arr ++ [ss s]
            else result_arr) ss_list [] in
        if (length result_arr =? 0)%nat then (NT_STATUS_BAD_NETWORK_NAME, [], st)
        else (NT_STATUS_OF NT_STATUS_OK, result_arr, st).

(** The read of [ip_list[0]]: [None] when the list has no entry. *)
Definition ip_list_first (ip_list : list ip_service) : option sockaddr_storage :=
  match ip_list with
  | [] => None
  | x :: _ => Some (ss x)
  end.

(** namequery.c:3715.  [disable_netbios] is [lp_disable_netbios()].  The
    outer [None] stands for a read of [ip_list[0]] outside the list. *)
Definition find_master_ip (disable_netbios : bool) (env : resolver_env)
    (group : string) (st : resolver_state)
  : option (bool * option sockaddr_storage * resolver_state) :=
  if disable_netbios then Some (false, None, st)
  else
    let '(status, ip_list, st) :=
      internal_resolve_name env group 0x1D None (lp_name_resolve_order env) st in
    if NT_STATUS_IS_OK status then
      master_ss ← ip_list_first ip_list; Some (true, Some master_ss, st)
    else
      let '(status, ip_list, st) :=
        internal_resolve_name env group 0x1B None (lp_name_resolve_order env) st in
      if NT_STATUS_IS_OK status then
        master_ss ← ip_list_first ip_list; Some (true, Some master_ss, st)
      else Some (false, None, st).

(** namequery.c:3763.  [sec_ads] is [lp_security() == SEC_ADS]. *)
Definition get_pdc_ip (sec_ads : bool) (ifs : interfaces) (env : resolver_env)
    (domain : string) (st : resolver_state)
  : option (bool * option sockaddr_storage * resolver_state) :=
  let '(status, ip_list, st) :=
    if sec_ads then
      let '(status, ip_list, st) :=
        internal_resolve_name env domain 0x1b None (Some ["ads"%string]) st in
      (NT_STATUS_OF status, ip_list, st)
    else (NT_STATUS_DOMAIN_CONTROLLER_NOT_FOUND, [], st) in
  let '(status, ip_list, st) :=
    if negb (caller_status_is_ok status) || (length ip_list =? 0)%nat then
      let '(status, ip_list, st) :=
        internal_resolve_name env domain 0x1b None (lp_name_resolve_order env) st in
      (NT_STATUS_OF status, ip_list, st)
    else (status, ip_list, st) in
  if negb (caller_status_is_ok status) then Some (false, None, st)
  else
    let ip_list :=
      if (1 <? length ip_list)%nat then sort_service_list ifs ip_list
      else ip_list in
    pss ← ip_list_first ip_list; Some (true, Some pss, st).

(** A host at 10.0.0.5 that is not in lmhosts and answers a node status
    query with a group name and its unique server name; cache entries
    live for 660 seconds. *)
Definition sample_name_status_env : name_status_env :=
  mk_name_status_env
    (Some [("other"%string, 0x20, v4 10 0 0 9)])
    (fun _ _ _ =>
       (NT_STATUS_OK,
        [mk_node_status [87; 71] 0x20 0x84; mk_node_status [70; 83] 0x20 0x04]))
    (fun bytes => string_of_list_ascii
                    (map (fun c => ascii_of_N (Z.to_N c)) bytes))
    660.

(** The number of sub-requests of [name_queries] that are outstanding. *)
Definition nqs_outstanding (subreqs : list bool) : nat :=
  length (filter (fun b => b = true) subreqs).

(** What holds of a [name_queries] request between two events that it
    has received, [evs] being those events: the counters agree with the
    array of sub-requests; in progress the wakeup is pending exactly while
    destinations are left and fewer results than destinations have come
    in; done it holds the result of a sub-request that succeeded; failed
    it carries [NT_STATUS_INTERNAL_ERROR] or the status of a sub-request
    that failed when all had been heard. *)
Definition nqs_invariant (evs : list name_queries_event)
    (st : tevent_req_state * name_queries_state) : Prop :=
  let state := snd st in
  length (nqs_subreqs state) = nqs_num_addrs state
  /\ (nqs_num_sent state <= nqs_num_addrs state)%nat
  /\ (forall i, (nqs_num_sent state <= i)%nat -> nth i (nqs_subreqs state) false = false)
  /\ (nqs_num_received state + nqs_outstanding (nqs_subreqs state)
      = nqs_num_sent state)%nat
  /\ match fst st with
     | TEVENT_REQ_IN_PROGRESS =>
         nqs_wakeup state = (nqs_num_sent state <? nqs_num_addrs state)%nat
         /\ (nqs_num_received state < nqs_num_addrs state)%nat
     | TEVENT_REQ_DONE =>
         (nqs_received_index state < nqs_num_sent state)%nat
         /\ In (NameQueryDone (nqs_received_index state)
                  (NT_STATUS_OK, nqs_result_addrs state, nqs_flags state)) evs
     | TEVENT_REQ_ERROR status =>
         status = NT_STATUS_INTERNAL_ERROR
         \/ (status <> NT_STATUS_OK
             /\ nqs_num_received state = nqs_num_addrs state
             /\ exists i addrs flags, In (NameQueryDone i (status, addrs, flags)) evs)
     end.

(** Two WINS servers under one tag, queried from 10.0.0.9. *)
Definition sample_wins_env : wins_env :=
  mk_wins_env 2 (Some (v4 10 0 0 9)) (Some ["*"%string])
    (fun _ => Some [ip4 10 0 0 2; ip4 10 0 0 3]) false (fun _ => false).

(** ** The list of domain controllers (namequery.c:3818-4118) *)

Inductive dc_lookup_type := DC_NORMAL_LOOKUP | DC_ADS_ONLY | DC_KDC_ONLY.

#[global] Instance dc_lookup_type_eq_dec : EqDecision dc_lookup_type.
Proof. solve_decision. Defined.

Definition LDAP_PORT : Z := 389.
Definition DEFAULT_KRB5_PORT : Z := 88.

(** What [get_dc_list] reads from its surroundings besides the resolver:
    [next_tokens] gives the tokens [next_token_talloc] takes off a string
    for the separators [LIST_SEP], in order; [check_negative_conn_cache]
    is asked with the domain and an address. *)
Record dc_env := mk_dc_env {
  dc_resolver : resolver_env;
  lp_workgroup : string;
  lp_realm : string;
  lp_password_server : string;
  next_tokens : string -> list string;
  check_negative_conn_cache : string -> sockaddr_storage -> NTSTATUS;
  atoi : string -> Z
}.

(** Modelled from the spec: [str_list_check_ci] (lib/util) is outside
    the sources at hand; it tells whether a string is in a list, ignoring
    case. *)
Definition str_list_check_ci (env : resolver_env) (list : list string)
    (s : string) : bool :=
  existsb (fun t => strequal env t s) list.

(** [strchr(name, ':')] and the cut at it: the name up to the first
    colon, and what follows the colon if there is one. *)
Fixpoint split_colon (name : string) : string * option string :=
  match name with
  | EmptyString => (EmptyString, None)
  | String c rest =>
      if Ascii.eqb c ":"%char then (EmptyString, Some rest)
      else let '(n, port_str) := split_colon rest in (String c n, port_str)
  end.

(** The first loop over the tokens (namequery.c:3906-3938): whether the
    auto lookup was done, its list, the number of addresses counted, and
    the state of the resolver. *)
Fixpoint get_dc_list_count (env : dc_env) (domain : string) (auto_name_type : Z)
    (sitename : option string) (resolve_order : option (list string))
    (tokens : list string)
    (acc : bool * list ip_service * nat * resolver_state)
  : bool * list ip_service * nat * resolver_state :=
  match tokens with
  | [] => acc
  | name :: rest =>
      let '(done_auto_lookup, auto_ip_list, num_addresses, st) := acc in
      if negb done_auto_lookup && strequal (dc_resolver env) name "*" then
        let '(status, ip_list, st) :=
          internal_resolve_name (dc_resolver env) domain auto_name_type
            sitename resolve_order st in
        if negb (NT_STATUS_IS_OK status) then
          get_dc_list_count env domain auto_name_type sitename resolve_order rest
            (true, ip_list, num_addresses, st)
        else
          get_dc_list_count env domain auto_name_type sitename resolve_order rest
            (true, ip_list, (num_addresses + length ip_list)%nat, st)
      else
        get_dc_list_count env domain auto_name_type sitename resolve_order rest
          (done_auto_lookup, auto_ip_list, (num_addresses + 1)%nat, st)
  end.

(** The copy of the auto lookup into [return_iplist]
    (namequery.c:3978-3998).  The list grows by the entries written;
    [num_addresses] is the size of the array. *)
Definition get_dc_list_copy_auto (env : dc_env) (domain : string)
    (auto_ip_list : list ip_service) (return_iplist : list ip_service)
  : list ip_service :=
  fold_left (fun return_iplist s =>
    if negb (NT_STATUS_IS_OK (check_negative_conn_cache env domain (ss s)))
    then return_iplist
    else return_iplist ++ [mk_ip_service (ss s) (port s)])
    auto_ip_list return_iplist.

(** The second loop over the tokens (namequery.c:3971-4052).  [None] is
    a write to [return_iplist] past its [num_addresses] entries; [inl] the
    status the loop leaves the function with through [out]. *)
Fixpoint get_dc_list_fill (env : dc_env) (domain : string)
    (lookup_type : dc_lookup_type) (auto_ip_list : list ip_service)
    (num_addresses : nat) (tokens : list string)
    (acc : list ip_service * bool * resolver_state)
  : option (NTSTATUS * bool * resolver_state
            + list ip_service * bool * resolver_state) :=
  let '(return_iplist, ordered, st) := acc in
  match tokens with
  | [] => Some (inr acc)
  | name :: rest =>
      if negb (length return_iplist <? num_addresses)%nat then Some (inr acc)
      else if strequal (dc_resolver env) name "*" then
        let return_iplist :=
          get_dc_list_copy_auto env domain auto_ip_list return_iplist in
        if (num_addresses <? length return_iplist)%nat then None
        else get_dc_list_fill env domain lookup_type auto_ip_list num_addresses
               rest (return_iplist, ordered, st)
      else
        let port :=
          match lookup_type with
          | DC_ADS_ONLY => LDAP_PORT
          | DC_KDC_ONLY => DEFAULT_KRB5_PORT
          | DC_NORMAL_LOOKUP => PORT_NONE
          end in
        let '(name, port_str) := split_colon name in
        let port :=
          match port_str with
          | Some port_str =>
              if bool_decide (lookup_type <> DC_KDC_ONLY) then atoi env port_str
              else port
          | None => port
          end in
        let '(ok, name_ss, st) :=
          resolve_name (dc_resolver env) name 0x20 true st in
        match ok, name_ss with
        | true, Some name_ss =>
            match sockaddr_storage_to_samba_sockaddr name_ss with
            | None => Some (inl (NT_STATUS_INVALID_ADDRESS, ordered, st))
            | Some name_sa =>
                if negb (NT_STATUS_IS_OK
                           (check_negative_conn_cache env domain (u_ss name_sa)))
                then get_dc_list_fill env domain lookup_type auto_ip_list
                       num_addresses rest (return_iplist, ordered, st)
                else get_dc_list_fill env domain lookup_type auto_ip_list
                       num_addresses rest
                       (return_iplist ++ [mk_ip_service (u_ss name_sa) port],
                        true, st)
            end
        | _, _ =>
            get_dc_list_fill env domain lookup_type auto_ip_list num_addresses
              rest (return_iplist, ordered, st)
        end
  end.

(** The preferred server list (namequery.c:3882-3894): the server the
    domain has affinity for, then the configured password servers for the
    own workgroup or realm and the auto lookup for any other domain. *)
Definition get_dc_list_pserver (env : dc_env) (now : Z)
    (saf_cache : gmap string (string * Z)) (domain : string) : string :=
  let saf_servername := saf_fetch (Some domain) now saf_cache in
  if strequal (dc_resolver env) domain (lp_workgroup env)
     || strequal (dc_resolver env) domain (lp_realm env)
  then default ""%string saf_servername +:+ ", " +:+ lp_password_server env
  else default ""%string saf_servername +:+ ", *".

(** namequery.c:3818.  [now] is the time and [saf_cache] the store behind
    [saf_fetch]; the result is the status, the list, [*ordered] and the
    state of the resolver, [None] when [return_iplist] was written past its
    end.  The wrap checks of the counters cannot fire on the length of a
    list and are left out. *)
Definition get_dc_list (env : dc_env) (now : Z)
    (saf_cache : gmap string (string * Z)) (domain : string)
    (sitename : option string) (lookup_type : dc_lookup_type)
    (st : resolver_state)
  : option (caller_status * list ip_service * bool * resolver_state) :=
  match lp_name_resolve_order (dc_resolver env) with
  | None => Some (NT_STATUS_OF NT_STATUS_NO_MEMORY, [], false, st)
  | Some resolve_order =>
      let '(resolve_order, ordered, auto_name_type) :=
        match lookup_type with
        | DC_ADS_ONLY =>
            if str_list_check_ci (dc_resolver env) resolve_order "host"
            then (["ads"%string], true, 0x1C)
            else (["NULL"%string], false, 0x1C)
        | DC_KDC_ONLY => (["kdc"%string], true, KDC_NAME_TYPE)
        | DC_NORMAL_LOOKUP => (resolve_order, false, 0x1C)
        end in
      let pserver := get_dc_list_pserver env now saf_cache domain in
      let tokens := next_tokens env pserver in
      let '(done_auto_lookup, auto_ip_list, num_addresses, st) :=
        get_dc_list_count env domain auto_name_type sitename (Some resolve_order)
          tokens (false, [], 0%nat, st) in
      if (num_addresses =? 0)%nat then
        if done_auto_lookup then Some (NT_STATUS_NO_LOGON_SERVERS, [], ordered, st)
        else
          let '(status, dc_iplist, st) :=
            internal_resolve_name (dc_resolver env) domain auto_name_type
              sitename (Some resolve_order) st in
          if negb (NT_STATUS_IS_OK status)
          then Some (NT_STATUS_OF status, [], ordered, st)
          else Some (NT_STATUS_OF status, dc_iplist, ordered, st)
      else
        match get_dc_list_fill env domain lookup_type auto_ip_list num_addresses
                tokens ([], ordered, st) with
        | None => None
        | Some (inl (status, ordered, st)) =>
            Some (NT_STATUS_OF status, [], ordered, st)
        | Some (inr (return_iplist, ordered, st)) =>
            let return_iplist := remove_duplicate_addrs2 return_iplist in
            let return_iplist :=
              if negb (length return_iplist =? 0)%nat
              then prioritize_ipv4_list return_iplist
              else return_iplist in
            if negb (length return_iplist =? 0)%nat
            then Some (NT_STATUS_OF NT_STATUS_OK, return_iplist, ordered, st)
            else Some (NT_STATUS_NO_LOGON_SERVERS, [], ordered, st)
        end
  end.

(** A domain of which one controller is configured by name besides the
    auto lookup; the tokenizer knows the strings of the examples. *)
Definition sample_dc_env : dc_env :=
  mk_dc_env sample_env "WORKGROUP" "EXAMPLE.COM" "fileserver, *"
    (fun s => if String.eqb s ", fileserver, *" then ["fileserver"; "*"]%string
              else if String.eqb s ", *" then ["*"%string]
              else [])
    (fun _ _ => NT_STATUS_OK) (fun _ => 0).

(** The same with the auto lookup configured twice, and a resolver whose
    auto lookup finds two controllers. *)
Definition sample_dc_env_twice : dc_env :=
  mk_dc_env
    (mk_resolver_env
       (strequal sample_env) (is_ipaddress sample_env)
       (interpret_string_addr sample_env) (is_broadcast_addr sample_env)
       (getaddrinfo sample_env) (dns sample_env)
       (fun _ _ => (NT_STATUS_OK, [v4 10 0 0 1; v4 10 0 0 2]))
       (resolve_wins sample_env) (name_resolve_bcast sample_env)
       None (Some ["lmhosts"%string]))
    "WORKGROUP" "EXAMPLE.COM" "*, *"
    (fun _ => ["*"; "*"]%string)
    (fun _ _ => NT_STATUS_OK) (fun _ => 0).

(** * Properties *)

(** ** Address ranking *)

Section Qsort.
Context {A : Type} (cmp : A -> A -> Z) (P : A -> Prop).
Hypothesis cmp_total : forall a b, P a -> P b -> 0 < cmp a b -> cmp b a <= 0.
Hypothesis cmp_trans : forall a b c, P a -> P b -> P c ->
  cmp a b <= 0 -> cmp b c <= 0 -> cmp a c <= 0.

Lemma qsort_insert_perm x l : Permutation (qsort_insert cmp x l) (x :: l).
Proof.
  induction l as [|y r IH]; simpl; [reflexivity|].
  destruct (cmp x y <=? 0); [reflexivity|].
  rewrite IH. apply perm_swap.
Qed.

Lemma TYPESAFE_QSORT_perm l : Permutation (TYPESAFE_QSORT cmp l) l.
Proof.
  induction l as [|x r IH]; simpl; [reflexivity|].
  unfold TYPESAFE_QSORT in *. simpl. rewrite qsort_insert_perm.
  now constructor.
Qed.

Lemma qsort_insert_sorted x l :
  P x -> Forall P l ->
  StronglySorted (fun a b => cmp a b <= 0) l ->
  StronglySorted (fun a b => cmp a b <= 0) (qsort_insert cmp x l).
Proof.
  intros Px. induction l as [|y r IH]; intros HP Hs; simpl.
  - repeat constructor.
  - inversion HP as [|? ? Py Pr]; subst.
    inversion Hs as [|? ? Hr Hy]; subst.
    destruct (cmp x y <=? 0) eqn:E.
    + apply Z.leb_le in E. constructor; [assumption|].
      constructor; [assumption|].
      rewrite Forall_forall in *. intros z Hz.
      apply (cmp_trans x y z); auto.
    + apply Z.leb_gt in E. constructor; [now apply IH|].
      rewrite (qsort_insert_perm x r). constructor; [|assumption].
      apply cmp_total; auto; lia.
Qed.

Lemma TYPESAFE_QSORT_sorted l :
  Forall P l ->
  StronglySorted (fun a b => cmp a b <= 0) (TYPESAFE_QSORT cmp l).
Proof.
  induction l as [|x r IH]; intros HP; unfold TYPESAFE_QSORT in *; simpl.
  - constructor.
  - inversion HP; subst. apply qsort_insert_sorted; auto.
    change (foldr (qsort_insert cmp) [] r) with (TYPESAFE_QSORT cmp r).
    rewrite TYPESAFE_QSORT_perm. assumption.
Qed.
End Qsort.

#[local] Arguments addr_bytes : simpl never.
#[local] Arguments matching_len_bits : simpl never.

Lemma addr_compare_ifaces_split ifs a b idx :
  ss_family a = ss_family b ->
  forall m1 m2,
  addr_compare_ifaces ifs a b idx m1 m2 =
  if ifaces_usable ifs idx
  then Some (max_matching_bits ifs a idx m1, max_matching_bits ifs b idx m2)
  else None.
Proof.
  intros Hfam. induction idx as [|i rest IH]; intros m1 m2; simpl; [reflexivity|].
  unfold sockaddr_storage_to_samba_sockaddr.
  rewrite <- Hfam.
  destruct (ss_family (iface_n_bcast ifs i)) eqn:Hif; simpl; rewrite ?Hif; simpl.
  - reflexivity.
  - destruct (bool_decide (AF_INET = ss_family a)); simpl; apply IH.
  - destruct (bool_decide (AF_INET6 = ss_family a)); simpl; apply IH.
Qed.

(** Two addresses of one family compare by their proximity scores, the
    closer one first; if an interface address fails to convert they
    compare equal. *)
Lemma addr_compare_same_family ifs a b :
  ss_family a = ss_family b -> ss_family a <> AF_UNSPEC ->
  addr_compare ifs a b =
  if ifaces_usable ifs (seq 0 (iface_count ifs))
  then proximity ifs b - proximity ifs a else 0.
Proof.
  intros Hfam Hne. unfold addr_compare, sockaddr_storage_to_samba_sockaddr.
  rewrite <- Hfam.
  destruct (ss_family a) eqn:Ha; [congruence| |]; simpl;
    rewrite <- ?Hfam, ?Ha; simpl;
    rewrite addr_compare_ifaces_split by congruence;
    destruct (ifaces_usable ifs (seq 0 (iface_count ifs)));
    unfold proximity, shared_bits, local_bonus; rewrite <- ?Hfam, ?Ha; simpl;
    try reflexivity; lia.
Qed.

(** Across families the IPv4 address comes first. *)
Lemma addr_compare_ipv4_first ifs a b :
  ss_family a = AF_INET -> ss_family b = AF_INET6 ->
  addr_compare ifs a b = -1 /\ addr_compare ifs b a = 1.
Proof.
  intros Ha Hb. unfold addr_compare, sockaddr_storage_to_samba_sockaddr.
  rewrite Ha, Hb. simpl. rewrite Ha, Hb. split; reflexivity.
Qed.

Lemma sort_addr_list_perm ifs l : Permutation (sort_addr_list ifs l) l.
Proof.
  unfold sort_addr_list. destruct (Z.of_nat (length l) <=? 1); [reflexivity|].
  apply TYPESAFE_QSORT_perm.
Qed.

Lemma sort_addr_list_sorted ifs l :
  Forall (fun a => ss_family a = AF_INET) l ->
  StronglySorted (fun a b => addr_compare ifs a b <= 0) (sort_addr_list ifs l).
Proof.
  intros HP. unfold sort_addr_list.
  destruct (Z.of_nat (length l) <=? 1) eqn:E.
  - apply Z.leb_le in E. destruct l as [|x [|y r]]; simpl in E; try lia;
      repeat constructor.
  - apply (TYPESAFE_QSORT_sorted _ (fun a => ss_family a = AF_INET)); [| |exact HP].
    + intros a b Ha Hb. rewrite !addr_compare_same_family by congruence.
      destruct (ifaces_usable _ _); lia.
    + intros a b c Ha Hb Hc. rewrite !addr_compare_same_family by congruence.
      destruct (ifaces_usable _ _); lia.
Qed.

(** ** The name query *)





Lemma name_query_send_fresh dis buflen name bcast addr :
  nq_addrs (snd (name_query_send dis buflen name bcast addr)) = []
  /\ nq_bcast (snd (name_query_send dis buflen name bcast addr)) = bcast
  /\ nq_validate_error (snd (name_query_send dis buflen name bcast addr)) = NT_STATUS_OK.
Proof.
  unfold name_query_send.
  destruct (negb (bool_decide (ss_family addr = AF_INET))); [auto|].
  destruct dis; [auto|].
  destruct (sockaddr_storage_to_samba_sockaddr addr); [|auto].
  destruct (buflen =? 0); auto.
Qed.


Lemma sockaddr_equal_eq a b : sockaddr_equal a b = true <-> a = b.
Proof.
  unfold sockaddr_equal. rewrite andb_true_iff, bool_decide_eq_true, Z.eqb_eq.
  destruct a, b; cbn [ss_family ss_addr]. split; [intros [-> ->]|intros [= -> ->]]; auto.
Qed.

Section NameQueryCollected.
Local Abbreviation collected_ok := (fun addrs : list sockaddr_storage =>
  NoDup addrs /\
  Forall (fun a => ss_family a = AF_INET /\ is_zero_addr a = false) addrs).

Lemma already_got_elem_of sa l :
  Forall (fun a => ss_family a = AF_INET /\ is_zero_addr a = false) l ->
  already_got sa l = false -> sa ∉ l.
Proof.
  intros Hall Hg Hin. unfold already_got in Hg.
  assert (Hex : existsb (fun a =>
            match sockaddr_storage_to_samba_sockaddr a with
            | Some sa_j => sockaddr_equal sa (u_ss sa_j)
            | None => false
            end) l = true); [|congruence].
  apply existsb_exists. exists sa. split; [now apply list_elem_of_In|].
  rewrite Forall_forall in Hall. destruct (Hall sa Hin) as (Hf & _).
  unfold sockaddr_storage_to_samba_sockaddr. rewrite Hf. cbn [u_ss].
  now apply sockaddr_equal_eq.
Qed.

Lemma name_query_record_collected r i got addrs :
  collected_ok addrs ->
  collected_ok (snd (name_query_record r i (got, addrs))).
Proof.
  intros (Hnd & Hall). unfold name_query_record.
  cbn [sockaddr_storage_to_samba_sockaddr in_addr_to_sockaddr_storage
       ss_family u_ss].
  destruct (is_zero_addr _) eqn:Ez; cbn [snd]; [now split|].
  destruct (already_got _ addrs) eqn:Eg; cbn [snd]; [now split|].
  split.
  - apply NoDup_app. split; [assumption|]. split; [|apply NoDup_singleton].
    intros x Hx Hx'. apply list_elem_of_singleton in Hx'. subst x.
    now apply (already_got_elem_of _ _ Hall Eg).
  - apply Forall_app. split; [assumption|]. repeat constructor. exact Ez.
Qed.

Lemma name_query_records_collected r addrs :
  collected_ok addrs -> collected_ok (snd (name_query_records r addrs)).
Proof.
  unfold name_query_records.
  assert (Hfold : forall idx addrs0 got, collected_ok addrs0 ->
            collected_ok (snd (fold_left (fun acc i => name_query_record r i acc)
                                 idx (got, addrs0)))).
  { induction idx as [|i rest IH]; intros addrs0 got H; cbn [fold_left];
      [assumption|].
    pose proof (name_query_record_collected r i got addrs0 H) as H1.
    destruct (name_query_record r i (got, addrs0)) as [got' addrs'].
    now apply IH. }
  intros H. apply Hfold, H.
Qed.

Lemma name_query_validator_collected p state :
  collected_ok (nq_addrs state) ->
  collected_ok (nq_addrs (snd (name_query_validator p state))).
Proof.
  intros H. unfold name_query_validator.
  destruct ((opcode (header p) =? 0) && negb (nq_bcast state)
            && negb (rcode (header p) =? 0)); cbn [snd nq_addrs]; [assumption|].
  destruct (negb (opcode (header p) =? 0) || nm_bcast (header p)
            || negb (rcode (header p) =? 0) || (ancount (header p) =? 0));
    cbn [snd nq_addrs]; [assumption|].
  destruct (talloc_realloc_null _); cbn [snd nq_addrs]; [assumption|].
  pose proof (name_query_records_collected (answers p) _ H) as H'.
  destruct (name_query_records (answers p) (nq_addrs state)) as [got addrs].
  destruct (nq_bcast state); cbn [snd nq_addrs]; exact H'.
Qed.

Lemma name_query_poll_collected evs : forall state,
  collected_ok (nq_addrs state) ->
  collected_ok (nq_addrs (snd (name_query_poll state evs))).
Proof.
  induction evs as [|ev rest IH]; intros state H; cbn [name_query_poll];
    [assumption|].
  destruct ev as [p|status]; cbn [snd]; [|assumption].
  pose proof (name_query_validator_collected p state H) as H1.
  destruct (name_query_validator p state) as [accepted state'].
  cbn [snd] in *. destruct accepted; cbn [snd]; [assumption|].
  now apply IH.
Qed.
End NameQueryCollected.

Lemma StronglySorted_weaken {A} (P : A -> Prop) (R1 R2 : A -> A -> Prop) l :
  (forall a b, P a -> P b -> R1 a b -> R2 a b) ->
  Forall P l -> StronglySorted R1 l -> StronglySorted R2 l.
Proof.
  intros HR HP Hs. induction Hs as [|x l Hs IH Hx]; [constructor|].
  inversion HP as [|? ? Px Pl]; subst. constructor; [now apply IH|].
  rewrite Forall_forall in *. intros y Hy. apply HR; auto.
Qed.








(** C5.  In a unicast name query a response with opcode 0 and a
    non-zero rcode passes the validator, which records
    [NT_STATUS_NOT_FOUND] and reads no answer; the transaction ends on
    it and the query completes with [NT_STATUS_NOT_FOUND], whatever
    would have arrived afterwards. *)
Theorem name_query_unicast_negative ifs state p rest :
  nq_bcast state = false ->
  opcode (header p) = 0 ->
  rcode (header p) <> 0 ->
  fst (name_query_validator p state) = true
  /\ nq_validate_error (snd (name_query_validator p state)) = NT_STATUS_NOT_FOUND
  /\ nq_addrs (snd (name_query_validator p state)) = nq_addrs state
  /\ name_query_poll state (Response p :: rest)
     = (NT_STATUS_NOT_FOUND, snd (name_query_validator p state))
  /\ name_query_recv ifs NT_STATUS_NOT_FOUND (snd (name_query_validator p state))
     = (NT_STATUS_NOT_FOUND, [], 0).
Proof.
  intros Hb Hop Hrc.
  assert (Hv : name_query_validator p state =
               (true, mk_nq (nq_bcast state) (nq_bcast_star_query state)
                        NT_STATUS_NOT_FOUND (nq_flags state) (nq_addrs state))).
  { unfold name_query_validator. rewrite Hb, Hop.
    destruct (rcode (header p) =? 0) eqn:E; [apply Z.eqb_eq in E; contradiction|].
    reflexivity. }
  simpl. rewrite Hv. simpl. repeat split.
  unfold name_query_recv. simpl. rewrite Hb. reflexivity.
Qed.

Lemma name_query_unicast_negative_witness :
  nq_bcast (snd (name_query_send false 50 "FOO" false (v4 10 0 0 1))) = false
  /\ opcode (header sample_negative) = 0
  /\ rcode (header sample_negative) <> 0
  /\ name_query sample_ifs false 50 "FOO" false (v4 10 0 0 1)
       [Response sample_negative; Response (sample_response [0;0;3;3;3;3])]
     = (NT_STATUS_NOT_FOUND, [], 0).
Proof.
  split; [reflexivity|]. split; [reflexivity|]. split; [discriminate|].
  pose proof (name_query_unicast_negative sample_ifs
                (snd (name_query_send false 50 "FOO" false (v4 10 0 0 1)))
                sample_negative [Response (sample_response [0;0;3;3;3;3])]
                eq_refl eq_refl ltac:(discriminate)) as (_ & _ & _ & Hpoll & Hrecv).
  unfold name_query. change (name_query_send false 50 "FOO" false (v4 10 0 0 1))
    with (@None NTSTATUS, snd (name_query_send false 50 "FOO" false (v4 10 0 0 1))).
  cbv beta iota. unfold name_query_complete. rewrite Hpoll. exact Hrecv.
Defined.

(** *** Broadcast collection *)

Lemma name_query_record_unique r i got addrs :
  fst (name_query_record r i (got, addrs))
  = got || (Z.land (RSVAL r (i * 6)) 0x8000 =? 0).
Proof.
  unfold name_query_record. simpl.
  destruct (is_zero_addr _); [reflexivity|].
  destruct (already_got _ addrs); reflexivity.
Qed.

Lemma name_query_records_unique r addrs :
  fst (name_query_records r addrs)
  = existsb (fun i => Z.land (RSVAL r (i * 6)) 0x8000 =? 0)
      (seq 0 (Z.to_nat (Z.quot (rdlength r) 6))).
Proof.
  unfold name_query_records.
  rewrite <- (orb_false_l (existsb _ _)). generalize false.
  generalize (seq 0 (Z.to_nat (rdlength r ÷ 6))). intros idx.
  revert addrs. induction idx as [|i rest IH]; intros addrs got; cbn [fold_left existsb].
  - simpl. now rewrite orb_false_r.
  - destruct (name_query_record r i (got, addrs)) as [got' addrs'] eqn:E.
    rewrite IH. pose proof (name_query_record_unique r i got addrs) as Hu.
    rewrite E in Hu. simpl in Hu. rewrite Hu. now rewrite orb_assoc.
Qed.

Lemma already_got_true sa l : already_got sa l = true -> sa ∈ l.
Proof.
  unfold already_got. intros H. apply existsb_exists in H.
  destruct H as (a & Hin & Ha). apply list_elem_of_In in Hin.
  unfold sockaddr_storage_to_samba_sockaddr in Ha.
  destruct (ss_family a); try discriminate Ha; cbn [u_ss] in Ha;
    apply sockaddr_equal_eq in Ha; now subst sa.
Qed.

(** The addresses held after the records of an answer were read are
    those held before and the non-zero addresses of the records. *)
Lemma name_query_records_elem_of r addrs a :
  Forall (fun a => ss_family a = AF_INET /\ is_zero_addr a = false) addrs ->
  a ∈ snd (name_query_records r addrs)
  <-> a ∈ addrs
      \/ (a ∈ map (fun i => in_addr_to_sockaddr_storage (putip r (2 + i * 6)))
                (seq 0 (Z.to_nat (Z.quot (rdlength r) 6)))
          /\ is_zero_addr a = false).
Proof.
  unfold name_query_records.
  generalize (seq 0 (Z.to_nat (rdlength r ÷ 6))). intros idx.
  assert (Hfold : forall idx addrs0 got,
    Forall (fun a => ss_family a = AF_INET /\ is_zero_addr a = false) addrs0 ->
    a ∈ snd (fold_left (fun acc i => name_query_record r i acc) idx (got, addrs0))
    <-> a ∈ addrs0
        \/ (a ∈ map (fun i => in_addr_to_sockaddr_storage (putip r (2 + i * 6))) idx
            /\ is_zero_addr a = false)).
  { clear idx addrs. induction idx as [|i rest IH]; intros addrs0 got Hall;
      cbn [fold_left map].
    - cbn [snd]. rewrite elem_of_nil. tauto.
    - assert (H1 : Forall (fun a => ss_family a = AF_INET /\ is_zero_addr a = false)
                     (snd (name_query_record r i (got, addrs0)))
                   /\ (a ∈ snd (name_query_record r i (got, addrs0))
                       <-> a ∈ addrs0
                           \/ (a = in_addr_to_sockaddr_storage (putip r (2 + i * 6))
                               /\ is_zero_addr a = false))).
      { unfold name_query_record.
        cbn [sockaddr_storage_to_samba_sockaddr in_addr_to_sockaddr_storage
             ss_family u_ss].
        change (mk_ss AF_INET (putip r (2 + i * 6)))
          with (in_addr_to_sockaddr_storage (putip r (2 + i * 6))).
        set (x := in_addr_to_sockaddr_storage (putip r (2 + i * 6))).
        destruct (is_zero_addr x) eqn:Ez; cbn [snd].
        { split; [assumption|]. split; [tauto|]. intros [H|[-> H]]; [assumption|].
          congruence. }
        destruct (already_got x addrs0) eqn:Eg; cbn [snd].
        { split; [assumption|]. split; [tauto|]. intros [H|[-> H]]; [assumption|].
          now apply already_got_true. }
        split.
        - apply Forall_app. split; [assumption|]. repeat constructor. exact Ez.
        - rewrite elem_of_app, list_elem_of_singleton. split.
          + intros [H| ->]; [now left|]. right. split; [reflexivity|exact Ez].
          + intros [H|[-> _]]; [now left|now right]. }
      destruct (name_query_record r i (got, addrs0)) as [got' addrs'].
      cbn [snd] in H1. destruct H1 as (Hall' & Hstep).
      rewrite (IH addrs' got' Hall'), Hstep, elem_of_cons. tauto. }
  intros Hall. apply Hfold, Hall.
Qed.

Lemma has_unique_answer_record p :
  has_unique_answer p = true -> 6 <= rdlength (answers p).
Proof.
  unfold has_unique_answer. intros H. apply existsb_exists in H.
  destruct H as (i & Hin & _). apply in_seq in Hin.
  assert (0 < Z.to_nat (rdlength (answers p) ÷ 6))%nat by lia.
  destruct (Z.le_gt_cases 6 (rdlength (answers p))) as [|Hlt]; [assumption|].
  exfalso.
  assert (rdlength (answers p) ÷ 6 <= 0).
  { destruct (Z.le_gt_cases 0 (rdlength (answers p))).
    - rewrite Z.quot_small by lia. lia.
    - apply Z.quot_le_upper_bound; lia. }
  lia.
Qed.

Lemma talloc_realloc_null_record (n : nat) (rdlen : Z) :
  6 <= rdlen -> talloc_realloc_null (Z.of_nat n + rdlen ÷ 6) = false.
Proof.
  intros H. unfold talloc_realloc_null. apply Z.leb_gt.
  assert (1 <= rdlen ÷ 6) by (apply Z.quot_le_lower_bound; lia). lia.
Qed.

(** In a broadcast query the validator accepts a response that comes
    with a record exactly when it is positive and holds a unique name
    while the query is not for ["*"]; it keeps the flags of the query
    and its error, and takes the non-zero addresses of a positive
    response into its collection. *)
Lemma name_query_validator_bcast p state :
  nq_bcast state = true ->
  carries_record p = true ->
  fst (name_query_validator p state)
  = positive_response p && has_unique_answer p && negb (nq_bcast_star_query state)
  /\ nq_bcast (snd (name_query_validator p state)) = true
  /\ nq_bcast_star_query (snd (name_query_validator p state)) = nq_bcast_star_query state
  /\ nq_validate_error (snd (name_query_validator p state)) = nq_validate_error state
  /\ (Forall (fun a => ss_family a = AF_INET /\ is_zero_addr a = false)
        (nq_addrs state) ->
      forall a, a ∈ nq_addrs (snd (name_query_validator p state))
                <-> a ∈ nq_addrs state
                    \/ (positive_response p = true /\ a ∈ response_addrs p
                        /\ is_zero_addr a = false)).
Proof.
  intros Hb Hrec. unfold name_query_validator, positive_response, has_unique_answer.
  unfold carries_record, positive_response in Hrec.
  rewrite Hb. rewrite andb_false_r. cbn [negb andb].
  destruct (opcode (header p) =? 0), (nm_bcast (header p)),
    (rcode (header p) =? 0), (ancount (header p) =? 0);
    cbn [negb andb orb fst snd nq_bcast nq_bcast_star_query nq_validate_error nq_addrs];
    try (split; [reflexivity|]; split; [exact Hb|]; split; [reflexivity|];
         split; [reflexivity|]; intros _ a; split;
         [intros H; now left|intros [H|(H & _)]; [exact H|discriminate H]]).
  cbn [negb andb implb] in Hrec. apply Z.leb_le in Hrec.
  rewrite (talloc_realloc_null_record _ _ Hrec).
  pose proof (name_query_records_unique (answers p) (nq_addrs state)) as Hu.
  pose proof (fun a H => name_query_records_elem_of (answers p) (nq_addrs state) a H) as He.
  destruct (name_query_records (answers p) (nq_addrs state)) as [got addrs].
  cbn [fst snd] in Hu, He. subst got.
  cbn [fst snd nq_bcast nq_bcast_star_query nq_validate_error nq_addrs].
  split; [reflexivity|]. split; [reflexivity|]. split; [reflexivity|].
  split; [reflexivity|]. intros Hall a. rewrite (He a Hall).
  unfold response_addrs. tauto.
Qed.

Lemma validated_app state pre post :
  validated state (pre ++ post) = validated (validated state pre) post.
Proof. unfold validated. apply fold_left_app. Qed.

Lemma collectable_addresses_elem_of pkts a :
  a ∈ collectable_addresses pkts
  <-> is_zero_addr a = false
      /\ exists p, p ∈ pkts /\ positive_response p = true /\ a ∈ response_addrs p.
Proof.
  unfold collectable_addresses. rewrite list_elem_of_filter.
  rewrite list_elem_of_In, in_flat_map. split.
  - intros (Hz & p & Hp & Ha). split; [exact Hz|]. exists p.
    apply list_elem_of_In, list_elem_of_filter in Hp.
    destruct Hp as (Hpos & Hin). apply list_elem_of_In in Ha. auto.
  - intros (Hz & p & Hin & Hpos & Ha). split; [exact Hz|]. exists p.
    split; [|now apply list_elem_of_In].
    apply list_elem_of_In, list_elem_of_filter. auto.
Qed.

(** What a broadcast query holds once the packets [pkts], each with a
    record if positive, went through the validator. *)
Lemma validated_bcast pkts : forall state,
  nq_bcast state = true ->
  Forall (fun p => carries_record p = true) pkts ->
  NoDup (nq_addrs state) ->
  Forall (fun a => ss_family a = AF_INET /\ is_zero_addr a = false) (nq_addrs state) ->
  nq_bcast (validated state pkts) = true
  /\ nq_bcast_star_query (validated state pkts) = nq_bcast_star_query state
  /\ nq_validate_error (validated state pkts) = nq_validate_error state
  /\ NoDup (nq_addrs (validated state pkts))
  /\ Forall (fun a => ss_family a = AF_INET /\ is_zero_addr a = false)
       (nq_addrs (validated state pkts))
  /\ forall a, a ∈ nq_addrs (validated state pkts)
               <-> a ∈ nq_addrs state \/ a ∈ collectable_addresses pkts.
Proof.
  induction pkts as [|p rest IH]; intros state Hb Hrec Hnd Hall.
  - change (validated state []) with state.
    do 5 (split; [auto|]). intros a. rewrite collectable_addresses_elem_of.
    split; [tauto|]. intros [H|(_ & p & Hp & _)]; [exact H|].
    now apply elem_of_nil in Hp.
  - inversion Hrec as [|? ? Hp Hrest]; subst.
    destruct (name_query_validator_bcast p state Hb Hp) as (_ & Hb' & Hs & He & Hel).
    destruct (name_query_validator_collected p state (conj Hnd Hall)) as (Hnd' & Hall').
    change (validated state (p :: rest))
      with (validated (snd (name_query_validator p state)) rest).
    destruct (IH _ Hb' Hrest Hnd' Hall') as (H1 & H2 & H3 & H4 & H5 & H6).
    split; [exact H1|]. split; [congruence|]. split; [congruence|].
    split; [exact H4|]. split; [exact H5|].
    intros a. rewrite H6, (Hel Hall a), !collectable_addresses_elem_of.
    split.
    + intros [[H|(Hpos & Ha & Hz)]|(Hz & q & Hq & Hpos & Ha)].
      * now left.
      * right. split; [exact Hz|]. exists p. split; [left|]; auto.
      * right. split; [exact Hz|]. exists q. split; [now right|]; auto.
    + intros [H|(Hz & q & Hq & Hpos & Ha)]; [now left; left|].
      apply elem_of_cons in Hq. destruct Hq as [->|Hq].
      * left. right. auto.
      * right. split; [exact Hz|]. exists q. auto.
Qed.

(** Responses that do not end the collection are all consumed, and the
    request is still in flight when the deadline fires. *)
Lemma name_query_poll_deadline pkts : forall state,
  nq_bcast state = true ->
  Forall (fun p => carries_record p = true) pkts ->
  Forall (fun p => positive_response p && has_unique_answer p
                   && negb (nq_bcast_star_query state) = false) pkts ->
  name_query_poll state (map Response pkts)
  = (NT_STATUS_IO_TIMEOUT, validated state pkts).
Proof.
  induction pkts as [|p rest IH]; intros state Hb Hrec Hall; [reflexivity|].
  inversion Hall as [|? ? Hp Hrest]; subst.
  inversion Hrec as [|? ? Hr Hrecs]; subst.
  destruct (name_query_validator_bcast p state Hb Hr) as (Hacc & Hb' & Hs & _).
  cbn [map name_query_poll].
  destruct (name_query_validator p state) as [accepted state'] eqn:E.
  simpl in *. rewrite Hacc, Hp.
  change (validated state (p :: rest)) with
    (validated (snd (name_query_validator p state)) rest).
  rewrite E. simpl. apply IH; [assumption|assumption|]. now rewrite Hs.
Qed.

(** The first event that ends the collection completes the request;
    what follows it is never looked at. *)
Lemma name_query_poll_early pre : forall state p rest,
  nq_bcast state = true ->
  nq_validate_error state = NT_STATUS_OK ->
  Forall (fun p => carries_record p = true) pre ->
  Forall (fun p => positive_response p && has_unique_answer p
                   && negb (nq_bcast_star_query state) = false) pre ->
  positive_response p && has_unique_answer p
    && negb (nq_bcast_star_query state) = true ->
  name_query_poll state (map Response pre ++ Response p :: rest)
  = (NT_STATUS_OK, validated state (pre ++ [p])).
Proof.
  induction pre as [|q pre IH]; intros state p rest Hb Hok Hrec Hall Hp.
  - assert (Hr : carries_record p = true).
    { unfold carries_record. apply andb_true_iff in Hp. destruct Hp as (Hp & _).
      apply andb_true_iff in Hp. destruct Hp as (Hpos & Hu). rewrite Hpos.
      cbn [implb]. apply Z.leb_le. now apply has_unique_answer_record. }
    destruct (name_query_validator_bcast p state Hb Hr) as (Hacc & _ & _ & He & _).
    cbn [app map name_query_poll].
    change (validated state [p]) with (snd (name_query_validator p state)).
    destruct (name_query_validator p state) as [accepted state'] eqn:E.
    simpl in *. rewrite Hacc, Hp. unfold name_query_done.
    rewrite He, Hok. reflexivity.
  - inversion Hall as [|? ? Hq Hpre]; subst.
    inversion Hrec as [|? ? Hr Hrecs]; subst.
    destruct (name_query_validator_bcast q state Hb Hr) as (Hacc & Hb' & Hs & He & _).
    cbn [app map name_query_poll].
    change (validated state (q :: pre ++ [p])) with
      (validated (snd (name_query_validator q state)) (pre ++ [p])).
    destruct (name_query_validator q state) as [accepted state'] eqn:E.
    simpl in *. rewrite Hacc, Hq.
    apply IH; try assumption; try congruence; rewrite Hs; assumption.
Qed.

Lemma name_query_poll_failure pre : forall state status rest,
  nq_bcast state = true ->
  Forall (fun p => carries_record p = true) pre ->
  Forall (fun p => positive_response p && has_unique_answer p
                   && negb (nq_bcast_star_query state) = false) pre ->
  name_query_poll state (map Response pre ++ TransportFailure status :: rest)
  = (name_query_done status (validated state pre), validated state pre).
Proof.
  induction pre as [|q pre IH]; intros state status rest Hb Hrec Hall.
  - reflexivity.
  - inversion Hall as [|? ? Hq Hpre]; subst.
    inversion Hrec as [|? ? Hr Hrecs]; subst.
    destruct (name_query_validator_bcast q state Hb Hr) as (Hacc & Hb' & Hs & He & _).
    cbn [app map name_query_poll].
    change (validated state (q :: pre)) with
      (validated (snd (name_query_validator q state)) pre).
    destruct (name_query_validator q state) as [accepted state'] eqn:E.
    simpl in *. rewrite Hacc, Hq.
    apply IH; try assumption. rewrite Hs; assumption.
Qed.

Lemma name_query_recv_bcast ifs status state :
  nq_bcast state = true ->
  status = NT_STATUS_OK \/ status = NT_STATUS_IO_TIMEOUT ->
  name_query_recv ifs status state
  = if (length (nq_addrs state) =? 0)%nat then (NT_STATUS_NOT_FOUND, [], 0)
    else (NT_STATUS_OK, sort_addr_list ifs (nq_addrs state), nq_flags state).
Proof.
  intros Hb [-> | ->]; unfold name_query_recv; rewrite ?Hb; simpl;
    destruct (nq_addrs state); reflexivity.
Qed.

Lemma name_query_send_in_flight dis buflen name bcast to_ss state :
  name_query_send dis buflen name bcast to_ss = (None, state) ->
  state = mk_nq bcast (bcast && String.eqb name "*") NT_STATUS_OK 0 [].
Proof.
  unfold name_query_send.
  destruct (negb (bool_decide (ss_family to_ss = AF_INET))); [discriminate|].
  destruct dis; [discriminate|].
  destruct (sockaddr_storage_to_samba_sockaddr to_ss); [|discriminate].
  destruct (buflen =? 0); [discriminate|]. now intros [= <-].
Qed.

(** What [name_query_recv] makes of a broadcast query that completed, or
    ran into its deadline, having consumed [pkts]. *)
Lemma name_query_recv_collection ifs status state pkts :
  nq_bcast state = true ->
  status = NT_STATUS_OK \/ status = NT_STATUS_IO_TIMEOUT ->
  NoDup (nq_addrs state) ->
  Forall (fun a => ss_family a = AF_INET /\ is_zero_addr a = false) (nq_addrs state) ->
  (forall a, a ∈ nq_addrs state <-> a ∈ collectable_addresses pkts) ->
  collection_result ifs pkts (name_query_recv ifs status state).
Proof.
  intros Hb Hst Hnd Hall Hel. rewrite (name_query_recv_bcast ifs status state Hb Hst).
  unfold collection_result.
  destruct (collectable_addresses pkts) as [|x l] eqn:E.
  - destruct (nq_addrs state) as [|y r]; [reflexivity|].
    exfalso. apply (elem_of_nil y), Hel. now left.
  - destruct (nq_addrs state) as [|y r] eqn:Ea.
    { exfalso. apply (elem_of_nil x), Hel. now left. }
    cbn [length Nat.eqb]. rewrite <- Ea in *.
    exists (sort_addr_list ifs (nq_addrs state)), (nq_flags state).
    pose proof (sort_addr_list_perm ifs (nq_addrs state)) as Hperm.
    split; [reflexivity|]. split; [now rewrite Hperm|].
    split; [intros a; now rewrite Hperm|].
    apply sort_addr_list_sorted.
    eapply Forall_impl; [exact Hall|]. cbn. tauto.
Qed.

(** C4, as the code has it.  A broadcast name query whose positive
    responses each come with a record consumes what arrives in the order
    of arrival.  The collection ends early exactly on a positive
    response (opcode 0, B flag clear, rcode 0, ancount not 0) that
    carries a unique name while the name asked for is not ["*"], and on
    a failure of the transport; what arrives after that is not looked
    at.  Without either every packet is consumed and the deadline ends
    the query.  On the deadline as on such a response the query
    succeeds with the non-zero addresses of the positive responses it
    consumed, each once and in ranked order, when there is at least one,
    and completes with [NT_STATUS_NOT_FOUND] when there is none.  A
    transport that fails with [NT_STATUS_IO_TIMEOUT] ends the query like
    the deadline; one that fails with another status fails the query
    with that status. *)
Theorem name_query_bcast_collection ifs dis buflen name to_ss state :
  name_query_send dis buflen name true to_ss = (None, state) ->
  (forall pkts,
     Forall (fun p => carries_record p = true) pkts ->
     Forall (fun p => ends_collection name p = false) pkts ->
     fst (name_query_poll state (map Response pkts)) = NT_STATUS_IO_TIMEOUT
     /\ collection_result ifs pkts
          (name_query ifs dis buflen name true to_ss (map Response pkts)))
  /\ (forall pre p rest,
        Forall (fun p => carries_record p = true) pre ->
        Forall (fun p => ends_collection name p = false) pre ->
        ends_collection name p = true ->
        fst (name_query_poll state (map Response pre ++ Response p :: rest))
        = NT_STATUS_OK
        /\ collection_result ifs (pre ++ [p])
             (name_query ifs dis buflen name true to_ss
                (map Response pre ++ Response p :: rest)))
  /\ (forall pre status rest,
        Forall (fun p => carries_record p = true) pre ->
        Forall (fun p => ends_collection name p = false) pre ->
        status <> NT_STATUS_OK ->
        fst (name_query_poll state
               (map Response pre ++ TransportFailure status :: rest)) = status
        /\ if NT_STATUS_EQUAL status NT_STATUS_IO_TIMEOUT
           then collection_result ifs pre
                  (name_query ifs dis buflen name true to_ss
                     (map Response pre ++ TransportFailure status :: rest))
           else name_query ifs dis buflen name true to_ss
                  (map Response pre ++ TransportFailure status :: rest)
                = (status, [], 0)).
Proof.
  intros Hsend. pose proof (name_query_send_in_flight _ _ _ _ _ _ Hsend) as Hst.
  assert (Hb : nq_bcast state = true) by (subst; reflexivity).
  assert (Hstar : nq_bcast_star_query state = String.eqb name "*") by (subst; reflexivity).
  assert (Hok : nq_validate_error state = NT_STATUS_OK) by (subst; reflexivity).
  assert (Hnil : nq_addrs state = []) by (subst; reflexivity).
  assert (Hends : forall p, positive_response p && has_unique_answer p
                            && negb (nq_bcast_star_query state) = ends_collection name p).
  { intros p. unfold ends_collection. now rewrite Hstar. }
  assert (Hnot : forall pkts, Forall (fun p => ends_collection name p = false) pkts ->
            Forall (fun p => positive_response p && has_unique_answer p
                             && negb (nq_bcast_star_query state) = false) pkts).
  { intros pkts H. eapply Forall_impl; [exact H|]. intros p Hp. cbn. now rewrite Hends. }
  assert (Hval : forall pkts, Forall (fun p => carries_record p = true) pkts ->
            nq_bcast (validated state pkts) = true
            /\ nq_validate_error (validated state pkts) = NT_STATUS_OK
            /\ NoDup (nq_addrs (validated state pkts))
            /\ Forall (fun a => ss_family a = AF_INET /\ is_zero_addr a = false)
                 (nq_addrs (validated state pkts))
            /\ forall a, a ∈ nq_addrs (validated state pkts)
                         <-> a ∈ collectable_addresses pkts).
  { intros pkts Hrec.
    destruct (validated_bcast pkts state Hb Hrec) as (H1 & _ & H3 & H4 & H5 & H6).
    { rewrite Hnil. constructor. }
    { rewrite Hnil. constructor. }
    split; [exact H1|]. split; [congruence|]. split; [exact H4|]. split; [exact H5|].
    intros a. rewrite H6, Hnil. rewrite elem_of_nil. tauto. }
  split; [|split].
  - intros pkts Hrec Hall.
    rewrite (name_query_poll_deadline pkts state Hb Hrec (Hnot _ Hall)).
    split; [reflexivity|].
    unfold name_query. rewrite Hsend. unfold name_query_complete.
    rewrite (name_query_poll_deadline pkts state Hb Hrec (Hnot _ Hall)).
    destruct (Hval pkts Hrec) as (H1 & _ & H3 & H4 & H5).
    apply name_query_recv_collection; auto.
  - intros pre p rest Hrec Hall Hp.
    assert (Hr : carries_record p = true).
    { unfold carries_record, ends_collection in *.
      apply andb_true_iff in Hp. destruct Hp as (Hp & _).
      apply andb_true_iff in Hp. destruct Hp as (Hpos & Hu). rewrite Hpos.
      cbn [implb]. apply Z.leb_le. now apply has_unique_answer_record. }
    assert (Hpoll : name_query_poll state (map Response pre ++ Response p :: rest)
                    = (NT_STATUS_OK, validated state (pre ++ [p]))).
    { apply name_query_poll_early; auto. now rewrite Hends. }
    rewrite Hpoll. split; [reflexivity|].
    unfold name_query. rewrite Hsend. unfold name_query_complete. rewrite Hpoll.
    destruct (Hval (pre ++ [p])) as (H1 & _ & H3 & H4 & H5).
    { apply Forall_app. split; [assumption|]. now constructor. }
    apply name_query_recv_collection; auto.
  - intros pre status rest Hrec Hall Hne.
    rewrite (name_query_poll_failure pre state status rest Hb Hrec (Hnot _ Hall)).
    destruct (Hval pre Hrec) as (H1 & H2 & H3 & H4 & H5).
    assert (Hdone : name_query_done status (validated state pre) = status).
    { unfold name_query_done. destruct status; try reflexivity. congruence. }
    cbn [fst]. split; [exact Hdone|].
    unfold name_query. rewrite Hsend. unfold name_query_complete.
    rewrite (name_query_poll_failure pre state status rest Hb Hrec (Hnot _ Hall)).
    rewrite Hdone. unfold NT_STATUS_EQUAL. case_bool_decide as Hto.
    + apply name_query_recv_collection; auto.
    + unfold name_query_recv. rewrite H1. unfold NT_STATUS_EQUAL.
      rewrite (bool_decide_eq_false_2 _ Hto), andb_false_r.
      destruct status; try reflexivity. congruence.
Qed.

(** C4, counterexample.  A broadcast query for [FOO] that no host
    answers runs into its deadline with nothing collected, and completes
    with [NT_STATUS_NOT_FOUND], not with success. *)
Lemma name_query_bcast_deadline_not_found :
  name_query sample_ifs false 50 "FOO" true (v4 10 0 0 255) []
  = (NT_STATUS_NOT_FOUND, [], 0)
  /\ fst (fst (name_query sample_ifs false 50 "FOO" true (v4 10 0 0 255) []))
     <> NT_STATUS_OK.
Proof. split; [reflexivity|discriminate]. Qed.

(** Scenario S2 of the specification: three responses to a broadcast
    query for ["*"], two of them from one host. *)
Lemma name_query_bcast_collection_witness :
  name_query_send false 50 "*" true (v4 10 0 0 255)
  = (None, mk_nq true true NT_STATUS_OK 0 [])
  /\ collection_result sample_ifs
       [sample_response [0;0;1;1;1;1];
        sample_response [0;0;2;2;2;2];
        sample_response [0;0;1;1;1;1]]
       (name_query sample_ifs false 50 "*" true (v4 10 0 0 255)
          (map Response [sample_response [0;0;1;1;1;1];
                         sample_response [0;0;2;2;2;2];
                         sample_response [0;0;1;1;1;1]]))
  /\ name_query sample_ifs false 50 "*" true (v4 10 0 0 255)
       (map Response [sample_response [0;0;1;1;1;1];
                      sample_response [0;0;2;2;2;2];
                      sample_response [0;0;1;1;1;1]])
     = (NT_STATUS_OK, [v4 1 1 1 1; v4 2 2 2 2], 208).
Proof.
  split; [reflexivity|]. split; [|vm_compute; reflexivity].
  destruct (name_query_bcast_collection sample_ifs false 50 "*" (v4 10 0 0 255)
              (mk_nq true true NT_STATUS_OK 0 []) eq_refl) as (Hdeadline & _).
  apply Hdeadline; repeat constructor.
Defined.

(** ** The packet race engine *)

(** C9, as the code has it.  A receive that fails on one path while the
    other sub-wait is outstanding is swallowed: the request stays in
    progress and only the failed sub-wait is gone.  A failed receive
    fails the request only when the other sub-wait is no longer
    outstanding, and the error surfaced is the one of the receive that
    failed last: the mapped errno of the socket when the socket fails
    after the reader, the status of the reader when the reader fails
    after the socket. *)
Theorem sock_packet_read_failures {V} (state : sock_packet_read_state V)
    (trn_id : Z) (validator : option (packet_struct -> V -> bool * V))
    (private_data : V) (status : NTSTATUS) (err : Z) :
  fst (sock_packet_read_got_packet (ReaderError status) state)
  = (if spr_socket_req state then TEVENT_REQ_IN_PROGRESS else TEVENT_REQ_ERROR status)
  /\ spr_reader_req (snd (sock_packet_read_got_packet (ReaderError status) state)) = false
  /\ spr_socket_req (snd (sock_packet_read_got_packet (ReaderError status) state))
     = spr_socket_req state
  /\ fst (sock_packet_read_got_socket (SocketError err) state)
     = (if spr_reader_req state then TEVENT_REQ_IN_PROGRESS
        else TEVENT_REQ_ERROR (NT_STATUS_UNIX err))
  /\ spr_socket_req (snd (sock_packet_read_got_socket (SocketError err) state)) = false
  /\ spr_reader_req (snd (sock_packet_read_got_socket (SocketError err) state))
     = spr_reader_req state
  /\ fst (sock_packet_read_recv
            (sock_packet_read_run
               [FromReader (ReaderError status); FromSocket (SocketError err)]
               (sock_packet_read_send true trn_id validator private_data)))
     = NT_STATUS_UNIX err
  /\ fst (sock_packet_read_recv
            (sock_packet_read_run
               [FromSocket (SocketError err); FromReader (ReaderError status)]
               (sock_packet_read_send true trn_id validator private_data)))
     = status
  /\ fst (sock_packet_read_recv
            (sock_packet_read_run [FromSocket (SocketError err)]
               (sock_packet_read_send false trn_id validator private_data)))
     = NT_STATUS_UNIX err.
Proof.
  repeat split; simpl;
    try (destruct (spr_socket_req state); reflexivity);
    try (destruct (spr_reader_req state); reflexivity).
Qed.

(** C9, counterexample.  The socket receive fails first with errno 111,
    then the relay reader fails with [NT_STATUS_INTERNAL_ERROR]: the
    request surfaces the reader's status, not the socket's error. *)
Lemma sock_packet_read_reader_error_last :
  sock_packet_read_recv
    (sock_packet_read_run
       [FromSocket (SocketError 111);
        FromReader (ReaderError NT_STATUS_INTERNAL_ERROR)]
       (sock_packet_read_send (V := unit) true 7 None tt))
  = (NT_STATUS_INTERNAL_ERROR, None)
  /\ fst (sock_packet_read_recv
            (sock_packet_read_run
               [FromSocket (SocketError 111);
                FromReader (ReaderError NT_STATUS_INTERNAL_ERROR)]
               (sock_packet_read_send (V := unit) true 7 None tt)))
     <> NT_STATUS_UNIX 111.
Proof. split; [reflexivity|discriminate]. Qed.

(** *** Unicast queries and their deadline *)

(** In a unicast query the validator accepts exactly the answers, and a
    packet it drops leaves the query as it was; an accepted answer
    leaves an error other than that of a timeout, or none. *)
Lemma name_query_validator_unicast p state :
  nq_bcast state = false ->
  fst (name_query_validator p state) = unicast_answer p
  /\ nq_bcast (snd (name_query_validator p state)) = false
  /\ (unicast_answer p = false -> snd (name_query_validator p state) = state)
  /\ (nq_validate_error (snd (name_query_validator p state)) = NT_STATUS_NOT_FOUND
      \/ nq_validate_error (snd (name_query_validator p state)) = NT_STATUS_NO_MEMORY
      \/ nq_validate_error (snd (name_query_validator p state))
         = nq_validate_error state)
  /\ (opcode (header p) = 0 -> rcode (header p) <> 0 ->
      nq_validate_error (snd (name_query_validator p state)) = NT_STATUS_NOT_FOUND).
Proof.
  intros Hb. unfold name_query_validator, unicast_answer. rewrite Hb.
  destruct (opcode (header p) =? 0) eqn:Eop, (rcode (header p) =? 0) eqn:Erc,
    (nm_bcast (header p)), (ancount (header p) =? 0);
    cbn [negb andb orb fst snd nq_bcast nq_validate_error];
    try (split; [reflexivity|]; split; [first [reflexivity|assumption]|];
         split; [first [reflexivity|discriminate]|];
         split; [now auto|]; intros Hop Hrc;
         first [reflexivity
               |apply Z.eqb_eq in Erc; contradiction
               |apply Z.eqb_neq in Eop; contradiction]).
  destruct (talloc_realloc_null _);
    [|destruct (name_query_records (answers p) (nq_addrs state)) as [got addrs]];
    cbn [fst snd nq_bcast nq_validate_error];
    (split; [reflexivity|]; split; [reflexivity|]; split; [discriminate|];
     split; [now auto|]; intros Hop Hrc; apply Z.eqb_eq in Erc; contradiction).
Qed.

(** A unicast query runs until the first arrival that ends it. *)
Lemma name_query_poll_unicast evs : forall state,
  nq_bcast state = false ->
  name_query_poll state evs
  = match find ends_unicast evs with
    | None => (NT_STATUS_IO_TIMEOUT, state)
    | Some (TransportFailure status) => (name_query_done status state, state)
    | Some (Response p) =>
        (name_query_done NT_STATUS_OK (snd (name_query_validator p state)),
         snd (name_query_validator p state))
    end.
Proof.
  induction evs as [|ev rest IH]; intros state Hb; [reflexivity|].
  destruct ev as [p|status]; cbn [name_query_poll find ends_unicast]; [|reflexivity].
  destruct (name_query_validator_unicast p state Hb) as (Hacc & _ & Hrej & _).
  destruct (unicast_answer p) eqn:Ea; cbv iota.
  - destruct (name_query_validator p state) as [accepted state'].
    cbn [fst snd] in *. now subst accepted.
  - destruct (name_query_validator p state) as [accepted state'].
    cbn [fst snd] in *. subst accepted. rewrite (Hrej eq_refl). now apply IH.
Qed.

(** What arrives before a deadline, seen from the list of arrivals. *)
Lemma find_before_endtime (endtime : Z) (P : nb_event -> bool)
    (arrivals : list (Z * nb_event)) :
  find P (tevent_before_endtime endtime arrivals)
  = match find (fun a => (fst a <? endtime) && P (snd a)) arrivals with
    | Some a => Some (snd a)
    | None => None
    end.
Proof.
  unfold tevent_before_endtime.
  induction arrivals as [|a rest IH]; [reflexivity|].
  rewrite filter_cons. cbn [find].
  destruct (Z.ltb_spec (fst a) endtime) as [Hlt|Hge].
  - rewrite decide_True by exact Hlt. cbn [map find andb].
    destruct (P (snd a)); [reflexivity|exact IH].
  - rewrite decide_False by lia. cbn [andb]. exact IH.
Qed.

(** The status a unicast query in flight completes with, by what ends
    it. *)
Lemma name_query_unicast_status ifs evs state :
  nq_bcast state = false ->
  nq_validate_error state = NT_STATUS_OK ->
  match find ends_unicast evs with
  | None =>
      fst (fst (name_query_recv ifs (fst (name_query_poll state evs))
                  (snd (name_query_poll state evs)))) = NT_STATUS_IO_TIMEOUT
  | Some (TransportFailure status) =>
      if NT_STATUS_IS_OK status
      then fst (fst (name_query_recv ifs (fst (name_query_poll state evs))
                       (snd (name_query_poll state evs)))) <> NT_STATUS_IO_TIMEOUT
      else fst (fst (name_query_recv ifs (fst (name_query_poll state evs))
                       (snd (name_query_poll state evs)))) = status
  | Some (Response p) =>
      fst (fst (name_query_recv ifs (fst (name_query_poll state evs))
                  (snd (name_query_poll state evs)))) <> NT_STATUS_IO_TIMEOUT
      /\ (rcode (header p) <> 0 ->
          fst (fst (name_query_recv ifs (fst (name_query_poll state evs))
                      (snd (name_query_poll state evs)))) = NT_STATUS_NOT_FOUND)
  end.
Proof.
  intros Hb Hv. rewrite (name_query_poll_unicast evs state Hb).
  assert (Hrecv : forall s st, nq_bcast st = false ->
            fst (fst (name_query_recv ifs s st))
            = if NT_STATUS_IS_OK s
              then (if Z.of_nat (length (nq_addrs st)) =? 0
                    then NT_STATUS_NOT_FOUND else NT_STATUS_OK)
              else s).
  { intros s st Hbs. unfold name_query_recv. rewrite Hbs, andb_false_r. cbn [andb].
    destruct (NT_STATUS_IS_OK s); cbn [negb]; [|reflexivity].
    destruct (Z.of_nat (length (nq_addrs st)) =? 0); reflexivity. }
  destruct (find ends_unicast evs) as [[p|status]|] eqn:Ef; cbn [fst snd].
  - apply find_some in Ef. destruct Ef as (_ & Hans). cbn [ends_unicast] in Hans.
    destruct (name_query_validator_unicast p state Hb)
      as (_ & Hb' & _ & Herr & Hneg).
    rewrite (Hrecv _ _ Hb').
    assert (Hop : opcode (header p) = 0).
    { unfold unicast_answer in Hans. apply andb_true_iff in Hans.
      now apply Z.eqb_eq. }
    unfold name_query_done. cbn [NT_STATUS_IS_OK negb].
    split.
    + destruct Herr as [-> | [-> | ->]]; cbn [NT_STATUS_IS_OK negb];
        try discriminate.
      rewrite Hv. cbn [NT_STATUS_IS_OK negb].
      destruct (Z.of_nat _ =? 0); discriminate.
    + intros Hrc. rewrite (Hneg Hop Hrc). reflexivity.
  - rewrite (Hrecv _ _ Hb). unfold name_query_done. rewrite Hv.
    destruct (NT_STATUS_IS_OK status) eqn:Eok; cbn [negb NT_STATUS_IS_OK].
    + destruct (Z.of_nat _ =? 0); discriminate.
    + rewrite Eok. reflexivity.
  - rewrite (Hrecv _ _ Hb). reflexivity.
Qed.

(** ** The WINS sequencer *)

Lemma wins_query_end_find seconds arrivals :
  wins_query_end seconds arrivals
  = find ends_unicast
      (map snd (filter (fun a => fst a < seconds * 1000000) arrivals)).
Proof.
  unfold wins_query_end.
  now rewrite <- (find_before_endtime (seconds * 1000000) ends_unicast arrivals).
Qed.

Section QueryWinsList.
Variables (env : nbt_env) (name : string) (servers : list Z)
          (wire : nat -> list (Z * nb_event)).

Local Abbreviation reply := (wins_reply env name servers wire).
Local Abbreviation status k := (fst (fst (wins_reply env name servers wire k))).
Local Abbreviation marked := (wins_marked (my_socket_addr_v4 env) servers).
Local Abbreviation subreq k :=
  (query_wins_list_subreq env name (mk_qwl servers k [] 0)).

(** The sub-request sent to [servers[k]] returns what [name_query]
    returns for that server on what arrives within two seconds. *)
Lemma name_query_req_recv_reply k :
  name_query_req_recv env (subreq k) (wire k) = reply k.
Proof.
  unfold name_query_req_recv, wins_reply, name_query, query_wins_list_subreq.
  cbn [qwl_servers qwl_num_sent].
  destruct (name_query_send _ _ _ _ _) as [posted nq].
  cbn [nqr_posted nqr_state nqr_endtime]. reflexivity.
Qed.

Hypothesis netbios_enabled : lp_disable_netbios env = false.
Hypothesis packet_built : build_packet_len env <> 0.

Lemma wins_query_in_flight k :
  name_query_send (lp_disable_netbios env) (build_packet_len env) name false
    (in_addr_to_sockaddr_storage (nth k servers 0))
  = (None, mk_nq false false NT_STATUS_OK 0 []).
Proof.
  unfold name_query_send. rewrite netbios_enabled.
  cbn [in_addr_to_sockaddr_storage ss_family sockaddr_storage_to_samba_sockaddr].
  rewrite bool_decide_eq_true_2 by reflexivity. cbn [negb andb].
  now rewrite (proj2 (Z.eqb_neq _ _) packet_built).
Qed.

(** The status of the query to a server, by what ends it within two
    seconds. *)
Lemma wins_status_end k :
  match wins_query_end 2 (wire k) with
  | None => status k = NT_STATUS_IO_TIMEOUT
  | Some (TransportFailure s) =>
      if NT_STATUS_IS_OK s then status k <> NT_STATUS_IO_TIMEOUT else status k = s
  | Some (Response p) =>
      unicast_answer p = true
      /\ status k <> NT_STATUS_IO_TIMEOUT
      /\ (rcode (header p) <> 0 -> status k = NT_STATUS_NOT_FOUND)
  end.
Proof.
  pose proof (name_query_unicast_status (nbt_ifs env)
                (map snd (filter (fun a => fst a < 2 * 1000000) (wire k)))
                (mk_nq false false NT_STATUS_OK 0 []) eq_refl eq_refl) as H.
  rewrite wins_query_end_find.
  unfold wins_reply, name_query. rewrite wins_query_in_flight.
  unfold name_query_complete.
  destruct (find ends_unicast _) as [[p|s]|] eqn:Ef.
  - apply find_some in Ef. destruct Ef as (_ & Hans).
    destruct (name_query_poll _ _) as [rs st]. cbn [fst snd] in *.
    destruct H as (H1 & H2). auto.
  - destruct (name_query_poll _ _) as [rs st]. cbn [fst snd] in *. exact H.
  - destruct (name_query_poll _ _) as [rs st]. cbn [fst snd] in *. exact H.
Qed.

(** A server's query ends in [NT_STATUS_IO_TIMEOUT] exactly when it
    times out. *)
Lemma wins_status_timed_out k :
  status k = NT_STATUS_IO_TIMEOUT <-> wins_timed_out (wire k) = true.
Proof.
  pose proof (wins_status_end k) as H. unfold wins_timed_out.
  destruct (wins_query_end 2 (wire k)) as [[p|s]|].
  - destruct H as (_ & H & _). split; [contradiction|discriminate].
  - unfold NT_STATUS_EQUAL. destruct (NT_STATUS_IS_OK s) eqn:Eok.
    + split; [contradiction|]. intros Hs. apply bool_decide_eq_true in Hs.
      subst s. discriminate Eok.
    + rewrite H. now rewrite bool_decide_eq_true.
  - tauto.
Qed.

Lemma wins_timeouts_from_spec n : forall k,
  (k <= wins_timeouts_from wire k n <= k + n)%nat
  /\ (forall j, (k <= j < wins_timeouts_from wire k n)%nat ->
        wins_timed_out (wire j) = true)
  /\ ((wins_timeouts_from wire k n < k + n)%nat ->
        wins_timed_out (wire (wins_timeouts_from wire k n)) = false).
Proof.
  induction n as [|n IH]; intros k; cbn [wins_timeouts_from].
  - split; [lia|]. split; intros; lia.
  - destruct (wins_timed_out (wire k)) eqn:Hk.
    + destruct (IH (S k)) as (Hle & Hall & Hstop). split; [lia|]. split.
      * intros j Hj. destruct (decide (j = k)) as [->|Hne]; [exact Hk|].
        apply Hall. lia.
      * intros Hlt. apply Hstop. lia.
    + split; [lia|]. split; [intros; lia|]. intros _. exact Hk.
Qed.

Lemma wins_marked_nil k : wins_marked (my_socket_addr_v4 env) servers k k = ∅.
Proof.
  unfold wins_marked. rewrite drop_ge; [reflexivity|].
  rewrite length_take. lia.
Qed.

Lemma wins_marked_cons k m :
  (k < m <= length servers)%nat ->
  marked k m = {[ (nth k servers 0, my_socket_addr_v4 env) ]} ∪ marked (S k) m.
Proof.
  intros Hk. unfold wins_marked.
  destruct (lookup_lt_is_Some_2 servers k ltac:(lia)) as [x Hx].
  rewrite (nth_lookup_Some _ _ _ _ Hx).
  rewrite (drop_S (take m servers) x k); [reflexivity|].
  rewrite lookup_take_lt by lia. exact Hx.
Qed.

Lemma wins_srv_died_marked (x src : Z) (dead M : gset (Z * Z)) :
  wins_srv_died x src dead ∪ M = dead ∪ ({[ (x, src) ]} ∪ M).
Proof.
  unfold wins_srv_died. apply set_eq. intros y.
  rewrite !elem_of_union. tauto.
Qed.

(** One completed sub-request, for a chain that has sent [S k] queries. *)
Lemma query_wins_list_done_step k state dead :
  qwl_servers state = servers -> qwl_num_sent state = S k ->
  query_wins_list_done env name (subreq k) (wire k) state dead
  = if NT_STATUS_IS_OK (status k) then
      (QWL_FINISHED NT_STATUS_OK,
       mk_qwl servers (S k) (snd (fst (reply k))) (snd (reply k)), dead)
    else if negb (NT_STATUS_EQUAL (status k) NT_STATUS_IO_TIMEOUT) then
      (QWL_FINISHED (status k), state, dead)
    else if (S k =? length servers)%nat then
      (QWL_FINISHED NT_STATUS_NOT_FOUND, state,
       wins_srv_died (nth k servers 0) (my_socket_addr_v4 env) dead)
    else
      (QWL_WAITING (subreq (S k)),
       mk_qwl servers (S (S k)) (qwl_addrs state) (qwl_flags state),
       wins_srv_died (nth k servers 0) (my_socket_addr_v4 env) dead).
Proof.
  intros Hs Hn. unfold query_wins_list_done.
  rewrite (name_query_req_recv_reply k).
  destruct (reply k) as [[st addrs] flags]. cbn [fst snd].
  rewrite Hs, Hn. simpl. rewrite Nat.sub_0_r, Nat.add_1_r.
  destruct (NT_STATUS_IS_OK st); [reflexivity|].
  destruct (negb (NT_STATUS_EQUAL st NT_STATUS_IO_TIMEOUT)); [reflexivity|].
  unfold query_wins_list_subreq. simpl. rewrite Hs, Hn.
  reflexivity.
Qed.

#[local] Arguments Nat.min : simpl never.

Lemma query_wins_list_loop_spec d : forall k m state dead fuel,
  qwl_servers state = servers -> qwl_num_sent state = S k ->
  (k + d = m)%nat -> (k < length servers)%nat -> (m <= length servers)%nat ->
  (Nat.min (S m) (length servers) - k <= fuel)%nat ->
  (forall j, (k <= j < m)%nat -> status j = NT_STATUS_IO_TIMEOUT) ->
  ((m < length servers)%nat -> status m <> NT_STATUS_IO_TIMEOUT) ->
  exists state',
    query_wins_list_loop fuel env name wire
      (QWL_WAITING (subreq k)) state dead
    = Some (if (m <? length servers)%nat
            then status m else NT_STATUS_NOT_FOUND,
            state', dead ∪ marked k m)
    /\ qwl_num_sent state' = Nat.min (S m) (length servers)
    /\ ((m < length servers)%nat -> status m = NT_STATUS_OK ->
        qwl_addrs state' = snd (fst (reply m)) /\ qwl_flags state' = snd (reply m)).
Proof.
  induction d as [|d IH]; intros k m state dead fuel Hs Hn Hm Hk Hmn Hfuel Hall Hstop.
  - assert (m = k) as -> by lia. clear Hm.
    destruct fuel as [|fuel]; [lia|]. cbn [query_wins_list_loop].
    rewrite Hn. simpl. rewrite Nat.sub_0_r.
    rewrite (query_wins_list_done_step k state dead Hs Hn).
    specialize (Hstop Hk).
    rewrite wins_marked_nil, (union_empty_r_L dead).
    destruct (Nat.ltb_spec k (length servers)) as [_|]; [|lia].
    destruct (NT_STATUS_IS_OK (status k)) eqn:Eok.
    + assert (Est : status k = NT_STATUS_OK)
        by (destruct (status k); try discriminate Eok; reflexivity).
      eexists. split; [destruct fuel; rewrite Est; reflexivity|].
      split; [cbn [qwl_num_sent]; lia|]. intros _ _. split; reflexivity.
    + unfold NT_STATUS_EQUAL. rewrite bool_decide_eq_false_2 by assumption.
      cbn [negb]. exists state.
      split; [destruct fuel; reflexivity|].
      split; [rewrite Hn; lia|]. intros _ Hok. rewrite Hok in Eok. discriminate.
  - destruct fuel as [|fuel]; [lia|]. cbn [query_wins_list_loop].
    rewrite Hn. simpl. rewrite Nat.sub_0_r.
    rewrite (query_wins_list_done_step k state dead Hs Hn).
    rewrite (Hall k) by lia. unfold NT_STATUS_EQUAL.
    rewrite bool_decide_eq_true_2 by reflexivity. cbn [NT_STATUS_IS_OK negb].
    rewrite (wins_marked_cons k m) by lia.
    destruct (Nat.eqb_spec (S k) (length servers)) as [Hlast|Hmore].
    + assert (m = S k) as -> by lia. clear Hm.
      rewrite <- Hlast, Nat.ltb_irrefl, wins_marked_nil.
      exists state. split; [|split].
      * destruct fuel; simpl; now rewrite <- wins_srv_died_marked, (union_empty_r_L _).
      * rewrite Hn. lia.
      * intros Hlt. lia.
    + destruct (IH (S k) m
                  (mk_qwl servers (S (S k)) (qwl_addrs state) (qwl_flags state))
                  (wins_srv_died (nth k servers 0) (my_socket_addr_v4 env) dead)
                  fuel) as (state' & Hloop & Hsent & Hok);
        try reflexivity; try lia; try assumption.
      { intros j Hj. apply Hall. lia. }
      exists state'. split; [|split; assumption].
      rewrite Hloop. now rewrite wins_srv_died_marked.
Qed.

(** The chain as a whole. *)
Lemma query_wins_list_run dead :
  exists state',
    query_wins_list env name servers wire dead
    = Some (if (wins_timeouts servers wire <? length servers)%nat
            then status (wins_timeouts servers wire) else NT_STATUS_NOT_FOUND,
            state',
            dead ∪ marked 0%nat (wins_timeouts servers wire))
    /\ qwl_num_sent state'
       = Nat.min (S (wins_timeouts servers wire)) (length servers)
    /\ query_wins_list_recv
         (if (wins_timeouts servers wire <? length servers)%nat
          then status (wins_timeouts servers wire) else NT_STATUS_NOT_FOUND)
         state'
       = if (wins_timeouts servers wire <? length servers)%nat
         then reply (wins_timeouts servers wire)
         else (NT_STATUS_NOT_FOUND, [], 0).
Proof.
  unfold wins_timeouts.
  destruct (wins_timeouts_from_spec (length servers) 0%nat) as (Hle & Hall & Hstop).
  set (m := wins_timeouts_from wire 0 (length servers)) in *.
  unfold query_wins_list, query_wins_list_send.
  destruct (Nat.eqb_spec (length servers) 0) as [Hnil|Hcons].
  - assert (m = 0%nat) as -> by lia. rewrite Hnil. simpl.
    exists (mk_qwl servers 0 [] 0). rewrite wins_marked_nil, (union_empty_r_L _).
    split; [reflexivity|]. split; reflexivity.
  - destruct (query_wins_list_loop_spec m 0 m
                (mk_qwl servers (0 + 1) [] 0) dead (length servers))
      as (state' & Hloop & Hsent & Hok);
      try reflexivity; try lia.
    { intros j Hj. apply wins_status_timed_out, Hall. lia. }
    { intros Hlt Habs. apply wins_status_timed_out in Habs.
      rewrite Hstop in Habs by lia. discriminate. }
    exists state'. split; [exact Hloop|]. split; [exact Hsent|].
    destruct (Nat.ltb_spec m (length servers)) as [Hlt|Hge].
    + unfold query_wins_list_recv.
      destruct (NT_STATUS_IS_OK (status m)) eqn:Eok; cbn [negb].
      * assert (Est : status m = NT_STATUS_OK)
          by (destruct (status m); try discriminate Eok; reflexivity).
        destruct (Hok Hlt Est) as (Ha & Hf). rewrite Ha, Hf.
        destruct (reply m) as [[s a] f]. cbn [fst snd] in *. now subst s.
      * unfold wins_reply, name_query in *.
        destruct (name_query_send _ _ _ _ _) as [posted nq].
        destruct (name_query_complete posted nq _) as [rs st].
        unfold name_query_recv in *.
        destruct (negb (NT_STATUS_IS_OK _)); [reflexivity|].
        destruct (Z.of_nat _ =? 0); [reflexivity|]. discriminate Eok.
    + reflexivity.
Qed.
End QueryWinsList.

(** C6, as the code has it.  With NetBIOS enabled and a request packet
    that can be built, the chain queries the servers of a tag in order.
    Let [m] be the number of servers at the head of the list whose query
    times out: nothing that ends it, neither an answer nor a failure of
    the transport, arrives within its two seconds, or the transport
    fails in that time with [NT_STATUS_IO_TIMEOUT].  Then the chain
    completes; the servers it marks dead are those [m], so that of the
    servers it has queried exactly those that timed out; if a server is
    left the chain stops at it, sends nothing further, and returns what
    the query to that server returned, be it success or an error: the
    [NT_STATUS_NOT_FOUND] of a negative response, or the status the
    transport failed with; if none is left it completes with
    [NT_STATUS_NOT_FOUND]. *)
Theorem query_wins_list_chain env name servers wire dead :
  lp_disable_netbios env = false ->
  build_packet_len env <> 0 ->
  exists status state',
    query_wins_list env name servers wire dead
    = Some (status, state',
            dead ∪ wins_marked (my_socket_addr_v4 env) servers 0
                     (wins_timeouts servers wire))
    /\ qwl_num_sent state'
       = Nat.min (S (wins_timeouts servers wire)) (length servers)
    /\ (forall k, (k < qwl_num_sent state')%nat ->
          wins_timed_out (wire k) = true <-> (k < wins_timeouts servers wire)%nat)
    /\ query_wins_list_recv status state'
       = (if (wins_timeouts servers wire <? length servers)%nat
          then wins_reply env name servers wire (wins_timeouts servers wire)
          else (NT_STATUS_NOT_FOUND, [], 0))
    /\ ((wins_timeouts servers wire < length servers)%nat ->
        status <> NT_STATUS_IO_TIMEOUT
        /\ match wins_query_end 2 (wire (wins_timeouts servers wire)) with
           | None => False
           | Some (TransportFailure s) =>
               s <> NT_STATUS_IO_TIMEOUT /\ (s <> NT_STATUS_OK -> status = s)
           | Some (Response p) =>
               unicast_answer p = true
               /\ (rcode (header p) <> 0 -> status = NT_STATUS_NOT_FOUND)
           end).
Proof.
  intros Hnb Hbuf.
  destruct (query_wins_list_run env name servers wire Hnb Hbuf dead)
    as (state' & Hrun & Hsent & Hrecv).
  pose proof (wins_timeouts_from_spec wire (length servers) 0%nat) as (Hle & Hall & Hstop).
  fold (wins_timeouts servers wire) in Hle, Hall, Hstop.
  set (m := wins_timeouts servers wire) in *.
  eexists _, state'. split; [exact Hrun|]. split; [exact Hsent|].
  split; [|split; [exact Hrecv|]].
  - intros k Hk. split.
    + intros Hto. destruct (Nat.lt_ge_cases k m) as [|Hge]; [assumption|].
      assert (k = m) as -> by lia.
      rewrite Hstop in Hto by lia. discriminate.
    + intros Hlt. apply Hall. lia.
  - intros Hlt. destruct (Nat.ltb_spec m (length servers)) as [_|]; [|lia].
    pose proof (wins_status_end env name servers wire Hnb Hbuf m) as Hend.
    pose proof (Hstop ltac:(lia)) as Hm. unfold wins_timed_out in Hm.
    destruct (wins_query_end 2 (wire m)) as [[p|s]|]; [| |discriminate Hm].
    + destruct Hend as (Hans & Hne & Hneg). auto.
    + unfold NT_STATUS_EQUAL in Hm. apply bool_decide_eq_false in Hm.
      destruct (NT_STATUS_IS_OK s) eqn:Eok.
      * split; [exact Hend|]. split; [exact Hm|].
        intros Hs. destruct s; try discriminate Eok. contradiction.
      * rewrite Hend. auto.
Qed.

(** C6, counterexample.  The transport of the query to the first server
    fails at once with [NT_STATUS_IO_TIMEOUT], the status for [ETIMEDOUT]:
    no deadline fires, and yet the server is marked dead and the chain
    goes on to the second server, which answers. *)
Lemma query_wins_list_transport_timeout :
  exists state' dead',
    query_wins_list sample_nbt_env "FOO" [ip4 10 0 0 1; ip4 10 0 0 2]
      (fun k => if (k =? 0)%nat then [(0, TransportFailure NT_STATUS_IO_TIMEOUT)]
                else [(1000, Response (sample_response [0;0;3;3;3;3]))]) ∅
    = Some (NT_STATUS_OK, state', dead')
    /\ (ip4 10 0 0 1, ip4 10 0 0 9) ∈ dead'
    /\ wins_deadline_fires 2 [(0, TransportFailure NT_STATUS_IO_TIMEOUT)] = false.
Proof.
  destruct (query_wins_list_run sample_nbt_env "FOO" [ip4 10 0 0 1; ip4 10 0 0 2]
              (fun k => if (k =? 0)%nat then [(0, TransportFailure NT_STATUS_IO_TIMEOUT)]
                        else [(1000, Response (sample_response [0;0;3;3;3;3]))])
              eq_refl ltac:(discriminate) ∅) as (state' & Hrun & _).
  eexists state', _. split; [|split; [|reflexivity]].
  - rewrite Hrun. f_equal.
  - change (wins_timeouts _ _) with 1%nat.
    unfold wins_marked. cbn [take drop map list_to_set]. set_solver.
Qed.

(** Scenario S3 of the specification: the first server of the tag never
    answers within its two seconds, the second one answers with 3.3.3.3. *)
Lemma query_wins_list_chain_witness :
  lp_disable_netbios sample_nbt_env = false
  /\ build_packet_len sample_nbt_env <> 0
  /\ exists status state',
       query_wins_list sample_nbt_env "FOO" [ip4 10 0 0 1; ip4 10 0 0 2]
         (fun k => if (k =? 0)%nat
                   then [(2500000, Response (sample_response [0;0;4;4;4;4]))]
                   else [(1000, Response (sample_response [0;0;3;3;3;3]))]) ∅
       = Some (status, state',
               ∅ ∪ wins_marked (ip4 10 0 0 9) [ip4 10 0 0 1; ip4 10 0 0 2] 0 1)
       /\ query_wins_list_recv status state' = (NT_STATUS_OK, [v4 3 3 3 3], 208).
Proof.
  split; [reflexivity|]. split; [discriminate|].
  destruct (query_wins_list_chain sample_nbt_env "FOO" [ip4 10 0 0 1; ip4 10 0 0 2]
              (fun k => if (k =? 0)%nat
                        then [(2500000, Response (sample_response [0;0;4;4;4;4]))]
                        else [(1000, Response (sample_response [0;0;3;3;3;3]))]) ∅
              eq_refl ltac:(discriminate))
    as (status & state' & Hrun & _ & _ & Hrecv & _).
  exists status, state'. split; [exact Hrun|].
  rewrite Hrecv. vm_compute. reflexivity.
Defined.

(** ** Asynchronous DNS lookups and the ADS resolver *)

(** The inner copy loop writes every address of a query to one and the
    same slot, so only the last one stays. *)
Lemma dns_copy_query_last addrs : forall addr_out n a,
  last addrs = Some a ->
  dns_copy_query addr_out n addrs = <[n := a]> addr_out.
Proof.
  unfold dns_copy_query.
  induction addrs as [|x r IH]; intros addr_out n a Hlast; [discriminate|].
  destruct r as [|y r'].
  - simpl in *. now injection Hlast as ->.
  - rewrite last_cons_cons in Hlast.
    change (fold_left (fun out a0 => <[n := a0]> out) (x :: y :: r') addr_out)
      with (fold_left (fun out a0 => <[n := a0]> out) (y :: r') (<[n := x]> addr_out)).
    rewrite (IH _ n a Hlast). apply list_insert_insert_eq.
Qed.

Lemma dns_copy_query_length addrs : forall addr_out n,
  length (dns_copy_query addr_out n addrs) = length addr_out.
Proof.
  unfold dns_copy_query. induction addrs as [|x r IH]; intros addr_out n;
    cbn [fold_left]; [reflexivity|].
  rewrite IH. apply length_insert.
Qed.

Lemma dns_copy_back_length queries : forall addr_out n,
  length (fst (dns_copy_back queries addr_out n)) = length addr_out.
Proof.
  induction queries as [|q rest IH]; intros addr_out n; simpl; [reflexivity|].
  destruct (length (dq_addrs q) =? 0)%nat; [apply IH|].
  rewrite IH. apply dns_copy_query_length.
Qed.

Lemma dns_count_length (queries : list dns_query_state) : forall n,
  fold_left (fun n query => (n + length (dq_addrs query))%nat) queries n
  = (n + length (flat_map dq_addrs queries))%nat.
Proof.
  induction queries as [|q rest IH]; intros n; simpl; [lia|].
  rewrite IH, length_app. lia.
Qed.

(** The number of addresses returned is the number of addresses the
    lookups resolved: the slip of the copy loop does not show in the
    count. *)
Lemma dns_lookup_list_async_length lookup_a lookup_aaaa names :
  length (snd (dns_lookup_list_async lookup_a lookup_aaaa names))
  = length (dns_lookup_list_spec lookup_a lookup_aaaa names).
Proof.
  unfold dns_lookup_list_async, dns_lookup_list_spec.
  destruct names as [|n0 names']; [reflexivity|].
  cbn [length Nat.eqb].
  remember (dns_lookup_queries lookup_a lookup_aaaa (n0 :: names')) as queries.
  clear Heqqueries.
  pose proof (dns_copy_back_length queries
    (replicate (fold_left (fun n query => (n + length (dq_addrs query))%nat) queries 0%nat)
       zeroed_samba_sockaddr) 0) as Hlen.
  destruct (dns_copy_back queries _ 0) as [addr_out num_addrs].
  cbn [fst snd] in *. rewrite Hlen, length_replicate, dns_count_length. reflexivity.
Qed.

Lemma dns_copy_back_single queries : forall pre total,
  Forall (fun q => (length (dq_addrs q) <= 1)%nat) queries ->
  total = length (flat_map dq_addrs queries) ->
  fst (dns_copy_back queries (pre ++ replicate total zeroed_samba_sockaddr)
         (length pre))
  = pre ++ flat_map dq_addrs queries.
Proof.
  induction queries as [|q rest IH]; intros pre total Hall Htotal.
  - simpl in *. subst total. reflexivity.
  - inversion Hall as [|? ? Hq Hrest]; subst. cbn [dns_copy_back flat_map].
    destruct (dq_addrs q) as [|a [|b r]] eqn:Eq; simpl in Hq; try lia.
    + simpl. now apply IH.
    + cbn [length Nat.eqb app].
      rewrite (dns_copy_query_last [a] _ _ a eq_refl).
      replace (length pre) with (length pre + 0)%nat at 1 by lia.
      rewrite insert_app_r. cbn [length app replicate].
      change (<[0%nat := a]> (zeroed_samba_sockaddr
                :: replicate (length (flat_map dq_addrs rest)) zeroed_samba_sockaddr))
        with (a :: replicate (length (flat_map dq_addrs rest)) zeroed_samba_sockaddr).
      replace (length pre + 1)%nat with (length (pre ++ [a])) by (rewrite length_app; simpl; lia).
      rewrite (cons_middle a pre), app_assoc.
      rewrite IH; [|assumption|reflexivity].
      now rewrite <- app_assoc.
Qed.

(** As long as no lookup resolves to more than one address the copy
    loop returns what the specification asks for. *)
Lemma dns_lookup_list_async_single lookup_a lookup_aaaa names :
  Forall (fun q => (length (dq_addrs q) <= 1)%nat)
    (dns_lookup_queries lookup_a lookup_aaaa names) ->
  dns_lookup_list_async lookup_a lookup_aaaa names
  = (NT_STATUS_OK, dns_lookup_list_spec lookup_a lookup_aaaa names).
Proof.
  intros Hall. unfold dns_lookup_list_async, dns_lookup_list_spec.
  destruct names as [|n0 names']; [reflexivity|].
  cbn [length Nat.eqb].
  remember (dns_lookup_queries lookup_a lookup_aaaa (n0 :: names')) as queries.
  clear Heqqueries.
  rewrite dns_count_length. rewrite Nat.add_0_l.
  pose proof (dns_copy_back_single queries [] _ Hall eq_refl) as Hcopy.
  cbn [app length] in Hcopy.
  destruct (dns_copy_back queries _ 0) as [addr_out num_addrs].
  cbn [fst] in Hcopy. now subst addr_out.
Qed.

(** Scenario S4 of the specification: one embedded address, one
    hostname with a single A record. *)
Lemma resolve_ads_single_a_record :
  resolve_ads sample_dns_one "example.com" 0x1c None
  = (NT_STATUS_OK, [v4 192 0 2 1; v4 192 0 2 2]).
Proof. vm_compute. reflexivity. Qed.

(** C1, at its failing input.  The SRV reply is that of scenario S4, but
    [dc2.example.com] has two A records, 192.0.2.2 and 192.0.2.3.  The
    claim asks for [192.0.2.1; 192.0.2.2; 192.0.2.3]; the copy loop of
    [dns_lookup_list_async] writes both addresses to slot 0 of its
    output, so [resolve_ads] returns 192.0.2.1, then 192.0.2.3, then a
    slot that was never written. *)
Theorem resolve_ads_two_a_records :
  resolve_ads sample_dns_two "example.com" 0x1c None
  = (NT_STATUS_OK, [v4 192 0 2 1; v4 192 0 2 3; zeroed_sockaddr])
  /\ dns_lookup_list_spec (ads_dns_lookup_a sample_dns_two)
       (ads_dns_lookup_aaaa sample_dns_two) ["dc2.example.com"%string]
     = [mk_sa sizeof_sockaddr_in (v4 192 0 2 2);
        mk_sa sizeof_sockaddr_in (v4 192 0 2 3)].
Proof. split; vm_compute; reflexivity. Qed.

(** ** The pipeline driver *)

(** C2.  A name that is a numeric IP literal and parses to an address
    other than the zero address is returned by [internal_resolve_name]
    as the one-element list holding that address with [PORT_NONE]; the
    resolver state comes back untouched, so neither was the name cache
    consulted or written nor any backend dispatched. *)
Theorem internal_resolve_name_ip_literal env name name_type sitename
    resolve_order st a :
  is_ipaddress env name = true ->
  interpret_string_addr env name = Some a ->
  is_zero_addr a = false ->
  internal_resolve_name env name name_type sitename resolve_order st
  = (NT_STATUS_OK, [mk_ip_service a PORT_NONE], st).
Proof.
  intros Hip Hparse Hnz. unfold internal_resolve_name.
  now rewrite Hip, Hparse, Hnz.
Qed.

(** Scenario S1 of the specification. *)
Lemma internal_resolve_name_ip_literal_witness :
  is_ipaddress sample_env "10.0.0.5" = true
  /\ interpret_string_addr sample_env "10.0.0.5" = Some (v4 10 0 0 5)
  /\ is_zero_addr (v4 10 0 0 5) = false
  /\ internal_resolve_name sample_env "10.0.0.5" 0x20 None
       (lp_name_resolve_order sample_env) empty_resolver_state
     = (NT_STATUS_OK, [mk_ip_service (v4 10 0 0 5) PORT_NONE], empty_resolver_state).
Proof.
  split; [reflexivity|]. split; [reflexivity|]. split; [reflexivity|].
  apply (internal_resolve_name_ip_literal sample_env "10.0.0.5" 0x20 None
           (lp_name_resolve_order sample_env) empty_resolver_state (v4 10 0 0 5));
    reflexivity.
Defined.

(** C3, at its failing input.  The claim asks [resolve_name] to fail on
    the literal [0.0.0.0].  The driver does reject it, with
    [NT_STATUS_UNSUCCESSFUL] and no endpoint; but [resolve_name] returns
    a literal as [interpret_string_addr] parses it without going through
    the driver and without the test for the zero address that its other
    path makes, so it succeeds and hands back the zero address. *)
Theorem resolve_name_zero_literal_succeeds :
  resolve_name sample_env "0.0.0.0" 0x20 false empty_resolver_state
  = (true, Some (mk_ss AF_INET 0), empty_resolver_state)
  /\ is_zero_addr (mk_ss AF_INET 0) = true
  /\ internal_resolve_name sample_env "0.0.0.0" 0x20 None
       (lp_name_resolve_order sample_env) empty_resolver_state
     = (NT_STATUS_UNSUCCESSFUL, [], empty_resolver_state).
Proof. split; [|split]; reflexivity. Qed.

(** The same for every literal of the zero address, [::] included: the
    driver fails for it, and [resolve_name] returns it. *)
Lemma resolve_name_zero_address env name name_type sitename resolve_order
    prefer_ipv4 st a :
  is_ipaddress env name = true ->
  interpret_string_addr env name = Some a ->
  is_zero_addr a = true ->
  internal_resolve_name env name name_type sitename resolve_order st
  = (NT_STATUS_UNSUCCESSFUL, [], st)
  /\ resolve_name env name name_type prefer_ipv4 st = (true, Some a, st).
Proof.
  intros Hip Hparse Hz. unfold resolve_name, internal_resolve_name.
  now rewrite Hip, Hparse, Hz.
Qed.

(** The literal [::]. *)
Lemma resolve_name_zero_address_witness :
  is_ipaddress sample_env "::" = true
  /\ interpret_string_addr sample_env "::" = Some (mk_ss AF_INET6 0)
  /\ is_zero_addr (mk_ss AF_INET6 0) = true
  /\ internal_resolve_name sample_env "::" 0x20 None
       (lp_name_resolve_order sample_env) empty_resolver_state
     = (NT_STATUS_UNSUCCESSFUL, [], empty_resolver_state).
Proof.
  split; [reflexivity|]. split; [reflexivity|]. split; [reflexivity|].
  apply (resolve_name_zero_address sample_env "::" 0x20 None
           (lp_name_resolve_order sample_env) false empty_resolver_state
           (mk_ss AF_INET6 0)); reflexivity.
Defined.

(** *** The NetBIOS filter *)

Lemma filter_out_nbt_lookup_filter env order :
  filter_out_nbt_lookup env order
  = filter (fun tok => is_nbt_tag env tok = false) order.
Proof.
  induction order as [|tok rest IH]; [reflexivity|].
  cbn [filter_out_nbt_lookup]. rewrite IH, filter_cons.
  fold (is_nbt_tag env tok).
  destruct (is_nbt_tag env tok) eqn:E.
  - now rewrite decide_False by discriminate.
  - now rewrite decide_True by reflexivity.
Qed.

Lemma resolve_dispatch_nbt env name name_type sitename tok b r nt :
  resolve_dispatch env name name_type sitename tok = Some (b, r, nt) ->
  is_nbt_backend b = true -> is_nbt_tag env tok = true.
Proof.
  unfold resolve_dispatch, is_nbt_tag.
  destruct (strequal env tok "host" || strequal env tok "hosts");
    [intros [= <- _ _]; discriminate|].
  destruct (strequal env tok "kdc"); [intros [= <- _ _]; discriminate|].
  destruct (strequal env tok "ads"); [intros [= <- _ _]; discriminate|].
  destruct (strequal env tok "lmhosts"); [reflexivity|].
  destruct (strequal env tok "wins"); [reflexivity|].
  destruct (strequal env tok "bcast"); [reflexivity|discriminate].
Qed.

(** The backend loop only ever adds to the log, and a NetBIOS backend
    appears in what it adds only for a NetBIOS tag of the order. *)
Lemma resolve_backends_log env name name_type sitename order :
  forall status log,
  exists added,
    snd (resolve_backends env name name_type sitename order status log)
    = log ++ added
    /\ forall b s, In (CALL_BACKEND b s) added -> is_nbt_backend b = true ->
         exists tok, In tok order /\ is_nbt_tag env tok = true.
Proof.
  induction order as [|tok rest IH]; intros status log; cbn [resolve_backends].
  - exists []. split; [now rewrite app_nil_r|]. intros b s [].
  - destruct (resolve_dispatch env name name_type sitename tok)
      as [[[b [status' ss_list]] nt]|] eqn:Ed.
    + destruct (negb (NT_STATUS_IS_OK status')).
      * destruct (IH status' (log ++ [CALL_BACKEND b status'])) as (added & Hlog & Hnbt).
        exists (CALL_BACKEND b status' :: added). split.
        { rewrite Hlog, <- app_assoc. reflexivity. }
        intros b' s' [Heq|Hin] Hb'.
        { injection Heq as <- <-. exists tok. split; [now left|].
          eapply resolve_dispatch_nbt; eauto. }
        { destruct (Hnbt b' s' Hin Hb') as (tok' & Hin' & Htag).
          exists tok'. split; [now right|assumption]. }
      * exists [CALL_BACKEND b status']. split; [reflexivity|].
        intros b' s' [Heq|[]] Hb'. injection Heq as <- <-.
        exists tok. split; [now left|]. eapply resolve_dispatch_nbt; eauto.
    + destruct (IH status log) as (added & Hlog & Hnbt).
      exists added. split; [assumption|]. intros b' s' Hin Hb'.
      destruct (Hnbt b' s' Hin Hb') as (tok' & Hin' & Htag).
      exists tok'. split; [now right|assumption].
Qed.

Lemma effective_resolve_order_configured env name resolve_order :
  effective_resolve_order env name resolve_order
  = (fun order =>
       if (Z.of_nat (String.length name) >? MAX_NETBIOSNAME_LEN - 1)
          || strchr name "."%char
       then filter_out_nbt_lookup env order else order)
    <$> configured_order resolve_order.
Proof.
  unfold effective_resolve_order, configured_order.
  destruct resolve_order as [[|tok rest]|]; simpl;
    try destruct (String.eqb tok "NULL"); simpl; try reflexivity;
    destruct ((Z.of_nat (String.length name) >? MAX_NETBIOSNAME_LEN - 1)
              || strchr name "."%char); reflexivity.
Qed.

(** What a call of the driver adds to the log of calls. *)
Lemma internal_resolve_name_calls env name name_type sitename resolve_order st :
  exists added,
    calls (snd (internal_resolve_name env name name_type sitename resolve_order st))
    = calls st ++ added
    /\ forall b s, In (CALL_BACKEND b s) added -> is_nbt_backend b = true ->
         exists order tok,
           effective_resolve_order env name resolve_order = Some order
           /\ In tok order /\ is_nbt_tag env tok = true.
Proof.
  unfold internal_resolve_name.
  destruct (is_ipaddress env name).
  { exists []. split; [|intros b s []].
    destruct (interpret_string_addr env name) as [a|]; [destruct (is_zero_addr a)|];
      simpl; now rewrite app_nil_r. }
  cbn [namecache calls].
  destruct (namecache_fetch name name_type (namecache st)) as [sa_list|].
  { exists [CALL_NAMECACHE_FETCH name name_type]. split.
    - destruct (length _ =? 0)%nat; reflexivity.
    - intros b s [Heq|[]]. discriminate Heq. }
  destruct (effective_resolve_order env name resolve_order) as [order|].
  2:{ exists [CALL_NAMECACHE_FETCH name name_type]. split; [reflexivity|].
      intros b s [Heq|[]]. discriminate Heq. }
  destruct (resolve_backends_log env name name_type sitename order
              NT_STATUS_UNSUCCESSFUL (calls st ++ [CALL_NAMECACHE_FETCH name name_type]))
    as (added & Hlog & Hnbt).
  exists (CALL_NAMECACHE_FETCH name name_type :: added). split.
  - destruct (resolve_backends env name name_type sitename order
                NT_STATUS_UNSUCCESSFUL _) as [[status|[ss_list nt]] log];
      cbn [snd] in Hlog; subst log; rewrite <- app_assoc.
    + reflexivity.
    + destruct (convert_ss2service ss_list) as [iplist|]; [|reflexivity].
      destruct (negb (length (remove_duplicate_addrs2 iplist) =? 0)%nat);
        [|reflexivity].
      destruct (ip_service_to_samba_sockaddr (remove_duplicate_addrs2 iplist))
        as [[] sa]; reflexivity.
  - intros b s [Heq|Hin] Hb; [discriminate Heq|].
    destruct (Hnbt b s Hin Hb) as (tok & Htok & Htag).
    exists order, tok. auto.
Qed.

(** C7.  For a name longer than 15 characters or with a dot in it the
    driver iterates over the configured order with the tags [lmhosts],
    [wins] and [bcast] taken out and the remaining tags in their
    original sequence, and dispatches none of the three NetBIOS
    backends.  A name of exactly 15 characters without a dot keeps the
    configured order as it is. *)
Theorem internal_resolve_name_filters_nbt env name name_type sitename
    resolve_order st :
  (15 < String.length name)%nat \/ strchr name "."%char = true ->
  (forall order,
     filter_out_nbt_lookup env order
     = filter (fun tok => is_nbt_tag env tok = false) order)
  /\ effective_resolve_order env name resolve_order
     = filter_out_nbt_lookup env <$> configured_order resolve_order
  /\ (exists added,
        calls (snd (internal_resolve_name env name name_type sitename
                      resolve_order st))
        = calls st ++ added
        /\ forall b s, In (CALL_BACKEND b s) added -> is_nbt_backend b = false)
  /\ (forall name15,
        String.length name15 = 15%nat -> strchr name15 "."%char = false ->
        effective_resolve_order env name15 resolve_order
        = configured_order resolve_order).
Proof.
  intros Hname.
  assert (Hcut : (Z.of_nat (String.length name) >? MAX_NETBIOSNAME_LEN - 1)
                 || strchr name "."%char = true).
  { destruct Hname as [Hlen|Hdot].
    - apply orb_true_iff. left. unfold MAX_NETBIOSNAME_LEN. apply Z.gtb_lt. lia.
    - rewrite Hdot. apply orb_true_r. }
  assert (Heff : effective_resolve_order env name resolve_order
                 = filter_out_nbt_lookup env <$> configured_order resolve_order).
  { rewrite effective_resolve_order_configured, Hcut. reflexivity. }
  split; [apply filter_out_nbt_lookup_filter|]. split; [exact Heff|]. split.
  - destruct (internal_resolve_name_calls env name name_type sitename
                resolve_order st) as (added & Hcalls & Hnbt).
    exists added. split; [exact Hcalls|]. intros b s Hin.
    destruct (is_nbt_backend b) eqn:Eb; [|reflexivity].
    destruct (Hnbt b s Hin Eb) as (order & tok & Hord & Htok & Htag).
    rewrite Heff in Hord.
    destruct (configured_order resolve_order) as [o|]; [|discriminate].
    injection Hord as <-. rewrite filter_out_nbt_lookup_filter in Htok.
    apply list_elem_of_In, list_elem_of_filter in Htok. destruct Htok as [Hno _].
    congruence.
  - intros name15 Hlen Hdot.
    rewrite effective_resolve_order_configured, Hlen, Hdot.
    destruct (configured_order resolve_order); reflexivity.
Qed.

(** Scenario S5 of the specification, and a name of 15 characters that
    is still looked up through WINS. *)
Lemma internal_resolve_name_filters_nbt_witness :
  strchr "a-very-long-host.example.com" "."%char = true
  /\ calls (snd (internal_resolve_name sample_env "a-very-long-host.example.com"
                   0x20 None (Some ["lmhosts"; "wins"; "bcast"; "host"]%string)
                   empty_resolver_state))
     = [CALL_NAMECACHE_FETCH "a-very-long-host.example.com" 0x20;
        CALL_BACKEND BACKEND_HOST NT_STATUS_UNSUCCESSFUL]
  /\ calls (snd (internal_resolve_name sample_env "FIFTEEN-CHARS-X"
                   0x20 None (Some ["lmhosts"; "wins"; "bcast"; "host"]%string)
                   empty_resolver_state))
     = [CALL_NAMECACHE_FETCH "FIFTEEN-CHARS-X" 0x20;
        CALL_BACKEND BACKEND_LMHOSTS NT_STATUS_NOT_FOUND;
        CALL_BACKEND BACKEND_WINS NT_STATUS_OK]
  /\ effective_resolve_order sample_env "a-very-long-host.example.com"
       (Some ["lmhosts"; "wins"; "bcast"; "host"]%string)
     = Some ["host"%string].
Proof.
  split; [reflexivity|]. split; [vm_compute; reflexivity|].
  split; [vm_compute; reflexivity|].
  destruct (internal_resolve_name_filters_nbt sample_env
              "a-very-long-host.example.com" 0x20 None
              (Some ["lmhosts"; "wins"; "bcast"; "host"]%string)
              empty_resolver_state (or_intror eq_refl)) as (_ & Heff & _).
  rewrite Heff. vm_compute. reflexivity.
Defined.

(** *** The name cache and the kdc backend *)

Lemma resolve_dispatch_kdc env name name_type sitename tok r nt :
  resolve_dispatch env name name_type sitename tok = Some (BACKEND_KDC, r, nt) ->
  nt = KDC_NAME_TYPE.
Proof.
  unfold resolve_dispatch.
  destruct (strequal env tok "host" || strequal env tok "hosts"); [discriminate|].
  destruct (strequal env tok "kdc"); [now intros [= _ <-]|].
  destruct (strequal env tok "ads"); [discriminate|].
  destruct (strequal env tok "lmhosts"); [discriminate|].
  destruct (strequal env tok "wins"); [destruct (name_type =? 29); discriminate|].
  destruct (strequal env tok "bcast"); discriminate.
Qed.

(** When the backend loop leaves through [done], the last call logged is
    the backend that succeeded, and a result of the kdc backend is filed
    under [KDC_NAME_TYPE]. *)
Lemma resolve_backends_done env name name_type sitename order :
  forall status log ss_list nt log',
  resolve_backends env name name_type sitename order status log
  = (inr (ss_list, nt), log') ->
  exists b, last log' = Some (CALL_BACKEND b NT_STATUS_OK)
            /\ (b = BACKEND_KDC -> nt = KDC_NAME_TYPE).
Proof.
  induction order as [|tok rest IH]; intros status log ss_list nt log';
    cbn [resolve_backends]; [discriminate|].
  destruct (resolve_dispatch env name name_type sitename tok)
    as [[[b [status' l]] nt']|] eqn:Ed; [|apply IH].
  destruct (NT_STATUS_IS_OK status') eqn:Eok; cbn [negb]; [|apply IH].
  intros [= <- <- <-]. exists b.
  assert (status' = NT_STATUS_OK) as ->
    by (destruct status'; try discriminate Eok; reflexivity).
  split; [apply last_snoc|]. intros ->.
  eapply resolve_dispatch_kdc; eauto.
Qed.

(** C8.  When the last thing a call of the driver asked for is the kdc
    backend, and that backend answered with success, the name cache is
    after the call what it was before: the driver hands the result to
    [namecache_store] under [KDC_NAME_TYPE], and nothing is stored under
    that type. *)
Theorem internal_resolve_name_kdc_not_cached env name name_type sitename
    resolve_order st :
  last (calls (snd (internal_resolve_name env name name_type sitename
                      resolve_order st)))
  = Some (CALL_BACKEND BACKEND_KDC NT_STATUS_OK) ->
  namecache (snd (internal_resolve_name env name name_type sitename
                    resolve_order st))
  = namecache st.
Proof.
  unfold internal_resolve_name.
  destruct (is_ipaddress env name).
  { destruct (interpret_string_addr env name) as [a|];
      [destruct (is_zero_addr a)|]; reflexivity. }
  cbn [namecache calls].
  destruct (namecache_fetch name name_type (namecache st)) as [sa_list|].
  { destruct (length _ =? 0)%nat; reflexivity. }
  destruct (effective_resolve_order env name resolve_order) as [order|];
    [|reflexivity].
  destruct (resolve_backends env name name_type sitename order
              NT_STATUS_UNSUCCESSFUL _) as [[status|[ss_list nt]] log] eqn:Eb;
    [reflexivity|].
  destruct (resolve_backends_done _ _ _ _ _ _ _ _ _ _ Eb) as (b & Hlast & Hkdc).
  destruct (convert_ss2service ss_list) as [iplist|]; [|reflexivity].
  destruct (negb (length (remove_duplicate_addrs2 iplist) =? 0)%nat);
    [|reflexivity].
  destruct (ip_service_to_samba_sockaddr (remove_duplicate_addrs2 iplist))
    as [[] sa]; try reflexivity.
  cbn [snd calls namecache]. rewrite Hlast. intros [= ->].
  unfold namecache_store. rewrite (Hkdc eq_refl), Z.eqb_refl. reflexivity.
Qed.

Lemma internal_resolve_name_kdc_not_cached_witness :
  internal_resolve_name sample_env "example.com" 0x1c None
    (Some ["kdc"%string]) empty_resolver_state
  = (NT_STATUS_OK,
     [mk_ip_service (v4 192 0 2 1) PORT_NONE; mk_ip_service (v4 192 0 2 2) PORT_NONE],
     mk_resolver_state ∅
       [CALL_NAMECACHE_FETCH "example.com" 0x1c;
        CALL_BACKEND BACKEND_KDC NT_STATUS_OK])
  /\ namecache (snd (internal_resolve_name sample_env "example.com" 0x1c None
                       (Some ["kdc"%string]) empty_resolver_state))
     = ∅.
Proof.
  split; [vm_compute; reflexivity|].
  apply (internal_resolve_name_kdc_not_cached sample_env "example.com" 0x1c None
           (Some ["kdc"%string]) empty_resolver_state).
  vm_compute. reflexivity.
Defined.

(** A result of the host backend, by contrast, is stored under the name
    and type asked for. *)
Lemma internal_resolve_name_host_cached :
  namecache (snd (internal_resolve_name sample_env "fileserver" 0x20 None
                    (lp_name_resolve_order sample_env) empty_resolver_state))
  !! ("fileserver"%string, 0x20)
  = Some [mk_sa sizeof_sockaddr_in (v4 10 0 0 5)].
Proof. vm_compute. reflexivity. Qed.

Lemma name_query_send_posted dis buflen name bcast to_ss e state :
  name_query_send dis buflen name bcast to_ss = (Some e, state) ->
  e <> NT_STATUS_IO_TIMEOUT /\ NT_STATUS_IS_OK e = false.
Proof.
  unfold name_query_send.
  destruct (negb (bool_decide (ss_family to_ss = AF_INET)));
    [intros [= <- _]; split; [discriminate|reflexivity]|].
  destruct dis; [intros [= <- _]; split; [discriminate|reflexivity]|].
  destruct (sockaddr_storage_to_samba_sockaddr to_ss);
    [|intros [= <- _]; split; [discriminate|reflexivity]].
  destruct (buflen =? 0); [intros [= <- _]; split; [discriminate|reflexivity]|].
  discriminate.
Qed.


(** * Further properties of the code *)

(** ** Partition and ranking of service lists *)

Lemma fold_left_snoc_filter {A} (P : A -> Prop) `{!forall x, Decision (P x)}
    (l : list A) : forall acc,
  fold_left (fun acc x => if bool_decide (P x) then acc ++ [x] else acc) l acc
  = acc ++ filter P l.
Proof.
  induction l as [|x r IH]; intros acc; cbn [fold_left].
  - now rewrite app_nil_r.
  - rewrite IH, filter_cons. case_bool_decide as HP.
    + rewrite decide_True by assumption. now rewrite <- app_assoc.
    + now rewrite decide_False by assumption.
Qed.

Lemma fold_left_snoc_filter_not {A} (P : A -> Prop) `{!forall x, Decision (P x)}
    (l : list A) : forall acc,
  fold_left (fun acc x => if negb (bool_decide (P x)) then acc ++ [x] else acc) l acc
  = acc ++ filter (fun x => ~ P x) l.
Proof.
  induction l as [|x r IH]; intros acc; cbn [fold_left].
  - now rewrite app_nil_r.
  - rewrite IH, filter_cons. case_bool_decide as HP; cbn [negb].
    + rewrite decide_False by tauto. reflexivity.
    + rewrite decide_True by assumption. now rewrite <- app_assoc.
Qed.

Lemma filter_all {A} (P : A -> Prop) `{!forall x, Decision (P x)} (l : list A) :
  Forall P l -> filter P l = l.
Proof.
  induction 1 as [|x r Hx _ IH]; [reflexivity|].
  rewrite filter_cons, decide_True by assumption. now rewrite IH.
Qed.

Lemma Forall_filter_holds {A} (P : A -> Prop) `{!forall x, Decision (P x)}
    (l : list A) : Forall P (filter P l).
Proof.
  apply Forall_forall. intros x Hx. now apply list_elem_of_filter in Hx.
Qed.

Lemma filter_none {A} (P : A -> Prop) `{!forall x, Decision (P x)} (l : list A) :
  Forall (fun x => ~ P x) l -> filter P l = [].
Proof.
  induction 1 as [|x r Hx _ IH]; [reflexivity|].
  rewrite filter_cons, decide_False by assumption. exact IH.
Qed.

(** X1.  [prioritize_ipv4_list] is a stable partition: the IPv4 entries
    in their original order, then the others in their original order.
    It rearranges the list without adding or dropping an entry, and
    applying it twice changes nothing more. *)
Theorem prioritize_ipv4_list_stable_partition (iplist : list ip_service) :
  prioritize_ipv4_list iplist
  = filter (fun s => ss_family (ss s) = AF_INET) iplist
    ++ filter (fun s => ss_family (ss s) <> AF_INET) iplist
  /\ Permutation (prioritize_ipv4_list iplist) iplist
  /\ prioritize_ipv4_list (prioritize_ipv4_list iplist)
     = prioritize_ipv4_list iplist.
Proof.
  assert (Heq : forall l, prioritize_ipv4_list l
            = filter (fun s => ss_family (ss s) = AF_INET) l
              ++ filter (fun s => ss_family (ss s) <> AF_INET) l).
  { intros l. unfold prioritize_ipv4_list.
    rewrite (fold_left_snoc_filter (fun s => ss_family (ss s) = AF_INET)).
    rewrite (fold_left_snoc_filter_not (fun s => ss_family (ss s) = AF_INET)).
    reflexivity. }
  split; [apply Heq|]. split.
  - rewrite Heq. apply filter_app_complement.
  - rewrite (Heq (prioritize_ipv4_list iplist)), Heq, !filter_app.
    set (v4 := filter (fun s => ss_family (ss s) = AF_INET) iplist).
    set (other := filter (fun s => ss_family (ss s) <> AF_INET) iplist).
    assert (H4 : Forall (fun s => ss_family (ss s) = AF_INET) v4)
      by apply Forall_filter_holds.
    assert (Ho : Forall (fun s => ss_family (ss s) <> AF_INET) other)
      by apply Forall_filter_holds.
    rewrite (filter_all _ v4 H4), (filter_all _ other Ho).
    rewrite (filter_none (fun s => ss_family (ss s) = AF_INET) other Ho).
    rewrite (filter_none (fun s => ss_family (ss s) <> AF_INET) v4).
    + now rewrite app_nil_r.
    + eapply Forall_impl; [exact H4|]. intros s Hs. simpl. tauto.
Qed.

Lemma addr_compare_rank ifs a b :
  ss_family a <> AF_UNSPEC -> ss_family b <> AF_UNSPEC ->
  addr_compare ifs a b
  = if bool_decide (ss_family a = ss_family b)
    then (if ifaces_usable ifs (seq 0 (iface_count ifs))
          then proximity ifs b - proximity ifs a else 0)
    else (if bool_decide (ss_family a = AF_INET) then -1 else 1).
Proof.
  intros Ha Hb. case_bool_decide as Hfam.
  - now apply addr_compare_same_family.
  - unfold addr_compare, sockaddr_storage_to_samba_sockaddr.
    destruct (ss_family a) eqn:Ea, (ss_family b) eqn:Eb; try congruence;
      simpl; rewrite Ea, Eb; reflexivity.
Qed.

Ltac addr_compare_ranks :=
  rewrite ?addr_compare_rank by assumption;
  repeat match goal with
         | |- context [ss_family ?x] => destruct (ss_family x) eqn:?
         end;
  try congruence;
  repeat case_bool_decide; try congruence;
  repeat match goal with
         | |- context [ifaces_usable ?i ?l] => destruct (ifaces_usable i l)
         end;
  try lia.

(** X2.  On IPv4 and IPv6 addresses [addr_compare] is the comparison of
    a total preorder: an address compares equal to itself, swapping the
    arguments flips the sign, and "not after" is transitive.  This is
    what [qsort] needs of its callback. *)
Theorem addr_compare_total_preorder ifs a b c :
  ss_family a <> AF_UNSPEC -> ss_family b <> AF_UNSPEC ->
  ss_family c <> AF_UNSPEC ->
  addr_compare ifs a a = 0
  /\ addr_compare ifs a b = - addr_compare ifs b a
  /\ (addr_compare ifs a b <= 0 -> addr_compare ifs b c <= 0 ->
      addr_compare ifs a c <= 0).
Proof.
  intros Ha Hb Hc. split; [|split]; addr_compare_ranks.
Qed.

Lemma addr_compare_total_preorder_witness :
  ss_family (v4 10 0 0 7) <> AF_UNSPEC
  /\ addr_compare sample_ifs (v4 10 0 0 7) (v4 192 168 1 1)
     = - addr_compare sample_ifs (v4 192 168 1 1) (v4 10 0 0 7).
Proof.
  split; [discriminate|].
  apply (addr_compare_total_preorder sample_ifs (v4 10 0 0 7) (v4 192 168 1 1)
           (mk_ss AF_INET6 1)); discriminate.
Defined.

Lemma ip_service_compare_total ifs a b :
  ss_family (ss a) <> AF_UNSPEC -> ss_family (ss b) <> AF_UNSPEC ->
  0 < ip_service_compare ifs a b -> ip_service_compare ifs b a <= 0.
Proof.
  intros Ha Hb. unfold ip_service_compare.
  destruct (addr_compare_total_preorder ifs (ss a) (ss b) (ss a) Ha Hb Ha)
    as (_ & Hanti & _).
  rewrite Hanti.
  destruct (Z.eqb_spec (- addr_compare ifs (ss b) (ss a)) 0),
    (Z.eqb_spec (addr_compare ifs (ss b) (ss a)) 0); cbn [negb]; try lia.
  destruct (Z.gtb_spec (port a) (port b)), (Z.ltb_spec (port a) (port b)),
    (Z.gtb_spec (port b) (port a)), (Z.ltb_spec (port b) (port a)); lia.
Qed.

Lemma ip_service_compare_trans ifs a b c :
  ss_family (ss a) <> AF_UNSPEC -> ss_family (ss b) <> AF_UNSPEC ->
  ss_family (ss c) <> AF_UNSPEC ->
  ip_service_compare ifs a b <= 0 -> ip_service_compare ifs b c <= 0 ->
  ip_service_compare ifs a c <= 0.
Proof.
  intros Ha Hb Hc. unfold ip_service_compare.
  rewrite !addr_compare_rank by assumption.
  destruct (ss_family (ss a)) eqn:Ea, (ss_family (ss b)) eqn:Eb,
    (ss_family (ss c)) eqn:Ec; try congruence;
    repeat case_bool_decide; try congruence;
    destruct (ifaces_usable ifs (seq 0 (iface_count ifs)));
    repeat match goal with
           | |- context [?x =? ?y] => destruct (Z.eqb_spec x y)
           end; cbn [negb]; try lia;
    destruct (Z.gtb_spec (port a) (port b)), (Z.ltb_spec (port a) (port b)),
      (Z.gtb_spec (port b) (port c)), (Z.ltb_spec (port b) (port c)),
      (Z.gtb_spec (port a) (port c)), (Z.ltb_spec (port a) (port c)); lia.
Qed.

(** X3.  [sort_service_list] rearranges a list of IPv4 and IPv6
    endpoints so that no endpoint is followed by one that
    [ip_service_compare] puts before it: addresses in the order of
    [addr_compare], and endpoints that [addr_compare] cannot tell apart
    by ascending port. *)
Theorem sort_service_list_sorted ifs servlist :
  Forall (fun s => ss_family (ss s) <> AF_UNSPEC) servlist ->
  Permutation (sort_service_list ifs servlist) servlist
  /\ StronglySorted (fun a b => ip_service_compare ifs a b <= 0)
       (sort_service_list ifs servlist)
  /\ StronglySorted
       (fun a b => addr_compare ifs (ss a) (ss b) < 0
                   \/ (addr_compare ifs (ss a) (ss b) = 0 /\ port a <= port b))
       (sort_service_list ifs servlist).
Proof.
  intros Hvalid.
  assert (Hperm : Permutation (sort_service_list ifs servlist) servlist).
  { unfold sort_service_list. destruct (Z.of_nat (length servlist) <=? 1);
      [reflexivity|apply TYPESAFE_QSORT_perm]. }
  assert (Hsorted : StronglySorted (fun a b => ip_service_compare ifs a b <= 0)
                      (sort_service_list ifs servlist)).
  { unfold sort_service_list.
    destruct (Z.of_nat (length servlist) <=? 1) eqn:E.
    - apply Z.leb_le in E. destruct servlist as [|x [|y r]]; simpl in E; try lia;
        repeat constructor.
    - apply (TYPESAFE_QSORT_sorted _ (fun s => ss_family (ss s) <> AF_UNSPEC));
        [| |exact Hvalid].
      + intros a b. apply ip_service_compare_total.
      + intros a b c. apply ip_service_compare_trans. }
  split; [exact Hperm|]. split; [exact Hsorted|].
  eapply StronglySorted_weaken; [| |exact Hsorted].
  2:{ rewrite Hperm. exact Hvalid. }
  intros a b _ _. cbn beta. unfold ip_service_compare.
  destruct (Z.eqb_spec (addr_compare ifs (ss a) (ss b)) 0); cbn [negb]; [|lia].
  destruct (Z.gtb_spec (port a) (port b)), (Z.ltb_spec (port a) (port b)); lia.
Qed.

Lemma sort_service_list_sorted_witness :
  Forall (fun s => ss_family (ss s) <> AF_UNSPEC)
    [mk_ip_service (v4 192 168 1 1) 389; mk_ip_service (v4 10 0 0 7) 389;
     mk_ip_service (v4 10 0 0 7) 88]
  /\ sort_service_list sample_ifs
       [mk_ip_service (v4 192 168 1 1) 389; mk_ip_service (v4 10 0 0 7) 389;
        mk_ip_service (v4 10 0 0 7) 88]
     = [mk_ip_service (v4 10 0 0 7) 88; mk_ip_service (v4 10 0 0 7) 389;
        mk_ip_service (v4 192 168 1 1) 389]
  /\ StronglySorted (fun a b => ip_service_compare sample_ifs a b <= 0)
       (sort_service_list sample_ifs
          [mk_ip_service (v4 192 168 1 1) 389; mk_ip_service (v4 10 0 0 7) 389;
           mk_ip_service (v4 10 0 0 7) 88]).
Proof.
  assert (Hv : Forall (fun s => ss_family (ss s) <> AF_UNSPEC)
                 [mk_ip_service (v4 192 168 1 1) 389; mk_ip_service (v4 10 0 0 7) 389;
                  mk_ip_service (v4 10 0 0 7) 88])
    by (repeat constructor; discriminate).
  split; [exact Hv|]. split; [vm_compute; reflexivity|].
  exact (proj1 (proj2 (sort_service_list_sorted sample_ifs _ Hv))).
Defined.

(** ** Duplicate removal *)

Lemma fold_insert_map {A} (f : A -> A) n : forall a (l : list A),
  (a + n = length l)%nat ->
  fold_left (fun l j =>
               match l !! j with
               | Some y => <[j := f y]> l
               | None => l
               end) (seq a n) l
  = take a l ++ map f (drop a l).
Proof.
  induction n as [|n IH]; intros a l Hlen; cbn [seq fold_left].
  - rewrite take_ge, drop_ge by lia. now rewrite app_nil_r.
  - destruct (lookup_lt_is_Some_2 l a ltac:(lia)) as [y Hy]. rewrite Hy.
    rewrite IH by (rewrite length_insert; lia).
    rewrite (take_S_r (<[a := f y]> l) a (f y))
      by (apply list_lookup_insert_eq; lia).
    rewrite take_insert_ge by lia. rewrite drop_insert_lt by lia.
    rewrite (drop_S l y a Hy). cbn [map]. now rewrite <- app_assoc.
Qed.

Lemma mark_duplicates_of_eq i x l :
  (i < length l)%nat ->
  mark_duplicates_of i x l
  = take (S i) l ++ map (mark_duplicate x) (drop (S i) l).
Proof.
  intros Hi. unfold mark_duplicates_of. rewrite Nat.add_1_r.
  apply fold_insert_map. lia.
Qed.

Lemma length_mark_duplicates_rec fuel : forall l,
  length (mark_duplicates_rec fuel l) = length l.
Proof.
  induction fuel as [|fuel IH]; intros [|x rest]; cbn [mark_duplicates_rec length];
    try reflexivity.
  rewrite IH. destruct (is_marker x); [now rewrite length_map|reflexivity].
Qed.

Lemma mark_duplicates_fold n : forall i l,
  (i + n = length l)%nat ->
  fold_left (fun l i =>
    match l !! i with
    | None => l
    | Some x =>
        match sockaddr_storage_to_samba_sockaddr (ss x) with
        | None => l
        | Some sa_i =>
            if is_zero_addr (u_ss sa_i) then l
            else mark_duplicates_of i x l
        end
    end) (seq i n) l
  = take i l ++ mark_duplicates_rec n (drop i l).
Proof.
  induction n as [|n IH]; intros i l Hlen; cbn [seq fold_left].
  - rewrite take_ge, drop_ge by lia. cbn [mark_duplicates_rec]. now rewrite app_nil_r.
  - destruct (lookup_lt_is_Some_2 l i ltac:(lia)) as [x Hx]. rewrite Hx.
    rewrite (drop_S l x i Hx). cbn [mark_duplicates_rec]. unfold is_marker.
    destruct (sockaddr_storage_to_samba_sockaddr (ss x)) as [sa_i|].
    2:{ rewrite IH by lia. rewrite (take_S_r l i x Hx), <- app_assoc. reflexivity. }
    destruct (is_zero_addr (u_ss sa_i)); cbn [negb].
    { rewrite IH by lia. rewrite (take_S_r l i x Hx), <- app_assoc. reflexivity. }
    rewrite mark_duplicates_of_eq by lia.
    assert (Hlt : length (take (S i) l) = S i) by (rewrite length_take; lia).
    rewrite IH by (rewrite length_app, length_map, length_drop, Hlt; lia).
    rewrite take_app_length' by (symmetry; exact Hlt).
    rewrite drop_app_length' by (symmetry; exact Hlt).
    rewrite (take_S_r l i x Hx), <- app_assoc. reflexivity.
Qed.

Lemma mark_duplicates_rec_eq l :
  mark_duplicates l = mark_duplicates_rec (length l) l.
Proof.
  unfold mark_duplicates. now rewrite (mark_duplicates_fold (length l) 0 l).
Qed.

Lemma is_marker_spec x :
  is_marker x = true ->
  ss_family (ss x) <> AF_UNSPEC /\ is_zero_addr (ss x) = false.
Proof.
  unfold is_marker, sockaddr_storage_to_samba_sockaddr.
  destruct (ss_family (ss x)) eqn:E; [discriminate| |]; cbn [u_ss];
    intros H; apply negb_true_iff in H; split; congruence.
Qed.

Lemma is_marker_false x :
  is_marker x = false ->
  ss_family (ss x) = AF_UNSPEC \/ is_zero_addr (ss x) = true.
Proof.
  unfold is_marker, sockaddr_storage_to_samba_sockaddr.
  destruct (ss_family (ss x)) eqn:E; [now left| |]; cbn [u_ss];
    intros H; apply negb_false_iff in H; now right.
Qed.

(** An entry that marks zeroes exactly its own copies. *)
Lemma mark_duplicate_marker x y :
  is_marker x = true ->
  mark_duplicate x y
  = if bool_decide (y = x) then mk_ip_service zero_sockaddr (port y) else y.
Proof.
  intros Hm. destruct (is_marker_spec x Hm) as (Hv & _).
  unfold mark_duplicate, sockaddr_storage_to_samba_sockaddr.
  case_bool_decide as Heq.
  - subst y. destruct (ss_family (ss x)); [congruence| |]; cbn [u_ss];
      rewrite (proj2 (sockaddr_equal_eq (ss x) (ss x)) eq_refl), Z.eqb_refl;
      reflexivity.
  - destruct (ss_family (ss y)); [reflexivity| |]; cbn [u_ss];
      destruct (sockaddr_equal (ss x) (ss y)) eqn:Ee; cbn [andb]; try reflexivity;
      destruct (Z.eqb_spec (port x) (port y)); try reflexivity;
      apply sockaddr_equal_eq in Ee; exfalso; apply Heq;
      destruct x, y; cbn in *; congruence.
Qed.

Lemma filter_mark_duplicate x rest :
  is_marker x = true ->
  filter (fun s => is_zero_addr (ss s) = false) (map (mark_duplicate x) rest)
  = filter (fun s => is_zero_addr (ss s) = false /\ s <> x) rest.
Proof.
  intros Hm. induction rest as [|y r IH]; [reflexivity|].
  cbn [map]. rewrite !filter_cons, IH, (mark_duplicate_marker x y Hm).
  case_bool_decide as Heq.
  - rewrite decide_False by (cbn; discriminate). rewrite decide_False by tauto.
    reflexivity.
  - destruct (is_zero_addr (ss y)) eqn:Ez.
    + rewrite decide_False by discriminate. rewrite decide_False by (intros [? _]; discriminate).
      reflexivity.
    + rewrite decide_True by reflexivity. rewrite decide_True by tauto. reflexivity.
Qed.

Lemma filter_sublist_impl {A} (P Q : A -> Prop) `{!forall x, Decision (P x)}
    `{!forall x, Decision (Q x)} (l : list A) :
  (forall x, P x -> Q x) -> filter P l `sublist_of` filter Q l.
Proof.
  intros HPQ. induction l as [|x r IH]; [constructor|].
  rewrite !filter_cons. destruct (decide (P x)) as [HP|HP].
  - rewrite decide_True by auto. now constructor.
  - destruct (decide (Q x)); [now constructor|assumption].
Qed.

Section RemoveDuplicates.
Local Abbreviation nz := (fun s : ip_service => is_zero_addr (ss s) = false).
Local Abbreviation valid := (fun s : ip_service => ss_family (ss s) <> AF_UNSPEC).
Local Abbreviation kept := (fun fuel l => filter nz (mark_duplicates_rec fuel l)).

Lemma kept_cons fuel x rest :
  kept (S fuel) (x :: rest)
  = if is_marker x
    then x :: kept fuel (map (mark_duplicate x) rest)
    else (if decide (is_zero_addr (ss x) = false) then [x] else [])
         ++ kept fuel rest.
Proof.
  cbn [mark_duplicates_rec]. rewrite filter_cons.
  destruct (is_marker x) eqn:Hm.
  - destruct (is_marker_spec x Hm) as (_ & Hz). now rewrite decide_True by assumption.
  - destruct (decide (is_zero_addr (ss x) = false)); reflexivity.
Qed.

Lemma kept_elem_of fuel : forall l s,
  (length l <= fuel)%nat ->
  s ∈ kept fuel l <-> s ∈ l /\ is_zero_addr (ss s) = false.
Proof.
  induction fuel as [|fuel IH]; intros [|x rest] s Hlen; cbn [length] in Hlen;
    try lia.
  - cbn. rewrite elem_of_nil. tauto.
  - cbn. rewrite elem_of_nil. tauto.
  - rewrite kept_cons. destruct (is_marker x) eqn:Hm.
    + destruct (is_marker_spec x Hm) as (_ & Hz).
      rewrite elem_of_cons, IH by (rewrite length_map; lia).
      rewrite elem_of_cons. split.
      * intros [->|[Hin Hs]]; [tauto|]. split; [|assumption]. right.
        apply list_elem_of_fmap in Hin. destruct Hin as (y & -> & Hy).
        rewrite (mark_duplicate_marker x y Hm) in *.
        case_bool_decide; [discriminate Hs|assumption].
      * intros [[->|Hin] Hs]; [now left|].
        destruct (decide (s = x)) as [->|Hne]; [now left|]. right.
        split; [|assumption]. apply list_elem_of_fmap. exists s.
        split; [|assumption]. rewrite (mark_duplicate_marker x s Hm).
        now rewrite bool_decide_eq_false_2.
    + rewrite elem_of_app, IH by lia. rewrite elem_of_cons.
      destruct (decide (is_zero_addr (ss x) = false)) as [Hz|Hz].
      * rewrite list_elem_of_singleton. split.
        { intros [->|[? ?]]; tauto. }
        { intros [[->|?] ?]; tauto. }
      * rewrite elem_of_nil. split.
        { intros [[]|[? ?]]; tauto. }
        { intros [[->|?] ?]; tauto. }
Qed.

Lemma kept_NoDup fuel : forall l,
  (length l <= fuel)%nat -> NoDup (filter valid (kept fuel l)).
Proof.
  induction fuel as [|fuel IH]; intros [|x rest] Hlen; cbn [length] in Hlen;
    try lia; try (cbn; constructor).
  rewrite kept_cons. destruct (is_marker x) eqn:Hm.
  - destruct (is_marker_spec x Hm) as (Hv & Hz).
    rewrite filter_cons, decide_True by assumption.
    apply NoDup_cons. split; [|apply IH; rewrite length_map; lia].
    rewrite list_elem_of_filter, kept_elem_of by (rewrite length_map; lia).
    intros (_ & Hin & _). apply list_elem_of_fmap in Hin.
    destruct Hin as (y & Heq & _). rewrite (mark_duplicate_marker x y Hm) in Heq.
    case_bool_decide; [|congruence]. subst x. cbn in Hz. discriminate.
  - rewrite filter_app. destruct (decide (is_zero_addr (ss x) = false)) as [Hz|Hz].
    + destruct (is_marker_false x Hm) as [Hu|Hzz]; [|congruence].
      rewrite filter_cons, decide_False by tauto. cbn [filter app]. apply IH. lia.
    + cbn [filter app]. apply IH. lia.
Qed.

Lemma kept_sublist fuel : forall l,
  kept fuel l `sublist_of` filter nz l.
Proof.
  induction fuel as [|fuel IH]; intros [|x rest]; try reflexivity.
  rewrite kept_cons, filter_cons. destruct (is_marker x) eqn:Hm.
  - destruct (is_marker_spec x Hm) as (_ & Hz).
    rewrite decide_True by assumption. constructor.
    etransitivity; [apply IH|]. rewrite (filter_mark_duplicate x rest Hm).
    apply filter_sublist_impl. tauto.
  - destruct (decide (is_zero_addr (ss x) = false)); cbn [app]; [constructor|];
      apply IH.
Qed.

Lemma kept_fixpoint fuel : forall l,
  Forall nz l -> NoDup (filter valid l) -> kept fuel l = l.
Proof.
  induction fuel as [|fuel IH]; intros l Hnz Hnd.
  - destruct l; cbn [mark_duplicates_rec]; now apply filter_all.
  - destruct l as [|x rest]; [reflexivity|].
    inversion Hnz as [|? ? Hx Hrest]; subst.
    rewrite kept_cons. destruct (is_marker x) eqn:Hm.
    + destruct (is_marker_spec x Hm) as (Hv & _).
      rewrite filter_cons, decide_True in Hnd by assumption.
      apply NoDup_cons in Hnd. destruct Hnd as (Hnotin & Hnd).
      assert (Hsame : map (mark_duplicate x) rest = rest).
      { rewrite <- (map_id rest) at 2. apply map_ext_in. intros y Hy.
        rewrite (mark_duplicate_marker x y Hm).
        case_bool_decide as Heq; [|reflexivity]. subst y. exfalso.
        apply Hnotin. apply list_elem_of_filter. split; [assumption|].
        now apply list_elem_of_In. }
      rewrite Hsame, IH by assumption. reflexivity.
    + rewrite decide_True by assumption. cbn [app]. rewrite IH; [reflexivity|assumption|].
      rewrite filter_cons in Hnd. destruct (decide (ss_family (ss x) <> AF_UNSPEC));
        [now apply NoDup_cons in Hnd|assumption].
Qed.
End RemoveDuplicates.

(** X4. [remove_duplicate_addrs2] keeps exactly the non-zero address/port
    pairs of its input: an entry is in the result if and only if it is in the
    input with a non-zero address; among the IPv4 and IPv6 entries of the
    result no address/port pair occurs twice; the result is a subsequence
    of the input, so the surviving entries keep their order; and a second
    pass over the result removes nothing. *)
Theorem remove_duplicate_addrs2_no_duplicates (iplist : list ip_service) :
  (forall s, s ∈ remove_duplicate_addrs2 iplist
             <-> s ∈ iplist /\ is_zero_addr (ss s) = false) /\
  NoDup (filter (fun s => ss_family (ss s) <> AF_UNSPEC)
           (remove_duplicate_addrs2 iplist)) /\
  remove_duplicate_addrs2 iplist `sublist_of` iplist /\
  remove_duplicate_addrs2 (remove_duplicate_addrs2 iplist)
  = remove_duplicate_addrs2 iplist.
Proof.
  assert (Hnd : NoDup (filter (fun s => ss_family (ss s) <> AF_UNSPEC)
                         (remove_duplicate_addrs2 iplist))).
  { unfold remove_duplicate_addrs2. rewrite mark_duplicates_rec_eq.
    now apply kept_NoDup. }
  split; [|split; [exact Hnd|split]].
  - intros s. unfold remove_duplicate_addrs2. rewrite mark_duplicates_rec_eq.
    now apply kept_elem_of.
  - unfold remove_duplicate_addrs2. rewrite mark_duplicates_rec_eq.
    etransitivity; [apply kept_sublist|apply sublist_filter].
  - unfold remove_duplicate_addrs2 at 1. rewrite mark_duplicates_rec_eq.
    apply kept_fixpoint; [|exact Hnd].
    unfold remove_duplicate_addrs2. apply Forall_forall. intros s Hs.
    apply list_elem_of_filter in Hs. tauto.
Qed.

(** ** The driver *)

Lemma remove_duplicate_addrs2_elem_of l s :
  s ∈ remove_duplicate_addrs2 l <-> s ∈ l /\ is_zero_addr (ss s) = false.
Proof.
  unfold remove_duplicate_addrs2. rewrite mark_duplicates_rec_eq.
  now apply kept_elem_of.
Qed.

Lemma remove_duplicate_addrs2_NoDup l :
  NoDup (filter (fun s => ss_family (ss s) <> AF_UNSPEC) (remove_duplicate_addrs2 l)).
Proof.
  unfold remove_duplicate_addrs2. rewrite mark_duplicates_rec_eq.
  now apply kept_NoDup.
Qed.

Lemma remove_duplicate_addrs2_fixpoint l :
  Forall (fun s => is_zero_addr (ss s) = false) l ->
  NoDup (filter (fun s => ss_family (ss s) <> AF_UNSPEC) l) ->
  remove_duplicate_addrs2 l = l.
Proof.
  intros. unfold remove_duplicate_addrs2. rewrite mark_duplicates_rec_eq.
  now apply kept_fixpoint.
Qed.

Lemma remove_duplicate_addrs2_Forall (P : ip_service -> Prop) l :
  Forall P l ->
  Forall (fun s => is_zero_addr (ss s) = false /\ P s) (remove_duplicate_addrs2 l).
Proof.
  intros H. apply Forall_forall. intros s Hs.
  apply remove_duplicate_addrs2_elem_of in Hs. destruct Hs as (Hin & Hz).
  split; [assumption|]. rewrite Forall_forall in H. auto.
Qed.

Lemma length_eqb_nil {A} (l : list A) : (length l =? 0)%nat = false -> l <> [].
Proof. destruct l; [discriminate|discriminate]. Qed.

Lemma convert_ss2service_spec ss_list iplist :
  convert_ss2service ss_list = Some iplist ->
  iplist <> [] /\
  Forall (fun s => is_zero_addr (ss s) = false /\ port s = PORT_NONE) iplist.
Proof.
  unfold convert_ss2service. destruct (length ss_list =? 0)%nat; [discriminate|].
  destruct (length (filter _ ss_list) =? 0)%nat eqn:El; [discriminate|].
  intros [= <-]. split.
  - apply length_eqb_nil in El. destruct (filter _ ss_list); [congruence|discriminate].
  - apply Forall_forall. intros s Hs. apply list_elem_of_fmap in Hs.
    destruct Hs as (a & -> & Ha). apply list_elem_of_filter in Ha.
    cbn. tauto.
Qed.

Lemma remove_duplicate_addrs2_nonempty l :
  l <> [] -> Forall (fun s => is_zero_addr (ss s) = false) l ->
  remove_duplicate_addrs2 l <> [].
Proof.
  destruct l as [|x r]; [congruence|]. intros _ H Hnil.
  inversion H; subst.
  assert (Hx : x ∈ remove_duplicate_addrs2 (x :: r))
    by (apply remove_duplicate_addrs2_elem_of; split; [left|assumption]).
  rewrite Hnil in Hx. now apply elem_of_nil in Hx.
Qed.

Lemma NoDup_filter_singleton {A} (P : A -> Prop) `{!forall x, Decision (P x)} x :
  NoDup (filter P [x]).
Proof.
  rewrite filter_cons. destruct (decide (P x)); [apply NoDup_singleton|constructor].
Qed.

Lemma NT_STATUS_IS_OK_false s : NT_STATUS_IS_OK s = false <-> s <> NT_STATUS_OK.
Proof. destruct s; cbn; split; congruence. Qed.

(** How the backend loop ends: without a backend tried, the status it
    started with is left; otherwise the last call logged is the last
    backend tried, which either failed, its status being the one left, or
    succeeded and took the loop to [done]. *)
Lemma resolve_backends_last env name name_type sitename order :
  forall status log,
  let '(r, log') :=
    resolve_backends env name name_type sitename order status log in
  (log' = log /\ r = inl status)
  \/ exists b s, last log' = Some (CALL_BACKEND b s)
       /\ ((r = inl s /\ NT_STATUS_IS_OK s = false)
           \/ (s = NT_STATUS_OK /\ exists x, r = inr x)).
Proof.
  induction order as [|tok rest IH]; intros status log; cbn [resolve_backends].
  - now left.
  - destruct (resolve_dispatch env name name_type sitename tok)
      as [[[b [status' l]] nt']|] eqn:Ed; [|apply IH].
    destruct (NT_STATUS_IS_OK status') eqn:Eok; cbn [negb].
    + right. exists b, status'. split; [apply last_snoc|]. right.
      split; [destruct status'; try discriminate Eok; reflexivity|eauto].
    + specialize (IH status' (log ++ [CALL_BACKEND b status'])).
      destruct (resolve_backends env name name_type sitename rest status' _)
        as [r log'].
      destruct IH as [[-> ->]|IH]; [|right; exact IH].
      right. exists b, status'. split; [apply last_snoc|]. now left.
Qed.

Lemma resolve_backends_failed env name name_type sitename order log s log' :
  resolve_backends env name name_type sitename order NT_STATUS_UNSUCCESSFUL log
  = (inl s, log') -> s <> NT_STATUS_OK.
Proof.
  intros E.
  pose proof (resolve_backends_last env name name_type sitename order
                NT_STATUS_UNSUCCESSFUL log) as H.
  rewrite E in H. destruct H as [[_ [= ->]]|(b & s' & _ & [[[= ->] Hs]|[_ [x Hx]]])].
  - discriminate.
  - now apply NT_STATUS_IS_OK_false.
  - discriminate Hx.
Qed.

(** What [internal_resolve_name] returns, by the way it was obtained. *)
Lemma internal_resolve_name_result env name name_type sitename resolve_order st :
  let '(status, l, st') :=
    internal_resolve_name env name name_type sitename resolve_order st in
  (status = NT_STATUS_OK /\ l <> [] /\
   Forall (fun s => is_zero_addr (ss s) = false /\ port s = PORT_NONE) l /\
   NoDup (filter (fun s => ss_family (ss s) <> AF_UNSPEC) l))
  \/ (status <> NT_STATUS_OK /\ l = [] /\ namecache st' = namecache st).
Proof.
  unfold internal_resolve_name.
  destruct (is_ipaddress env name).
  { destruct (interpret_string_addr env name) as [a|];
      [destruct (is_zero_addr a) eqn:Ez|].
    - right. repeat split; congruence.
    - left. repeat split; [congruence| |apply NoDup_filter_singleton].
      repeat constructor. assumption.
    - right. repeat split; congruence. }
  cbn [namecache calls].
  destruct (namecache_fetch name name_type (namecache st)) as [sa_list|].
  { destruct (length _ =? 0)%nat eqn:El.
    - right. repeat split; congruence.
    - left. split; [reflexivity|]. split; [now apply length_eqb_nil|].
      split; [|apply remove_duplicate_addrs2_NoDup].
      apply remove_duplicate_addrs2_Forall.
      apply Forall_forall. intros s Hs. apply list_elem_of_fmap in Hs.
      now destruct Hs as (a & -> & _). }
  destruct (effective_resolve_order env name resolve_order) as [order|].
  2:{ right. repeat split; congruence. }
  destruct (resolve_backends env name name_type sitename order
              NT_STATUS_UNSUCCESSFUL _) as [[status|[ss_list nt]] log] eqn:Eb.
  { right. split; [|split; reflexivity]. eapply resolve_backends_failed; eauto. }
  destruct (convert_ss2service ss_list) as [iplist|] eqn:Ec.
  2:{ right. repeat split; congruence. }
  destruct (convert_ss2service_spec _ _ Ec) as (Hne & Hall).
  assert (Hnz : Forall (fun s => is_zero_addr (ss s) = false) iplist)
    by (eapply Forall_impl; [exact Hall|]; cbn; tauto).
  pose proof (remove_duplicate_addrs2_nonempty iplist Hne Hnz) as Hne'.
  destruct (length (remove_duplicate_addrs2 iplist) =? 0)%nat eqn:El; cbn [negb].
  { destruct (remove_duplicate_addrs2 iplist); [congruence|discriminate]. }
  assert (Hres : Forall (fun s => is_zero_addr (ss s) = false /\ port s = PORT_NONE)
                   (remove_duplicate_addrs2 iplist)).
  { eapply Forall_impl; [apply (remove_duplicate_addrs2_Forall _ _ Hall)|].
    cbn. tauto. }
  destruct (ip_service_to_samba_sockaddr (remove_duplicate_addrs2 iplist))
    as [status sa] eqn:Ei.
  destruct status; try (right; repeat split; congruence).
  left. repeat split; try assumption. apply remove_duplicate_addrs2_NoDup.
Qed.

(** X5. [internal_resolve_name] either succeeds, and then the list it
    returns is not empty, every entry of it has a non-zero address and the
    port [PORT_NONE], and no IPv4 or IPv6 address occurs twice; or it fails,
    and then it returns the empty list and leaves the name cache as it
    found it. *)
Theorem internal_resolve_name_outcome env name name_type sitename
    resolve_order st :
  let '(status, l, st') :=
    internal_resolve_name env name name_type sitename resolve_order st in
  (status = NT_STATUS_OK /\ l <> [] /\
   Forall (fun s => is_zero_addr (ss s) = false /\ port s = PORT_NONE) l /\
   NoDup (filter (fun s => ss_family (ss s) <> AF_UNSPEC) l))
  \/ (status <> NT_STATUS_OK /\ l = [] /\ namecache st' = namecache st).
Proof. apply internal_resolve_name_result. Qed.

Lemma sockaddr_storage_to_samba_sockaddr_u_ss a sa :
  sockaddr_storage_to_samba_sockaddr a = Some sa -> u_ss sa = a.
Proof.
  unfold sockaddr_storage_to_samba_sockaddr.
  destruct (ss_family a); [discriminate| |]; now intros [= <-].
Qed.

(** Converting a list of non-zero entries without a port to endpoints and
    back, as the cache path does, gives the list again. *)
Lemma ip_service_to_samba_sockaddr_back l sa :
  Forall (fun s => is_zero_addr (ss s) = false /\ port s = PORT_NONE) l ->
  ip_service_to_samba_sockaddr l = (NT_STATUS_OK, sa) ->
  map (fun sa => mk_ip_service (u_ss sa) 0)
    (filter (fun sa => is_zero_addr (u_ss sa) = false) sa) = l.
Proof.
  unfold ip_service_to_samba_sockaddr. intros Hall.
  destruct (length l =? 0)%nat eqn:El.
  { intros [= <-]. destruct l; [reflexivity|discriminate]. }
  destruct (mapM _ l) as [sa'|] eqn:Em; [|discriminate]. intros [= <-].
  apply mapM_Some in Em. clear El.
  induction Em as [|s x l k Hx _ IH]; [reflexivity|].
  inversion Hall as [|? ? [Hz Hp] Hall']; subst.
  apply sockaddr_storage_to_samba_sockaddr_u_ss in Hx.
  rewrite filter_cons, decide_True by congruence.
  cbn [map]. rewrite IH by assumption. rewrite Hx.
  destruct s as [a p]. cbn in Hp. now subst p.
Qed.

Lemma resolve_dispatch_name_type env name name_type sitename tok b r nt :
  resolve_dispatch env name name_type sitename tok = Some (b, r, nt) ->
  nt = name_type \/ nt = KDC_NAME_TYPE.
Proof.
  unfold resolve_dispatch.
  repeat match goal with
  | |- context [if ?c then _ else _] => destruct c
  end; intros [= <- <- <-]; auto.
Qed.

Lemma resolve_backends_name_type env name name_type sitename order :
  forall status log ss_list nt log',
  resolve_backends env name name_type sitename order status log
  = (inr (ss_list, nt), log') ->
  nt = name_type \/ nt = KDC_NAME_TYPE.
Proof.
  induction order as [|tok rest IH]; intros status log ss_list nt log';
    cbn [resolve_backends]; [discriminate|].
  destruct (resolve_dispatch env name name_type sitename tok)
    as [[[b [status' l]] nt']|] eqn:Ed; [|apply IH].
  destruct (NT_STATUS_IS_OK status'); cbn [negb]; [|apply IH].
  intros [= <- <- <-]. eapply resolve_dispatch_name_type; eauto.
Qed.

(** X6. Once a name that is not an IP literal has been resolved and the
    name cache holds an entry for it, every further lookup of the same name
    and type returns the same list from the cache: whatever site name and
    resolve order it is given, it only records the cache fetch, calls no
    backend and leaves the cache as it is. *)
Theorem internal_resolve_name_cached_again env name name_type sitename
    resolve_order st l st' sitename' resolve_order' :
  is_ipaddress env name = false ->
  internal_resolve_name env name name_type sitename resolve_order st
  = (NT_STATUS_OK, l, st') ->
  is_Some (namecache st' !! (name, name_type)) ->
  internal_resolve_name env name name_type sitename' resolve_order' st'
  = (NT_STATUS_OK, l,
     mk_resolver_state (namecache st')
       (calls st' ++ [CALL_NAMECACHE_FETCH name name_type])).
Proof.
  intros Hip E Hc.
  pose proof (internal_resolve_name_result env name name_type sitename
                resolve_order st) as H.
  rewrite E in H. destruct H as [(_ & Hne & Hall & Hnd)|(H & _)]; [|congruence].
  revert E. unfold internal_resolve_name. rewrite Hip.
  cbn [namecache calls]. unfold namecache_fetch.
  destruct (namecache st !! (name, name_type)) as [sa_list|] eqn:Ef.
  { destruct (length _ =? 0)%nat eqn:El; [discriminate|].
    intros [= <- <-]. cbn [namecache calls]. now rewrite Ef, El. }
  destruct (effective_resolve_order env name resolve_order) as [order|];
    [|discriminate].
  destruct (resolve_backends env name name_type sitename order
              NT_STATUS_UNSUCCESSFUL _) as [[status|[ss_list nt]] log] eqn:Eb.
  { intros [= -> _ _].
    now apply resolve_backends_failed in Eb. }
  destruct (convert_ss2service ss_list) as [iplist|]; [|discriminate].
  destruct (length (remove_duplicate_addrs2 iplist) =? 0)%nat eqn:El; cbn [negb].
  { intros [= <- <-]. cbn [namecache] in Hc. rewrite Ef in Hc.
    now destruct Hc. }
  destruct (ip_service_to_samba_sockaddr (remove_duplicate_addrs2 iplist))
    as [status sa] eqn:Ei.
  destruct status; try discriminate. intros [= <- <-].
  cbn [namecache calls] in *. unfold namecache_store in *.
  destruct (nt =? KDC_NAME_TYPE) eqn:Ek.
  { rewrite Ef in Hc. now destruct Hc. }
  destruct (resolve_backends_name_type _ _ _ _ _ _ _ _ _ _ Eb) as [->| ->];
    [|now rewrite Z.eqb_refl in Ek].
  rewrite lookup_insert_eq.
  rewrite (ip_service_to_samba_sockaddr_back _ _ Hall Ei).
  rewrite remove_duplicate_addrs2_fixpoint.
  - now rewrite El.
  - eapply Forall_impl; [exact Hall|]. cbn. tauto.
  - exact Hnd.
Qed.

Lemma internal_resolve_name_cached_again_witness :
  is_ipaddress sample_env "fileserver" = false
  /\ internal_resolve_name sample_env "fileserver" 0x20 None
       (lp_name_resolve_order sample_env) empty_resolver_state
     = (NT_STATUS_OK, [mk_ip_service (v4 10 0 0 5) PORT_NONE],
        mk_resolver_state
          (<[("fileserver"%string, 0x20)
             := [mk_sa sizeof_sockaddr_in (v4 10 0 0 5)]]> ∅)
          [CALL_NAMECACHE_FETCH "fileserver" 0x20;
           CALL_BACKEND BACKEND_LMHOSTS NT_STATUS_NOT_FOUND;
           CALL_BACKEND BACKEND_WINS NT_STATUS_NOT_FOUND;
           CALL_BACKEND BACKEND_HOST NT_STATUS_OK])
  /\ internal_resolve_name sample_env "fileserver" 0x20 None
       (Some ["NULL"%string])
       (mk_resolver_state
          (<[("fileserver"%string, 0x20)
             := [mk_sa sizeof_sockaddr_in (v4 10 0 0 5)]]> ∅)
          [CALL_NAMECACHE_FETCH "fileserver" 0x20;
           CALL_BACKEND BACKEND_LMHOSTS NT_STATUS_NOT_FOUND;
           CALL_BACKEND BACKEND_WINS NT_STATUS_NOT_FOUND;
           CALL_BACKEND BACKEND_HOST NT_STATUS_OK])
     = (NT_STATUS_OK, [mk_ip_service (v4 10 0 0 5) PORT_NONE],
        mk_resolver_state
          (<[("fileserver"%string, 0x20)
             := [mk_sa sizeof_sockaddr_in (v4 10 0 0 5)]]> ∅)
          [CALL_NAMECACHE_FETCH "fileserver" 0x20;
           CALL_BACKEND BACKEND_LMHOSTS NT_STATUS_NOT_FOUND;
           CALL_BACKEND BACKEND_WINS NT_STATUS_NOT_FOUND;
           CALL_BACKEND BACKEND_HOST NT_STATUS_OK;
           CALL_NAMECACHE_FETCH "fileserver" 0x20]).
Proof.
  split; [reflexivity|]. split; [vm_compute; reflexivity|].
  refine (internal_resolve_name_cached_again sample_env "fileserver" 0x20 None
            (lp_name_resolve_order sample_env) empty_resolver_state
            [mk_ip_service (v4 10 0 0 5) PORT_NONE]
            (mk_resolver_state
               (<[("fileserver"%string, 0x20)
                  := [mk_sa sizeof_sockaddr_in (v4 10 0 0 5)]]> ∅)
               [CALL_NAMECACHE_FETCH "fileserver" 0x20;
                CALL_BACKEND BACKEND_LMHOSTS NT_STATUS_NOT_FOUND;
                CALL_BACKEND BACKEND_WINS NT_STATUS_NOT_FOUND;
                CALL_BACKEND BACKEND_HOST NT_STATUS_OK])
            None (Some ["NULL"%string]) _ _ _).
  - reflexivity.
  - vm_compute; reflexivity.
  - vm_compute. eexists. reflexivity.
Defined.

Lemma resolve_dispatch_no_wins_1d env name sitename tok b r nt :
  resolve_dispatch env name 0x1D sitename tok = Some (b, r, nt) ->
  b <> BACKEND_WINS.
Proof.
  unfold resolve_dispatch.
  repeat match goal with
  | |- context [if strequal env tok ?s then _ else _] =>
      destruct (strequal env tok s)
  | |- context [if ?a || ?b then _ else _] => destruct (a || b)
  end; cbn; try discriminate; now intros [= <- _ _].
Qed.

Lemma resolve_backends_no_wins_1d env name sitename order :
  forall status log,
  exists added,
    snd (resolve_backends env name 0x1D sitename order status log) = log ++ added
    /\ Forall (fun c => forall s, c <> CALL_BACKEND BACKEND_WINS s) added.
Proof.
  induction order as [|tok rest IH]; intros status log; cbn [resolve_backends].
  - exists []. split; [now rewrite app_nil_r|constructor].
  - destruct (resolve_dispatch env name 0x1D sitename tok)
      as [[[b [status' ss_list]] nt]|] eqn:Ed; [|apply IH].
    apply resolve_dispatch_no_wins_1d in Ed.
    destruct (negb (NT_STATUS_IS_OK status')).
    + destruct (IH status' (log ++ [CALL_BACKEND b status'])) as (added & Hlog & Hall).
      exists (CALL_BACKEND b status' :: added). split.
      * rewrite Hlog, <- app_assoc. reflexivity.
      * constructor; [congruence|assumption].
    + exists [CALL_BACKEND b status']. split; [reflexivity|].
      repeat constructor. congruence.
Qed.

(** X7. A lookup of name type 0x1D never goes to the WINS backend: whatever
    the resolve order says, no call of it is among those
    [internal_resolve_name] adds to the log. *)
Theorem internal_resolve_name_1d_skips_wins env name sitename resolve_order st :
  exists added,
    calls (snd (internal_resolve_name env name 0x1D sitename resolve_order st))
    = calls st ++ added
    /\ Forall (fun c => forall s, c <> CALL_BACKEND BACKEND_WINS s) added.
Proof.
  unfold internal_resolve_name.
  destruct (is_ipaddress env name).
  { exists []. split; [|constructor].
    destruct (interpret_string_addr env name) as [a|]; [destruct (is_zero_addr a)|];
      cbn; now rewrite app_nil_r. }
  cbn [namecache calls].
  destruct (namecache_fetch name 29 (namecache st)) as [sa_list|].
  { exists [CALL_NAMECACHE_FETCH name 29]. split.
    - destruct (length _ =? 0)%nat; reflexivity.
    - repeat constructor. discriminate. }
  destruct (effective_resolve_order env name resolve_order) as [order|].
  2:{ exists [CALL_NAMECACHE_FETCH name 29]. split; [reflexivity|].
      repeat constructor. discriminate. }
  destruct (resolve_backends_no_wins_1d env name sitename order
              NT_STATUS_UNSUCCESSFUL (calls st ++ [CALL_NAMECACHE_FETCH name 29]))
    as (added & Hlog & Hall).
  exists (CALL_NAMECACHE_FETCH name 29 :: added). split.
  - destruct (resolve_backends env name 29 sitename order
                NT_STATUS_UNSUCCESSFUL _) as [[status|[ss_list nt]] log];
      cbn [snd] in Hlog; subst log; rewrite <- app_assoc.
    + reflexivity.
    + destruct (convert_ss2service ss_list) as [iplist|]; [|reflexivity].
      destruct (negb (length (remove_duplicate_addrs2 iplist) =? 0)%nat);
        [|reflexivity].
      destruct (ip_service_to_samba_sockaddr (remove_duplicate_addrs2 iplist))
        as [[] sa]; reflexivity.
  - constructor; [discriminate|assumption].
Qed.

(** X8. When the last thing a lookup of a name that is not an IP literal
    did was to try a backend that failed, the status [internal_resolve_name]
    returns is the status of that backend. *)
Theorem internal_resolve_name_last_backend_status env name name_type sitename
    resolve_order st status l st' b s :
  is_ipaddress env name = false ->
  internal_resolve_name env name name_type sitename resolve_order st
  = (status, l, st') ->
  last (calls st') = Some (CALL_BACKEND b s) ->
  s <> NT_STATUS_OK ->
  status = s.
Proof.
  intros Hip. unfold internal_resolve_name. rewrite Hip. cbn [namecache calls].
  destruct (namecache_fetch name name_type (namecache st)) as [sa_list|].
  { destruct (length _ =? 0)%nat; intros [= <- <- <-]; cbn [calls];
      rewrite last_snoc; discriminate. }
  destruct (effective_resolve_order env name resolve_order) as [order|].
  2:{ intros [= <- <- <-]; cbn [calls]; rewrite last_snoc; discriminate. }
  pose proof (resolve_backends_last env name name_type sitename order
                NT_STATUS_UNSUCCESSFUL
                (calls st ++ [CALL_NAMECACHE_FETCH name name_type])) as H.
  destruct (resolve_backends env name name_type sitename order
              NT_STATUS_UNSUCCESSFUL _) as [r log].
  assert (Hlast : last log = Some (CALL_BACKEND b s) -> s <> NT_STATUS_OK ->
                  exists st0, r = inl st0 /\ st0 = s).
  { intros Hl Hs. destruct H as [[-> _]|(b0 & s0 & Hl0 & H)].
    - rewrite last_snoc in Hl. discriminate.
    - rewrite Hl in Hl0. injection Hl0 as <- <-.
      destruct H as [[-> _]|[-> _]]; [eauto|congruence]. }
  clear H. destruct r as [status0|[ss_list nt]].
  { intros [= <- <- <-]. cbn [calls]. intros Hl Hs.
    destruct (Hlast Hl Hs) as (st0 & [= <-] & <-). reflexivity. }
  assert (Hno : last log = Some (CALL_BACKEND b s) -> s <> NT_STATUS_OK -> status = s).
  { intros Hl Hs. destruct (Hlast Hl Hs) as (st0 & [=] & _). }
  destruct (convert_ss2service ss_list) as [iplist|];
    [|intros [= <- <- <-]; exact Hno].
  destruct (negb (length (remove_duplicate_addrs2 iplist) =? 0)%nat);
    [|intros [= <- <- <-]; exact Hno].
  destruct (ip_service_to_samba_sockaddr (remove_duplicate_addrs2 iplist))
    as [[] sa]; intros [= <- <- <-]; exact Hno.
Qed.

Lemma internal_resolve_name_last_backend_status_witness :
  is_ipaddress sample_env "nosuchhost" = false
  /\ internal_resolve_name sample_env "nosuchhost" 0x20 None
       (lp_name_resolve_order sample_env) empty_resolver_state
     = (NT_STATUS_NOT_FOUND, [],
        mk_resolver_state ∅
          [CALL_NAMECACHE_FETCH "nosuchhost" 0x20;
           CALL_BACKEND BACKEND_LMHOSTS NT_STATUS_NOT_FOUND;
           CALL_BACKEND BACKEND_WINS NT_STATUS_NOT_FOUND;
           CALL_BACKEND BACKEND_HOST NT_STATUS_UNSUCCESSFUL;
           CALL_BACKEND BACKEND_BCAST NT_STATUS_NOT_FOUND])
  /\ NT_STATUS_NOT_FOUND = NT_STATUS_NOT_FOUND.
Proof.
  split; [reflexivity|]. split; [vm_compute; reflexivity|].
  refine (internal_resolve_name_last_backend_status sample_env "nosuchhost" 0x20
            None (lp_name_resolve_order sample_env) empty_resolver_state
            NT_STATUS_NOT_FOUND []
            (mk_resolver_state ∅
               [CALL_NAMECACHE_FETCH "nosuchhost" 0x20;
                CALL_BACKEND BACKEND_LMHOSTS NT_STATUS_NOT_FOUND;
                CALL_BACKEND BACKEND_WINS NT_STATUS_NOT_FOUND;
                CALL_BACKEND BACKEND_HOST NT_STATUS_UNSUCCESSFUL;
                CALL_BACKEND BACKEND_BCAST NT_STATUS_NOT_FOUND])
            BACKEND_BCAST NT_STATUS_NOT_FOUND _ _ _ _).
  - reflexivity.
  - vm_compute; reflexivity.
  - reflexivity.
  - discriminate.
Defined.

(** ** [resolve_name] *)

Lemma resolve_name_scan_found env v4_only l ok r :
  resolve_name_scan env v4_only l = Some (ok, r) ->
  (ok = false /\ r = None)
  \/ (ok = true /\
      exists s, s ∈ l /\ r = Some (ss s)
        /\ is_broadcast_addr env (ss s) = false
        /\ ss_family (ss s) <> AF_UNSPEC
        /\ (v4_only = true -> ss_family (ss s) = AF_INET)).
Proof.
  induction l as [|x rest IH]; cbn [resolve_name_scan]; [discriminate|].
  destruct (sockaddr_storage_to_samba_sockaddr (ss x)) as [sa|] eqn:Es.
  2:{ intros [= <- <-]. now left. }
  pose proof (sockaddr_storage_to_samba_sockaddr_u_ss _ _ Es) as Hu.
  rewrite Hu.
  destruct (negb (is_broadcast_addr env (ss x))
            && (negb v4_only || bool_decide (ss_family (ss x) = AF_INET))) eqn:Ec.
  - intros [= <- <-]. right. split; [reflexivity|]. exists x.
    apply andb_true_iff in Ec. destruct Ec as (Hb & Hv).
    apply negb_true_iff in Hb. split; [left|]. split; [reflexivity|].
    split; [assumption|]. split.
    + unfold sockaddr_storage_to_samba_sockaddr in Es.
      destruct (ss_family (ss x)); [discriminate|discriminate|discriminate].
    + intros ->. cbn in Hv. now apply bool_decide_eq_true in Hv.
  - intros H. destruct (IH H) as [?|(? & s & Hin & ?)]; [now left|].
    right. split; [assumption|]. exists s. split; [now right|assumption].
Qed.

(** X9. For a name that is not an IP literal, an address [resolve_name]
    hands back is never the zero address and never a broadcast address, and
    it is an IPv4 or IPv6 address. *)
Theorem resolve_name_usable_address env name name_type prefer_ipv4 st a st' :
  is_ipaddress env name = false ->
  resolve_name env name name_type prefer_ipv4 st = (true, Some a, st') ->
  is_zero_addr a = false
  /\ is_broadcast_addr env a = false
  /\ ss_family a <> AF_UNSPEC.
Proof.
  intros Hip. unfold resolve_name. rewrite Hip.
  pose proof (internal_resolve_name_result env name name_type
                (sitename_fetch env) (lp_name_resolve_order env) st) as Hres.
  destruct (internal_resolve_name env name name_type (sitename_fetch env)
              (lp_name_resolve_order env) st) as [[status l] st1].
  destruct Hres as [(-> & _ & Hall & _)|(Hs & _)].
  2:{ apply NT_STATUS_IS_OK_false in Hs. rewrite Hs. discriminate. }
  cbn [NT_STATUS_IS_OK].
  assert (Hscan : forall v ok r, resolve_name_scan env v l = Some (ok, r) ->
            (ok, r, st1) = (true, Some a, st') ->
            is_zero_addr a = false /\ is_broadcast_addr env a = false
            /\ ss_family a <> AF_UNSPEC).
  { intros v ok r Hsc [= -> -> _].
    destruct (resolve_name_scan_found _ _ _ _ _ Hsc)
      as [[? _]|(_ & s & Hin & [= ->] & Hb & Hf & _)]; [discriminate|].
    rewrite Forall_forall in Hall. destruct (Hall s Hin) as (Hz & _). auto. }
  destruct (if prefer_ipv4 then resolve_name_scan env true l else None)
    as [[ok r]|] eqn:E1.
  { destruct prefer_ipv4; [|discriminate]. eauto. }
  destruct (resolve_name_scan env false l) as [[ok r]|] eqn:E2; [eauto|discriminate].
Qed.

Lemma resolve_name_usable_address_witness :
  is_ipaddress sample_env "fileserver" = false
  /\ resolve_name sample_env "fileserver" 0x20 false empty_resolver_state
     = (true, Some (v4 10 0 0 5),
        mk_resolver_state
          (<[("fileserver"%string, 0x20)
             := [mk_sa sizeof_sockaddr_in (v4 10 0 0 5)]]> ∅)
          [CALL_NAMECACHE_FETCH "fileserver" 0x20;
           CALL_BACKEND BACKEND_LMHOSTS NT_STATUS_NOT_FOUND;
           CALL_BACKEND BACKEND_WINS NT_STATUS_NOT_FOUND;
           CALL_BACKEND BACKEND_HOST NT_STATUS_OK])
  /\ is_zero_addr (v4 10 0 0 5) = false
  /\ is_broadcast_addr sample_env (v4 10 0 0 5) = false
  /\ ss_family (v4 10 0 0 5) <> AF_UNSPEC.
Proof.
  split; [reflexivity|]. split; [vm_compute; reflexivity|].
  refine (resolve_name_usable_address sample_env "fileserver" 0x20 false
            empty_resolver_state (v4 10 0 0 5)
            (mk_resolver_state
               (<[("fileserver"%string, 0x20)
                  := [mk_sa sizeof_sockaddr_in (v4 10 0 0 5)]]> ∅)
               [CALL_NAMECACHE_FETCH "fileserver" 0x20;
                CALL_BACKEND BACKEND_LMHOSTS NT_STATUS_NOT_FOUND;
                CALL_BACKEND BACKEND_WINS NT_STATUS_NOT_FOUND;
                CALL_BACKEND BACKEND_HOST NT_STATUS_OK]) _ _).
  - reflexivity.
  - vm_compute; reflexivity.
Defined.

Lemma resolve_name_scan_first env v4_only l x rest :
  Forall (fun s => ss_family (ss s) <> AF_UNSPEC) l ->
  filter (fun s => is_broadcast_addr env (ss s) = false
                   /\ (v4_only = true -> ss_family (ss s) = AF_INET)) l
  = x :: rest ->
  resolve_name_scan env v4_only l = Some (true, Some (ss x)).
Proof.
  induction l as [|y l IH]; [discriminate|].
  intros Hv. inversion Hv as [|? ? Hy Hv']; subst.
  rewrite filter_cons. cbn [resolve_name_scan].
  unfold sockaddr_storage_to_samba_sockaddr.
  destruct (decide _) as [(Hb & Hf)|Hn].
  - intros [= <- _].
    destruct (ss_family (ss y)) eqn:Ef; [congruence| |]; cbn [u_ss];
      rewrite Hb, Ef; cbn [negb andb]; destruct v4_only; cbn;
      try reflexivity.
    specialize (Hf eq_refl). discriminate.
  - intros Hfil.
    assert (Hc : negb (is_broadcast_addr env (ss y))
                 && (negb v4_only || bool_decide (ss_family (ss y) = AF_INET))
                 = false).
    { apply not_true_is_false. intros Hc. apply Hn.
      apply andb_true_iff in Hc. destruct Hc as (Hb & Hf).
      apply negb_true_iff in Hb. split; [assumption|]. intros ->.
      cbn in Hf. now apply bool_decide_eq_true in Hf. }
    destruct (ss_family (ss y)) eqn:Ef; [congruence| |]; cbn [u_ss];
      rewrite Ef in *; rewrite Hc; now apply IH.
Qed.

(** X10. With [prefer_ipv4], [resolve_name] returns the first IPv4 address
    of the resolved list that is not a broadcast address, whatever IPv6
    addresses come before it in the list. *)
Theorem resolve_name_prefers_ipv4 env name name_type st l st' x rest :
  is_ipaddress env name = false ->
  internal_resolve_name env name name_type (sitename_fetch env)
    (lp_name_resolve_order env) st = (NT_STATUS_OK, l, st') ->
  Forall (fun s => ss_family (ss s) <> AF_UNSPEC) l ->
  filter (fun s => is_broadcast_addr env (ss s) = false
                   /\ ss_family (ss s) = AF_INET) l = x :: rest ->
  resolve_name env name name_type true st = (true, Some (ss x), st').
Proof.
  intros Hip E Hv Hf. unfold resolve_name. rewrite Hip, E. cbn [NT_STATUS_IS_OK].
  rewrite (resolve_name_scan_first env true l x rest Hv); [reflexivity|].
  rewrite <- Hf. apply list_filter_iff. intros s. split.
  - intros (? & H). auto.
  - intros (? & H). auto.
Qed.

Lemma resolve_name_prefers_ipv4_witness :
  is_ipaddress sample_env_dual "dualhost" = false
  /\ internal_resolve_name sample_env_dual "dualhost" 0x20
       (sitename_fetch sample_env_dual) (lp_name_resolve_order sample_env_dual)
       empty_resolver_state
     = (NT_STATUS_OK,
        [mk_ip_service (mk_ss AF_INET6 1) PORT_NONE;
         mk_ip_service (v4 10 0 0 5) PORT_NONE],
        mk_resolver_state
          (<[("dualhost"%string, 0x20)
             := [mk_sa sizeof_sockaddr_in6 (mk_ss AF_INET6 1);
                 mk_sa sizeof_sockaddr_in (v4 10 0 0 5)]]> ∅)
          [CALL_NAMECACHE_FETCH "dualhost" 0x20;
           CALL_BACKEND BACKEND_HOST NT_STATUS_OK])
  /\ resolve_name sample_env_dual "dualhost" 0x20 true empty_resolver_state
     = (true, Some (v4 10 0 0 5),
        mk_resolver_state
          (<[("dualhost"%string, 0x20)
             := [mk_sa sizeof_sockaddr_in6 (mk_ss AF_INET6 1);
                 mk_sa sizeof_sockaddr_in (v4 10 0 0 5)]]> ∅)
          [CALL_NAMECACHE_FETCH "dualhost" 0x20;
           CALL_BACKEND BACKEND_HOST NT_STATUS_OK]).
Proof.
  split; [reflexivity|]. split; [vm_compute; reflexivity|].
  refine (resolve_name_prefers_ipv4 sample_env_dual "dualhost" 0x20
            empty_resolver_state
            [mk_ip_service (mk_ss AF_INET6 1) PORT_NONE;
             mk_ip_service (v4 10 0 0 5) PORT_NONE]
            (mk_resolver_state
               (<[("dualhost"%string, 0x20)
                  := [mk_sa sizeof_sockaddr_in6 (mk_ss AF_INET6 1);
                      mk_sa sizeof_sockaddr_in (v4 10 0 0 5)]]> ∅)
               [CALL_NAMECACHE_FETCH "dualhost" 0x20;
                CALL_BACKEND BACKEND_HOST NT_STATUS_OK])
            (mk_ip_service (v4 10 0 0 5) PORT_NONE) [] _ _ _ _).
  - reflexivity.
  - vm_compute; reflexivity.
  - repeat constructor; discriminate.
  - vm_compute; reflexivity.
Defined.

(** ** Addresses collected by a name query *)


(** X11. The addresses a successful name query returns are pairwise
    distinct, and none of them is the zero address: a record that repeats an
    address already collected, or carries 0.0.0.0, adds nothing. *)
Theorem name_query_distinct_addresses ifs dis buflen name bcast to_ss evs
    addrs flags :
  name_query ifs dis buflen name bcast to_ss evs = (NT_STATUS_OK, addrs, flags) ->
  NoDup addrs /\ Forall (fun a => is_zero_addr a = false) addrs.
Proof.
  unfold name_query.
  pose proof (name_query_send_fresh dis buflen name bcast to_ss) as (Hfresh & _ & _).
  destruct (name_query_send dis buflen name bcast to_ss) as [posted st0].
  cbn [snd] in Hfresh.
  assert (Hc : NoDup (nq_addrs (snd (name_query_complete posted st0 evs)))
               /\ Forall (fun a => ss_family a = AF_INET /\ is_zero_addr a = false)
                    (nq_addrs (snd (name_query_complete posted st0 evs)))).
  { destruct posted as [s|]; cbn [name_query_complete snd].
    - rewrite Hfresh. split; constructor.
    - apply name_query_poll_collected. rewrite Hfresh. split; constructor. }
  destruct (name_query_complete posted st0 evs) as [req_status st].
  cbn [snd] in Hc. destruct Hc as (Hnd & Hall).
  unfold name_query_recv.
  destruct (negb (NT_STATUS_IS_OK _)) eqn:E1.
  { intros [= Hs _ _]. rewrite Hs in E1. discriminate. }
  destruct (Z.of_nat (length (nq_addrs st)) =? 0); [discriminate 1|].
  intros [= <- _].
  pose proof (sort_addr_list_perm ifs (nq_addrs st)) as Hperm.
  split.
  - now rewrite Hperm.
  - rewrite Hperm. eapply Forall_impl; [exact Hall|]. cbn. tauto.
Qed.

Lemma name_query_distinct_addresses_witness :
  name_query sample_ifs false 50 "FOO" false (v4 10 0 0 1)
    [Response (sample_response
       [0;0;192;168;1;1; 0;0;10;0;0;7; 0;0;0;0;0;0; 0;0;192;168;1;1])]
  = (NT_STATUS_OK, [v4 10 0 0 7; v4 192 168 1 1], 208)
  /\ NoDup [v4 10 0 0 7; v4 192 168 1 1]
  /\ Forall (fun a => is_zero_addr a = false) [v4 10 0 0 7; v4 192 168 1 1].
Proof.
  split; [vm_compute; reflexivity|].
  apply (name_query_distinct_addresses sample_ifs false 50 "FOO" false
           (v4 10 0 0 1)
           [Response (sample_response
              [0;0;192;168;1;1; 0;0;10;0;0;7; 0;0;0;0;0;0; 0;0;192;168;1;1])]
           [v4 10 0 0 7; v4 192 168 1 1] 208).
  vm_compute. reflexivity.
Defined.

(** X31. A positive response that comes without a six-byte record, as the
    first thing to arrive for a query, ends the query at once with
    [NT_STATUS_NO_MEMORY], unicast or broadcast, whatever arrives after
    it: asked for an array of no element [talloc_realloc] returns NULL,
    and the validator takes that for a failed allocation and accepts the
    packet with the error. *)
Theorem name_query_empty_answer ifs dis buflen name bcast to_ss state p rest :
  name_query_send dis buflen name bcast to_ss = (None, state) ->
  positive_response p = true ->
  rdlength (answers p) < 6 ->
  name_query_validator p state
  = (true, mk_nq bcast (bcast && String.eqb name "*") NT_STATUS_NO_MEMORY 0 [])
  /\ name_query ifs dis buflen name bcast to_ss (Response p :: rest)
     = (NT_STATUS_NO_MEMORY, [], 0).
Proof.
  intros Hsend Hpos Hlen.
  pose proof (name_query_send_in_flight _ _ _ _ _ _ Hsend) as ->.
  assert (Hv : name_query_validator p
                 (mk_nq bcast (bcast && String.eqb name "*") NT_STATUS_OK 0 [])
               = (true, mk_nq bcast (bcast && String.eqb name "*")
                          NT_STATUS_NO_MEMORY 0 [])).
  { unfold positive_response in Hpos.
    apply andb_true_iff in Hpos. destruct Hpos as (Hpos & Han).
    apply andb_true_iff in Hpos. destruct Hpos as (Hpos & Hrc).
    apply andb_true_iff in Hpos. destruct Hpos as (Hop & Hb).
    unfold name_query_validator.
    cbn [nq_bcast nq_bcast_star_query nq_validate_error nq_flags nq_addrs].
    rewrite Hop, Hrc. apply negb_true_iff in Hb, Han. rewrite Hb, Han.
    rewrite andb_false_r. cbn [negb orb length].
    assert (Hnull : talloc_realloc_null (Z.of_nat 0 + rdlength (answers p) ÷ 6) = true).
    { unfold talloc_realloc_null. apply Z.leb_le.
      destruct (Z.le_gt_cases 0 (rdlength (answers p))).
      - rewrite Z.quot_small by lia. lia.
      - assert (rdlength (answers p) ÷ 6 <= 0)
          by (apply Z.quot_le_upper_bound; lia). lia. }
    now rewrite Hnull. }
  split; [exact Hv|].
  unfold name_query. rewrite Hsend.
  cbn [name_query_complete name_query_poll]. rewrite Hv.
  unfold name_query_done, name_query_recv. cbn [NT_STATUS_IS_OK negb nq_validate_error].
  unfold NT_STATUS_EQUAL. rewrite bool_decide_eq_false_2 by discriminate.
  now rewrite andb_false_r.
Qed.

(** A broadcast query for [FOO]: the first response has an answer count
    of one and no record, the second would have brought an address. *)
Lemma name_query_empty_answer_witness :
  name_query_send false 50 "FOO" true (v4 10 0 0 255)
  = (None, mk_nq true false NT_STATUS_OK 0 [])
  /\ positive_response (sample_response []) = true
  /\ rdlength (answers (sample_response [])) < 6
  /\ name_query sample_ifs false 50 "FOO" true (v4 10 0 0 255)
       [Response (sample_response []); Response (sample_response [0;0;3;3;3;3])]
     = (NT_STATUS_NO_MEMORY, [], 0).
Proof.
  split; [reflexivity|]. split; [reflexivity|]. split; [reflexivity|].
  refine (proj2 (name_query_empty_answer sample_ifs false 50 "FOO" true
                   (v4 10 0 0 255) _ (sample_response [])
                   [Response (sample_response [0;0;3;3;3;3])] eq_refl eq_refl _)).
  reflexivity.
Defined.

Lemma name_query_records_prefix r addrs :
  addrs `prefix_of` snd (name_query_records r addrs).
Proof.
  unfold name_query_records.
  assert (Hfold : forall idx addrs0 got,
            addrs0 `prefix_of`
              snd (fold_left (fun acc i => name_query_record r i acc)
                     idx (got, addrs0))).
  { induction idx as [|i rest IH]; intros addrs0 got; cbn [fold_left];
      [reflexivity|].
    assert (H1 : addrs0 `prefix_of` snd (name_query_record r i (got, addrs0))).
    { unfold name_query_record.
      cbn [sockaddr_storage_to_samba_sockaddr in_addr_to_sockaddr_storage
           ss_family u_ss].
      destruct (is_zero_addr _); cbn [snd]; [reflexivity|].
      destruct (already_got _ addrs0); cbn [snd]; [reflexivity|].
      now apply prefix_app_r. }
    destruct (name_query_record r i (got, addrs0)) as [got' addrs'].
    cbn [snd] in H1. etransitivity; [exact H1|apply IH]. }
  apply Hfold.
Qed.

Lemma name_query_validator_prefix p state :
  nq_addrs state `prefix_of` nq_addrs (snd (name_query_validator p state)).
Proof.
  unfold name_query_validator.
  destruct ((opcode (header p) =? 0) && negb (nq_bcast state)
            && negb (rcode (header p) =? 0)); cbn [snd nq_addrs]; [reflexivity|].
  destruct (negb (opcode (header p) =? 0) || nm_bcast (header p)
            || negb (rcode (header p) =? 0) || (ancount (header p) =? 0));
    cbn [snd nq_addrs]; [reflexivity|].
  destruct (talloc_realloc_null _); cbn [snd nq_addrs]; [reflexivity|].
  pose proof (name_query_records_prefix (answers p) (nq_addrs state)) as H'.
  destruct (name_query_records (answers p) (nq_addrs state)) as [got addrs].
  destruct (nq_bcast state); cbn [snd nq_addrs]; exact H'.
Qed.

(** A name query only ever adds to what it has collected: through any
    sequence of responses and failures the addresses held before are a
    prefix of the addresses held after. *)
Lemma name_query_poll_keeps_collected (state : name_query_state)
    (evs : list nb_event) :
  nq_addrs state `prefix_of` nq_addrs (snd (name_query_poll state evs)).
Proof.
  revert state. induction evs as [|ev rest IH]; intros state;
    cbn [name_query_poll]; [reflexivity|].
  destruct ev as [p|status]; cbn [snd]; [|reflexivity].
  pose proof (name_query_validator_prefix p state) as H1.
  destruct (name_query_validator p state) as [accepted state'].
  cbn [snd] in H1. destruct accepted; cbn [snd]; [exact H1|].
  etransitivity; [exact H1|apply IH].
Qed.

(** ** The packet race engine, over any sequence of events *)

Section SockPacketRead.
Context {V : Type}.

Lemma spr_invariant_step (validator : option (packet_struct -> V -> bool * V))
    (ev : race_event) (st : tevent_req_state * sock_packet_read_state V) :
  spr_invariant validator st ->
  spr_invariant validator (sock_packet_read_step ev st).
Proof.
  destruct st as [rs state]. unfold spr_invariant, sock_packet_read_step.
  cbn [fst snd]. intros (Hv & H).
  destruct rs; [|cbn [fst snd]; split; assumption|cbn [fst snd]; split; assumption].
  destruct H as (Hp & Hreq).
  destruct ev as [res|res].
  - destruct (spr_reader_req state) eqn:Er; [|cbn; rewrite Er; auto].
    unfold sock_packet_read_got_packet. cbn [spr_socket_req spr_reader
      spr_trn_id spr_validator spr_private_data spr_packet].
    destruct res as [status|p].
    + destruct (spr_socket_req state) eqn:Es; cbn; auto.
    + unfold run_validator. cbn [spr_validator spr_private_data]. rewrite Hv.
      destruct validator as [v|].
      * destruct (v p (spr_private_data state)) as [ok priv] eqn:Ev.
        destruct ok; cbn; [|auto].
        split; [first [assumption|reflexivity]|]. split; [reflexivity|]. exists p.
        split; [reflexivity|]. eauto.
      * cbn. split; [first [assumption|reflexivity]|]. split; [reflexivity|]. eauto.
  - destruct (spr_socket_req state) eqn:Es; [|cbn; rewrite Es; auto].
    unfold sock_packet_read_got_socket, sock_packet_read_retry.
    cbn [spr_socket_req spr_reader spr_reader_req
      spr_trn_id spr_validator spr_private_data spr_packet].
    destruct res as [err|d].
    + destruct (spr_reader_req state) eqn:Er; cbn; auto.
    + destruct (negb (dg_is_ipv4 d)); [cbn; rewrite orb_true_r; auto|].
      destruct (dg_bsd_sockaddr_errno d); [cbn; auto|].
      destruct (dg_parsed d) as [p|]; [|cbn; rewrite orb_true_r; auto].
      destruct (negb (spr_trn_id state =? -1)
                && negb (spr_trn_id state =? name_trn_id (header p)));
        [cbn; rewrite orb_true_r; auto|].
      unfold run_validator. cbn [spr_validator spr_private_data]. rewrite Hv.
      destruct validator as [v|].
      * destruct (v p (spr_private_data state)) as [ok priv] eqn:Ev.
        destruct ok; cbn; [|rewrite orb_true_r; auto].
        split; [first [assumption|reflexivity]|]. split; [reflexivity|]. exists p.
        split; [reflexivity|]. eauto.
      * cbn. split; [first [assumption|reflexivity]|]. split; [reflexivity|]. eauto.
Qed.

Lemma spr_invariant_run (validator : option (packet_struct -> V -> bool * V))
    (evs : list race_event) :
  forall st : tevent_req_state * sock_packet_read_state V,
  spr_invariant validator st ->
  spr_invariant validator (sock_packet_read_run evs st).
Proof.
  unfold sock_packet_read_run.
  induction evs as [|ev rest IH]; intros st H; cbn [fold_left]; [assumption|].
  apply IH. now apply spr_invariant_step.
Qed.

(** X12. Whatever the relay reader and the socket deliver, and in whatever
    order: a request that is still in progress holds no packet and has at
    least one of its two receives outstanding, and [sock_packet_read_recv]
    asked of it reports [NT_STATUS_INTERNAL_ERROR] without a packet; a
    request that is done holds a packet, which its validator, if it has
    one, accepted, and [sock_packet_read_recv] returns success with that
    packet; a request that failed has no socket receive outstanding, and
    [sock_packet_read_recv] returns the status it failed with and no
    packet. *)
Theorem sock_packet_read_run_invariant (reader : bool) (trn_id : Z)
    (validator : option (packet_struct -> V -> bool * V)) (private_data : V)
    (evs : list race_event) :
  let st := sock_packet_read_run evs
              (sock_packet_read_send reader trn_id validator private_data) in
  match fst st with
  | TEVENT_REQ_IN_PROGRESS =>
      spr_packet (snd st) = None
      /\ spr_reader_req (snd st) || spr_socket_req (snd st) = true
      /\ sock_packet_read_recv st = (NT_STATUS_INTERNAL_ERROR, None)
  | TEVENT_REQ_DONE =>
      exists p, spr_packet (snd st) = Some p
        /\ sock_packet_read_recv st = (NT_STATUS_OK, Some p)
        /\ match validator with
           | None => True
           | Some v => exists priv, v p priv = (true, spr_private_data (snd st))
           end
  | TEVENT_REQ_ERROR status =>
      sock_packet_read_recv st = (status, None)
      /\ spr_socket_req (snd st) = false
  end.
Proof.
  intros st.
  assert (H : spr_invariant validator st).
  { apply spr_invariant_run. unfold spr_invariant, sock_packet_read_send.
    cbn. rewrite orb_true_r. auto. }
  destruct H as (_ & H). unfold sock_packet_read_recv.
  destruct (fst st) eqn:E; cbn [tevent_req_is_nterror].
  - destruct H as (Hp & Hr). auto.
  - destruct H as (_ & p & Hp & Hv). exists p. rewrite Hp. auto.
  - auto.
Qed.
End SockPacketRead.

(** X13. A transaction id made by [generate_trn_id] lies in [0, 0x7FFF), so
    it is never the wildcard -1: a request carrying it re-arms the socket
    receive on every datagram whose transaction id differs, without holding
    the packet and without running the validator on it. *)
Theorem generate_trn_id_filters_datagrams {V} (id : Z) (d : datagram)
    (p : packet_struct) (state : sock_packet_read_state V) :
  spr_trn_id state = generate_trn_id id ->
  dg_is_ipv4 d = true ->
  dg_bsd_sockaddr_errno d = None ->
  dg_parsed d = Some p ->
  name_trn_id (header p) <> generate_trn_id id ->
  0 <= generate_trn_id id < 0x7FFF
  /\ sock_packet_read_got_socket (SocketDatagram d) state
     = (TEVENT_REQ_IN_PROGRESS,
        mk_spr (spr_reader state) (spr_reader_req state) true
          (spr_trn_id state) (spr_validator state) (spr_private_data state)
          None).
Proof.
  intros Ht Hv4 He Hp Hne.
  assert (Hr : 0 <= generate_trn_id id < 0x7FFF).
  { unfold generate_trn_id. apply Z.mod_pos_bound. lia. }
  split; [exact Hr|].
  unfold sock_packet_read_got_socket, sock_packet_read_retry.
  cbn [spr_reader spr_reader_req spr_socket_req spr_trn_id spr_validator
       spr_private_data spr_packet].
  rewrite Hv4, He, Hp, Ht. cbn [negb].
  destruct (Z.eqb_spec (generate_trn_id id) (-1)) as [E|_]; [lia|].
  destruct (Z.eqb_spec (generate_trn_id id) (name_trn_id (header p)))
    as [E|_]; [congruence|].
  reflexivity.
Qed.

Lemma generate_trn_id_filters_datagrams_witness :
  0 <= generate_trn_id 0xFFFF < 0x7FFF
  /\ sock_packet_read_got_socket
       (SocketDatagram (mk_datagram true None (Some (sample_response []))))
       (mk_spr (V := unit) true true true (generate_trn_id 0xFFFF) None tt None)
     = (TEVENT_REQ_IN_PROGRESS,
        mk_spr true true true (generate_trn_id 0xFFFF) None tt None).
Proof.
  apply (generate_trn_id_filters_datagrams 0xFFFF
           (mk_datagram true None (Some (sample_response [])))
           (sample_response [])
           (mk_spr (V := unit) true true true (generate_trn_id 0xFFFF) None tt None)).
  - reflexivity.
  - reflexivity.
  - reflexivity.
  - reflexivity.
  - vm_compute. discriminate.
Defined.

(** ** Server affinity *)

Lemma strupper_String c s : strupper (String c s) = String (to_upper c) (strupper s).
Proof. reflexivity. Qed.

Lemma strupper_app a b : strupper (a +:+ b) = strupper a +:+ strupper b.
Proof.
  induction a as [|c a IH]; [reflexivity|].
  change (String c a +:+ b) with (String c (a +:+ b)).
  rewrite !strupper_String, IH. reflexivity.
Qed.

Lemma strupper_length s : String.length (strupper s) = String.length s.
Proof.
  induction s as [|c s IH]; [reflexivity|].
  rewrite strupper_String. cbn [String.length]. now rewrite IH.
Qed.

Lemma saf_key_strupper domain : saf_key domain = "SAF/DOMAIN/" +:+ strupper domain.
Proof. unfold saf_key. now rewrite strupper_app. Qed.

Lemma saf_join_key_strupper domain :
  saf_join_key domain = "SAFJOIN/DOMAIN/" +:+ strupper domain.
Proof. unfold saf_join_key. now rewrite strupper_app. Qed.

Lemma saf_key_join_key domain domain' : saf_key domain <> saf_join_key domain'.
Proof. rewrite saf_key_strupper, saf_join_key_strupper. intros H. discriminate H. Qed.

Lemma strupper_nonempty d d' :
  strupper d' = strupper d -> (String.length d =? 0)%nat = false ->
  (String.length d' =? 0)%nat = false.
Proof.
  intros H. rewrite <- (strupper_length d), <- (strupper_length d'), H. auto.
Qed.

Lemma gencache_get_set key value expire now cache k :
  gencache_get k now (snd (gencache_set key value expire cache))
  = if decide (k = key) then (if expire <=? now then None else Some value)
    else gencache_get k now cache.
Proof.
  unfold gencache_get, gencache_set. cbn [snd].
  destruct (decide (k = key)) as [->|Hne].
  - now rewrite lookup_insert_eq.
  - now rewrite lookup_insert_ne by congruence.
Qed.

(** X14. After [saf_store] of a server for a domain, [saf_fetch] of that
    domain, in whatever letter case it is written, returns that server
    until the entry expires, unless a join entry of the domain is alive, which
    then goes first; from the expiry time on the stored server is no longer
    returned.  After [saf_join_store], [saf_fetch] returns the server stored
    until the join entry expires, whatever the SAF entry holds. *)
Theorem saf_store_fetch (domain servername domain' : string) (now ttl now' : Z)
    (cache : gmap string (string * Z)) :
  domain <> ""%string -> servername <> ""%string ->
  strupper domain' = strupper domain ->
  fst (saf_store (Some domain) (Some servername) now ttl cache) = true
  /\ (now' < now + ttl ->
      saf_fetch (Some domain') now'
        (snd (saf_store (Some domain) (Some servername) now ttl cache))
      = Some (default servername (gencache_get (saf_join_key domain) now' cache)))
  /\ (now + ttl <= now' ->
      saf_fetch (Some domain') now'
        (snd (saf_store (Some domain) (Some servername) now ttl cache))
      = gencache_get (saf_join_key domain) now' cache)
  /\ fst (saf_join_store (Some domain) (Some servername) now ttl cache) = true
  /\ (now' < now + ttl ->
      saf_fetch (Some domain') now'
        (snd (saf_join_store (Some domain) (Some servername) now ttl cache))
      = Some servername).
Proof.
  intros Hd Hs Hup.
  assert (Ed : (String.length domain =? 0)%nat = false)
    by (destruct domain; [congruence|reflexivity]).
  assert (Es : (String.length servername =? 0)%nat = false)
    by (destruct servername; [congruence|reflexivity]).
  pose proof (strupper_nonempty _ _ Hup Ed) as Ed'.
  assert (Hk : saf_key domain' = saf_key domain)
    by (rewrite !saf_key_strupper; congruence).
  assert (Hj : saf_join_key domain' = saf_join_key domain)
    by (rewrite !saf_join_key_strupper; congruence).
  unfold saf_store, saf_join_store, saf_fetch.
  rewrite Ed, Es, Ed', Hk, Hj. cbn [orb].
  split; [reflexivity|].
  rewrite !gencache_get_set.
  rewrite decide_False by (intros E; symmetry in E; exact (saf_key_join_key _ _ E)).
  rewrite !decide_True by reflexivity.
  split; [|split; [|split; [reflexivity|]]]; intros Ht.
  - destruct (gencache_get (saf_join_key domain) now' cache); [reflexivity|].
    destruct (Z.leb_spec (now + ttl) now'); [lia|reflexivity].
  - destruct (gencache_get (saf_join_key domain) now' cache); [reflexivity|].
    destruct (Z.leb_spec (now + ttl) now'); [reflexivity|lia].
  - destruct (Z.leb_spec (now + ttl) now'); [lia|reflexivity].
Qed.

Lemma saf_store_fetch_witness :
  fst (saf_store (Some "example.com"%string) (Some "dc1"%string) 1000 SAF_TTL ∅)
  = true
  /\ (1899 < 1000 + SAF_TTL ->
      saf_fetch (Some "EXAMPLE.com"%string) 1899
        (snd (saf_store (Some "example.com"%string) (Some "dc1"%string)
                1000 SAF_TTL ∅))
      = Some (default "dc1"%string
                (gencache_get (saf_join_key "example.com") 1899 ∅)))
  /\ (1000 + SAF_TTL <= 1899 ->
      saf_fetch (Some "EXAMPLE.com"%string) 1899
        (snd (saf_store (Some "example.com"%string) (Some "dc1"%string)
                1000 SAF_TTL ∅))
      = gencache_get (saf_join_key "example.com") 1899 ∅)
  /\ fst (saf_join_store (Some "example.com"%string) (Some "dc1"%string) 1000
            SAF_TTL ∅) = true
  /\ (1899 < 1000 + SAF_TTL ->
      saf_fetch (Some "EXAMPLE.com"%string) 1899
        (snd (saf_join_store (Some "example.com"%string) (Some "dc1"%string)
                1000 SAF_TTL ∅))
      = Some "dc1"%string).
Proof.
  apply (saf_store_fetch "example.com" "dc1" "EXAMPLE.com" 1000 SAF_TTL 1899 ∅).
  - discriminate.
  - discriminate.
  - reflexivity.
Defined.

(** X15. [saf_delete] of a domain removes both its entries, so that a
    fetch of the domain finds nothing at any time afterwards, and leaves
    every other key of the store alone; what it returns is whether a SAF
    entry was alive, whether or not it removed a join entry. *)
Theorem saf_delete_clears (domain : string) (now : Z)
    (cache : gmap string (string * Z)) :
  (forall now', saf_fetch (Some domain) now'
                  (snd (saf_delete (Some domain) now cache)) = None)
  /\ fst (saf_delete (Some domain) now cache)
     = bool_decide (is_Some (gencache_get (saf_key domain) now cache))
  /\ (forall k, k <> saf_key domain -> k <> saf_join_key domain ->
        snd (saf_delete (Some domain) now cache) !! k = cache !! k).
Proof.
  unfold saf_delete, gencache_del. cbn [fst snd].
  split; [|split].
  - intros now'. unfold saf_fetch, gencache_get.
    destruct (String.length domain =? 0)%nat; [reflexivity|].
    rewrite lookup_delete_ne by apply saf_key_join_key.
    rewrite !lookup_delete_eq. reflexivity.
  - unfold gencache_get.
    rewrite lookup_delete_ne
      by (intros E; symmetry in E; exact (saf_key_join_key _ _ E)).
    reflexivity.
  - intros k Hk Hj. rewrite !lookup_delete_ne by congruence. reflexivity.
Qed.

(** ** The copy loop of the DNS lookups, in general *)

Lemma dns_copy_back_slots queries : forall pre total,
  total = length (flat_map dq_addrs queries) ->
  fst (dns_copy_back queries (pre ++ replicate total zeroed_samba_sockaddr)
         (length pre))
  = pre ++ flat_map dns_query_slots queries.
Proof.
  induction queries as [|q rest IH]; intros pre total Htotal.
  - cbn in *. subst total. reflexivity.
  - cbn [dns_copy_back flat_map]. unfold dns_query_slots at 1.
    cbn [flat_map] in Htotal. rewrite length_app in Htotal.
    destruct (dq_addrs q) as [|x r] eqn:Eq.
    + cbn [length Nat.eqb last app] in *. now apply IH.
    + cbn [length Nat.eqb].
      destruct (last (x :: r)) as [a|] eqn:El.
      2:{ apply last_None in El. discriminate. }
      rewrite (dns_copy_query_last (x :: r) _ _ a El).
      replace (length pre) with (length pre + 0)%nat at 1 by lia.
      rewrite insert_app_r. subst total. cbn [length Nat.add replicate].
      change (<[0%nat := a]> (zeroed_samba_sockaddr
                :: replicate (length r + length (flat_map dq_addrs rest))
                     zeroed_samba_sockaddr))
        with (a :: replicate (length r + length (flat_map dq_addrs rest))
                     zeroed_samba_sockaddr).
      rewrite replicate_add.
      replace (S (length r) - 1)%nat with (length r) by lia.
      replace (length pre + S (length r))%nat
        with (length (pre ++ a :: replicate (length r) zeroed_samba_sockaddr))
        by (rewrite length_app; cbn [length]; rewrite length_replicate; lia).
      replace (pre ++ a :: replicate (length r) zeroed_samba_sockaddr
                 ++ replicate (length (flat_map dq_addrs rest)) zeroed_samba_sockaddr)
        with ((pre ++ a :: replicate (length r) zeroed_samba_sockaddr)
                ++ replicate (length (flat_map dq_addrs rest)) zeroed_samba_sockaddr)
        by (now rewrite <- app_assoc).
      rewrite IH by reflexivity.
      rewrite <- app_assoc. reflexivity.
Qed.

(** X16. [dns_lookup_list_async] always succeeds, and of each A or AAAA
    query that resolved to n addresses, n > 0, its output holds the last
    address followed by n - 1 slots as they were allocated, zeroed: the
    copy loop writes every address of a query to the first slot counted for
    it.  Queries are laid out in the order issued, per name the A query and
    then the AAAA query. *)
Theorem dns_lookup_list_async_slots (lookup_a lookup_aaaa : string -> dns_reply)
    (names : list string) :
  dns_lookup_list_async lookup_a lookup_aaaa names
  = (NT_STATUS_OK,
     flat_map dns_query_slots (dns_lookup_queries lookup_a lookup_aaaa names)).
Proof.
  unfold dns_lookup_list_async.
  destruct names as [|n0 names']; [reflexivity|].
  cbn [length Nat.eqb].
  remember (dns_lookup_queries lookup_a lookup_aaaa (n0 :: names')) as queries.
  clear Heqqueries.
  rewrite dns_count_length. rewrite Nat.add_0_l.
  pose proof (dns_copy_back_slots queries [] _ eq_refl) as Hcopy.
  cbn [app length] in Hcopy.
  destruct (dns_copy_back queries _ 0) as [addr_out num_addrs].
  cbn [fst] in Hcopy. now subst addr_out.
Qed.

(** ** The merge of [resolve_ads] *)

Lemma fold_left_snoc_nonzero (l : list sockaddr_storage) : forall acc,
  fold_left (fun srv_addrs a =>
    if is_zero_addr a then srv_addrs else srv_addrs ++ [a]) l acc
  = acc ++ filter (fun a => is_zero_addr a = false) l.
Proof.
  induction l as [|x r IH]; intros acc; cbn [fold_left].
  - now rewrite app_nil_r.
  - rewrite IH, filter_cons. destruct (is_zero_addr x).
    + now rewrite decide_False by discriminate.
    + rewrite decide_True by reflexivity. now rewrite <- app_assoc.
Qed.

Lemma resolve_ads_srv_addrs_filter dcs :
  resolve_ads_srv_addrs (map resolve_ads_clear_hostname dcs)
  = filter (fun a => is_zero_addr a = false)
      (flat_map (fun dc => default [] (ss_s dc)) dcs).
Proof.
  unfold resolve_ads_srv_addrs.
  assert (H : forall acc,
    fold_left (fun srv_addrs dc =>
      fold_left (fun srv_addrs a =>
        if is_zero_addr a then srv_addrs else srv_addrs ++ [a])
        (default [] (ss_s dc)) srv_addrs)
      (map resolve_ads_clear_hostname dcs) acc
    = acc ++ filter (fun a => is_zero_addr a = false)
               (flat_map (fun dc => default [] (ss_s dc)) dcs)).
  { induction dcs as [|dc rest IH]; intros acc; cbn [map fold_left flat_map].
    - now rewrite app_nil_r.
    - rewrite IH, fold_left_snoc_nonzero, filter_app, <- app_assoc.
      unfold resolve_ads_clear_hostname. destruct (ss_s dc) eqn:E; cbn [ss_s];
        now rewrite ?E. }
  apply (H []).
Qed.

Lemma resolve_ads_lookup_names_omap dcs :
  resolve_ads_lookup_names (map resolve_ads_clear_hostname dcs)
  = omap srv_lookup_name dcs.
Proof.
  unfold resolve_ads_lookup_names.
  assert (H : forall acc,
    fold_left (fun names dc =>
      match hostname dc with
      | None => names
      | Some h => names ++ [h]
      end) (map resolve_ads_clear_hostname dcs) acc
    = acc ++ omap srv_lookup_name dcs).
  { induction dcs as [|dc rest IH]; intros acc; cbn [map fold_left omap list_omap].
    - now rewrite app_nil_r.
    - rewrite IH. unfold resolve_ads_clear_hostname, srv_lookup_name.
      destruct (ss_s dc) eqn:E; cbn [hostname]; [reflexivity|].
      destruct (hostname dc); [|reflexivity].
      now rewrite <- app_assoc. }
  apply (H []).
Qed.

Lemma dns_lookup_list_async_ok lookup_a lookup_aaaa names :
  fst (dns_lookup_list_async lookup_a lookup_aaaa names) = NT_STATUS_OK.
Proof.
  unfold dns_lookup_list_async. destruct (length names =? 0)%nat; [reflexivity|].
  now destruct (dns_copy_back _ _ 0).
Qed.

(** X17. When the SRV query of [resolve_ads] succeeds, the list returned is
    the non-zero addresses embedded in the SRV records, in record order,
    followed by what [dns_lookup_list_async] returns for the hostnames of
    the records that came without an address, as long as the number of
    addresses fits an [int]. *)
Theorem resolve_ads_merge (env : dns_env) (name : string) (name_type : Z)
    (sitename : option string) (dcs : list dns_rr_srv) :
  name_type = 0x1c \/ name_type = KDC_NAME_TYPE \/ name_type = 0x1b ->
  (if name_type =? 0x1b then ads_dns_query_pdc env name
   else if name_type =? 0x1c then ads_dns_query_dcs env name sitename
   else ads_dns_query_kdcs env name sitename) = (NT_STATUS_OK, dcs) ->
  Z.of_nat (length (filter (fun a => is_zero_addr a = false)
                      (flat_map (fun dc => default [] (ss_s dc)) dcs)))
  + Z.of_nat (length (snd (dns_lookup_list_async (ads_dns_lookup_a env)
                             (ads_dns_lookup_aaaa env)
                             (omap srv_lookup_name dcs)))) < 2 ^ 31 ->
  resolve_ads env name name_type sitename
  = (NT_STATUS_OK,
     filter (fun a => is_zero_addr a = false)
       (flat_map (fun dc => default [] (ss_s dc)) dcs)
     ++ map u_ss
          (snd (dns_lookup_list_async (ads_dns_lookup_a env)
                  (ads_dns_lookup_aaaa env) (omap srv_lookup_name dcs)))).
Proof.
  intros Hnt Hq Hlen. unfold resolve_ads.
  assert (Hty : negb (name_type =? 0x1c) && negb (name_type =? KDC_NAME_TYPE)
                && negb (name_type =? 0x1b) = false).
  { destruct Hnt as [->|[->| ->]]; reflexivity. }
  rewrite Hty, Hq. cbn [NT_STATUS_IS_OK negb].
  destruct dcs as [|dc0 dcs'] eqn:Edcs; [reflexivity|].
  cbn [length Nat.eqb]. rewrite <- Edcs in *. clear Edcs dc0 dcs'.
  rewrite resolve_ads_srv_addrs_filter, resolve_ads_lookup_names_omap.
  pose proof (dns_lookup_list_async_ok (ads_dns_lookup_a env)
                (ads_dns_lookup_aaaa env) (omap srv_lookup_name dcs)) as Hok.
  destruct (dns_lookup_list_async (ads_dns_lookup_a env) (ads_dns_lookup_aaaa env)
              (omap srv_lookup_name dcs)) as [status dns_addrs].
  cbn [fst snd] in *. subst status. cbn [NT_STATUS_IS_OK negb].
  set (srv := filter (fun a => is_zero_addr a = false)
                (flat_map (fun dc => default [] (ss_s dc)) dcs)) in *.
  assert (Hint : int_of_size_t (Z.of_nat (length srv) + Z.of_nat (length dns_addrs))
                 = Z.of_nat (length srv) + Z.of_nat (length dns_addrs)).
  { unfold int_of_size_t. rewrite Z.mod_small by lia.
    destruct (Z.ltb_spec (Z.of_nat (length srv) + Z.of_nat (length dns_addrs))
                (2 ^ 31)); [reflexivity|lia]. }
  rewrite Hint. unfold size_t_of_int. rewrite Z.mod_small by lia.
  destruct (Z.ltb_spec (Z.of_nat (length srv) + Z.of_nat (length dns_addrs))
              (Z.of_nat (length srv))); [lia|].
  destruct (Z.ltb_spec (Z.of_nat (length srv) + Z.of_nat (length dns_addrs)) 0);
    [lia|]. cbn [orb].
  destruct (Z.eqb_spec (Z.of_nat (length srv) + Z.of_nat (length dns_addrs)) 0)
    as [E0|_]; [|reflexivity].
  destruct srv; [|cbn [length] in E0; lia].
  destruct dns_addrs; [reflexivity|cbn [length] in E0; lia].
Qed.

Lemma resolve_ads_merge_witness :
  resolve_ads sample_dns_one "example.com" 0x1c None
  = (NT_STATUS_OK, [v4 192 0 2 1; v4 192 0 2 2]).
Proof.
  refine (resolve_ads_merge sample_dns_one "example.com" 0x1c None
            sample_srv_reply _ _ _).
  - now left.
  - reflexivity.
  - vm_compute. reflexivity.
Defined.

(** ** The NBT client address *)

(** Whatever is configured as NBT client socket address,
    [set_socket_addr_v4] leaves an IPv4 address: the configured one when it
    parses to IPv4, the zero address when it does not parse or is IPv6. *)
Lemma set_socket_addr_v4_inet (configured : option sockaddr_storage)
    (addr : samba_sockaddr) :
  ss_family (u_ss (set_socket_addr_v4 configured addr)) = AF_INET
  /\ (u_ss (set_socket_addr_v4 configured addr) = zero_sockaddr
      \/ configured = Some (u_ss (set_socket_addr_v4 configured addr))).
Proof.
  unfold set_socket_addr_v4.
  destruct configured as [a|]; cbn [u_ss].
  - case_bool_decide as Hf; cbn [negb u_ss]; [|split; [reflexivity|now left]].
    split; [assumption|now right].
  - cbn. split; [reflexivity|now left].
Qed.

(** ** The host backend *)

Lemma fold_left_getaddrinfo (l : list (option sockaddr_storage)) : forall acc,
  fold_left (fun acc res =>
    match res with
    | None => acc
    | Some a => if is_zero_addr a then acc else acc ++ [a]
    end) l acc
  = acc ++ filter (fun a => is_zero_addr a = false) (omap id l).
Proof.
  induction l as [|x r IH]; intros acc; cbn [fold_left omap list_omap].
  - now rewrite app_nil_r.
  - rewrite IH. destruct x as [a|]; cbn [id]; [|reflexivity].
    rewrite filter_cons. destruct (is_zero_addr a).
    + now rewrite decide_False by discriminate.
    + rewrite decide_True by reflexivity. now rewrite <- app_assoc.
Qed.

(** X18. [resolve_hosts] succeeds exactly when it returns at least one
    address, never returns a zero address, and for the name types 0x20 and
    0x0 returns the addresses [getaddrinfo] gave, in its order, without the
    entries that carry no address and without zero addresses; any other name
    type is refused without a lookup result. *)
Theorem resolve_hosts_result (env : resolver_env) (name : string) (name_type : Z) :
  (fst (resolve_hosts env name name_type) = NT_STATUS_OK
   <-> snd (resolve_hosts env name name_type) <> [])
  /\ Forall (fun a => is_zero_addr a = false) (snd (resolve_hosts env name name_type))
  /\ snd (resolve_hosts env name name_type)
     = (if (name_type =? 0x20) || (name_type =? 0x0)
        then filter (fun a => is_zero_addr a = false) (omap id (getaddrinfo env name))
        else []).
Proof.
  unfold resolve_hosts.
  destruct (name_type =? 32), (name_type =? 0); cbn [negb andb orb];
    try (rewrite (fold_left_getaddrinfo _ []); cbn [app];
         set (l := filter _ _);
         assert (Hl : Forall (fun a => is_zero_addr a = false) l)
           by apply Forall_filter_holds;
         destruct l as [|x r]; cbn [length Nat.eqb negb fst snd];
         (split; [split; [congruence|congruence]|split; [assumption|reflexivity]])).
  cbn [fst snd]. split; [split; [discriminate|congruence]|].
  split; [constructor|reflexivity].
Qed.

(** ** Node status replies *)







(** ** [name_status_find] *)

Lemma find_first {A} (f : A -> bool) (l : list A) (a : A) :
  find f l = Some a ->
  exists pre post, l = pre ++ a :: post
    /\ Forall (fun b => f b = false) pre /\ f a = true.
Proof.
  induction l as [|x r IH]; cbn [find]; [discriminate|].
  destruct (f x) eqn:Ex.
  - intros [= <-]. exists [], r. repeat split; [constructor|assumption].
  - intros H. destruct (IH H) as (pre & post & -> & Hpre & Ha).
    exists (x :: pre), post. repeat split; [now constructor|assumption].
Qed.

(** X20. Once [name_status_find] has found a name for a query type other
    than 0x1c, the name-status cache holds the name with an expiry time,
    which is the time of the call plus the lifetime of the name caches
    when the name did not come from the cache.  Until that time every
    further call with the same arguments returns the name from the cache,
    whatever the lmhosts file and the network would say by then, and
    leaves the cache as it is; from that time on the cache does not
    answer any more. *)
Theorem name_status_find_cached_again (env : name_status_env)
    (q_name : string) (q_type type : Z) (to_ss : sockaddr_storage) (now : Z)
    (cache cache' : gmap (string * Z * Z * sockaddr_storage) (string * Z))
    (name : string) :
  q_type <> 0x1c ->
  name_status_find false env q_name q_type type to_ss now cache
  = (true, Some name, cache') ->
  exists expire,
    cache' !! (q_name, q_type, type, to_ss) = Some (name, expire)
    /\ (namecache_status_fetch q_name q_type type to_ss now cache = None ->
        expire = now + lp_name_cache_timeout env)
    /\ (forall env' now', now' < expire ->
          name_status_find false env' q_name q_type type to_ss now' cache'
          = (true, Some name, cache'))
    /\ (forall now', expire <= now' ->
          namecache_status_fetch q_name q_type type to_ss now' cache' = None).
Proof.
  intros Hq Hfind.
  assert (Hentry : exists expire,
            cache' !! (q_name, q_type, type, to_ss) = Some (name, expire)
            /\ (namecache_status_fetch q_name q_type type to_ss now cache = None ->
                expire = now + lp_name_cache_timeout env)).
  { revert Hfind. unfold name_status_find, namecache_status_store.
    destruct (namecache_status_fetch q_name q_type type to_ss now cache)
      as [n|] eqn:Ec.
    { intros [= <- <-]. unfold namecache_status_fetch in Ec.
      destruct (cache !! (q_name, q_type, type, to_ss)) as [[n' expire]|];
        [|discriminate].
      destruct (expire <=? now); [discriminate|]. injection Ec as ->.
      exists expire. split; [reflexivity|discriminate]. }
    destruct (negb (bool_decide (ss_family to_ss = AF_INET))); [discriminate|].
    destruct (name_status_lmhosts env to_ss type) as [n|].
    { intros [= <- <-]. eexists. now rewrite lookup_insert_eq. }
    destruct (node_status_query env q_name q_type to_ss) as [status addrs].
    destruct (negb (NT_STATUS_IS_OK status)); [discriminate|].
    destruct (find _ addrs) as [a|]; [|discriminate].
    destruct (Z.eqb_spec q_type 28) as [|_]; [contradiction|]. cbn [negb].
    intros [= <- <-]. eexists. now rewrite lookup_insert_eq. }
  destruct Hentry as (expire & Hc & Hfresh). exists expire.
  split; [exact Hc|]. split; [exact Hfresh|]. split.
  - intros env' now' Hlt. unfold name_status_find, namecache_status_fetch.
    rewrite Hc. destruct (Z.leb_spec expire now'); [lia|reflexivity].
  - intros now' Hge. unfold namecache_status_fetch.
    rewrite Hc. destruct (Z.leb_spec expire now'); [reflexivity|lia].
Qed.

Lemma name_status_find_cached_again_witness :
  name_status_find false sample_name_status_env "*" 0x0 0x20 (v4 10 0 0 5) 100 ∅
  = (true, Some "FS"%string,
     <[("*"%string, 0x0, 0x20, v4 10 0 0 5) := ("FS"%string, 760)]> ∅)
  /\ exists expire,
       (<[("*"%string, 0x0, 0x20, v4 10 0 0 5) := ("FS"%string, 760)]> ∅
        : gmap (string * Z * Z * sockaddr_storage) (string * Z))
         !! ("*"%string, 0x0, 0x20, v4 10 0 0 5) = Some ("FS"%string, expire)
       /\ (namecache_status_fetch "*" 0x0 0x20 (v4 10 0 0 5) 100 ∅ = None ->
           expire = 100 + lp_name_cache_timeout sample_name_status_env)
       /\ (forall env' now', now' < expire ->
             name_status_find false env' "*" 0x0 0x20 (v4 10 0 0 5) now'
               (<[("*"%string, 0x0, 0x20, v4 10 0 0 5) := ("FS"%string, 760)]> ∅)
             = (true, Some "FS"%string,
                <[("*"%string, 0x0, 0x20, v4 10 0 0 5) := ("FS"%string, 760)]> ∅))
       /\ (forall now', expire <= now' ->
             namecache_status_fetch "*" 0x0 0x20 (v4 10 0 0 5) now'
               (<[("*"%string, 0x0, 0x20, v4 10 0 0 5) := ("FS"%string, 760)]> ∅)
             = None).
Proof.
  assert (H : name_status_find false sample_name_status_env "*" 0x0 0x20
                (v4 10 0 0 5) 100 ∅
              = (true, Some "FS"%string,
                 <[("*"%string, 0x0, 0x20, v4 10 0 0 5) := ("FS"%string, 760)]> ∅))
    by (vm_compute; reflexivity).
  split; [exact H|].
  refine (name_status_find_cached_again sample_name_status_env "*" 0x0 0x20
            (v4 10 0 0 5) 100 ∅ _ "FS" _ H).
  discriminate.
Defined.

(** X21. A name [name_status_find] takes from a node status reply is that
    of the first entry of the reply that has the type asked for and is not a
    group name; and for the query type 0x1c such a name is not put into the
    name-status cache. *)
Theorem name_status_find_first_unique_name (env : name_status_env)
    (q_name : string) (q_type type : Z) (to_ss : sockaddr_storage) (now : Z)
    (cache cache' : gmap (string * Z * Z * sockaddr_storage) (string * Z))
    (name : string) :
  namecache_status_fetch q_name q_type type to_ss now cache = None ->
  name_status_lmhosts env to_ss type = None ->
  name_status_find false env q_name q_type type to_ss now cache
  = (true, Some name, cache') ->
  (exists pre a post,
     snd (node_status_query env q_name q_type to_ss) = pre ++ a :: post
     /\ Forall (fun b => ns_type b <> type \/ Z.land (ns_flags b) 0x80 <> 0) pre
     /\ ns_type a = type /\ Z.land (ns_flags a) 0x80 = 0
     /\ name = pull_ascii_nstring env (ns_name a))
  /\ (q_type = 0x1c -> cache' = cache).
Proof.
  intros Hc Hl. unfold name_status_find. rewrite Hc, Hl.
  destruct (negb (bool_decide (ss_family to_ss = AF_INET))); [discriminate|].
  destruct (node_status_query env q_name q_type to_ss) as [status addrs].
  destruct (negb (NT_STATUS_IS_OK status)); [discriminate|].
  destruct (find _ addrs) as [a|] eqn:Ef; [|discriminate].
  intros [= <- <-]. split.
  - destruct (find_first _ _ _ Ef) as (pre & post & -> & Hpre & Ha).
    exists pre, a, post. cbn [snd]. split; [reflexivity|].
    apply andb_true_iff in Ha. destruct Ha as (Ht & Hf).
    apply Z.eqb_eq in Ht. apply Z.eqb_eq in Hf.
    split; [|auto].
    eapply Forall_impl; [exact Hpre|]. cbn. intros b Hb.
    apply andb_false_iff in Hb. destruct Hb as [Hb|Hb]; apply Z.eqb_neq in Hb; auto.
  - intros ->. reflexivity.
Qed.

Lemma name_status_find_first_unique_name_witness :
  name_status_find false sample_name_status_env "*" 0x0 0x20 (v4 10 0 0 5) 100 ∅
  = (true, Some "FS"%string,
     <[("*"%string, 0x0, 0x20, v4 10 0 0 5) := ("FS"%string, 760)]> ∅)
  /\ exists pre a post,
       snd (node_status_query sample_name_status_env "*" 0x0 (v4 10 0 0 5))
       = pre ++ a :: post
       /\ Forall (fun b => ns_type b <> 0x20 \/ Z.land (ns_flags b) 0x80 <> 0) pre
       /\ ns_type a = 0x20 /\ Z.land (ns_flags a) 0x80 = 0
       /\ "FS"%string = pull_ascii_nstring sample_name_status_env (ns_name a).
Proof.
  assert (H : name_status_find false sample_name_status_env "*" 0x0 0x20
                (v4 10 0 0 5) 100 ∅
              = (true, Some "FS"%string,
                 <[("*"%string, 0x0, 0x20, v4 10 0 0 5) := ("FS"%string, 760)]> ∅))
    by (vm_compute; reflexivity).
  split; [exact H|].
  refine (proj1 (name_status_find_first_unique_name sample_name_status_env
                   "*" 0x0 0x20 (v4 10 0 0 5) 100 ∅ _ "FS" _ _ H)).
  - reflexivity.
  - reflexivity.
Defined.

(** ** Queries to several destinations, counting lemmas *)

Lemma nth_replicate_false n i : nth i (replicate n false) false = false.
Proof. revert i. induction n as [|n IH]; intros [|i]; cbn; auto. Qed.

(** ** Queries to several destinations *)

Lemma nqs_outstanding_insert (l : list bool) : forall (i : nat) (b : bool),
  (i < length l)%nat ->
  (nqs_outstanding (<[i := b]> l) + (if nth i l false then 1 else 0)
   = nqs_outstanding l + (if b then 1 else 0))%nat.
Proof.
  unfold nqs_outstanding.
  induction l as [|x r IH]; intros i b Hi; cbn [length] in Hi; [lia|].
  destruct i as [|i].
  - cbn [insert list_insert nth]. rewrite !filter_cons.
    destruct x, b; repeat case_decide; try congruence; cbn [length]; lia.
  - cbn [nth]. change (<[S i := b]> (x :: r)) with (x :: <[i := b]> r).
    rewrite !filter_cons. specialize (IH i b ltac:(lia)).
    destruct (decide (x = true)); cbn [length]; lia.
Qed.

Lemma nqs_outstanding_replicate n : nqs_outstanding (replicate n false) = 0%nat.
Proof.
  unfold nqs_outstanding. induction n as [|n IH]; [reflexivity|].
  cbn [replicate]. rewrite filter_cons, decide_False by discriminate. exact IH.
Qed.

Lemma nth_insert_bool (l : list bool) i j b :
  nth j (<[i := b]> l) false
  = if decide (i = j /\ (i < length l)%nat) then b else nth j l false.
Proof.
  revert i j. induction l as [|x r IH]; intros i j.
  - cbn [length]. rewrite decide_False by lia. now destruct i.
  - destruct i as [|i], j as [|j]; cbn [nth length].
    + rewrite decide_True by (split; [reflexivity|lia]). reflexivity.
    + rewrite decide_False by lia. reflexivity.
    + rewrite decide_False by lia. reflexivity.
    + change (<[S i := b]> (x :: r)) with (x :: <[i := b]> r). cbn [nth].
      rewrite IH. destruct (decide (i = j /\ (i < length r)%nat)) as [[-> H]|H].
      * rewrite decide_True by (split; [reflexivity|lia]). reflexivity.
      * rewrite decide_False by lia. reflexivity.
Qed.

Lemma nqs_invariant_send num_addrs st :
  name_queries_send num_addrs = Some st -> nqs_invariant [] st.
Proof.
  unfold name_queries_send.
  destruct (Nat.eqb_spec num_addrs 0) as [|Hn]; [discriminate|].
  intros [= <-]. unfold nqs_invariant. cbn [fst snd nqs_subreqs nqs_num_addrs
    nqs_num_sent nqs_num_received nqs_wakeup Nat.add].
  split; [now rewrite length_insert, length_replicate|].
  split; [lia|]. split.
  - intros i Hi. rewrite nth_insert_bool, decide_False by lia.
    apply nth_replicate_false.
  - split; [|split; [reflexivity|lia]].
    pose proof (nqs_outstanding_insert (replicate num_addrs false) 0 true) as H.
    rewrite length_replicate in H. specialize (H ltac:(lia)).
    rewrite nqs_outstanding_replicate in H.
    destruct num_addrs; [lia|]. cbn [replicate nth] in H. cbn [replicate]. lia.
Qed.

Lemma nqs_outstanding_pos (l : list bool) :
  (0 < nqs_outstanding l)%nat -> exists i, nth i l false = true.
Proof.
  unfold nqs_outstanding. induction l as [|x r IH]; cbn [length filter].
  - cbn. lia.
  - rewrite filter_cons. destruct x.
    + intros _. now exists 0%nat.
    + rewrite decide_False by discriminate. intros H.
      destruct (IH H) as (i & Hi). now exists (S i).
Qed.

Lemma nqs_invariant_step evs ev st :
  nqs_invariant evs st -> nqs_invariant (evs ++ [ev]) (name_queries_step ev st).
Proof.
  destruct st as [rs state]. unfold nqs_invariant, name_queries_step.
  cbn [fst snd]. intros (Hlen & Hsent & Hfree & Hcount & Hrs).
  destruct rs as [| |status0].
  - destruct Hrs as (Hw & Hrecv).
    destruct ev as [i [[status addrs] flags]|ok].
    + unfold name_queries_done.
      set (state1 := if NT_STATUS_IS_OK status then _ else state).
      assert (H1 : nqs_num_addrs state1 = nqs_num_addrs state
                   /\ nqs_subreqs state1 = nqs_subreqs state
                   /\ nqs_num_received state1 = nqs_num_received state
                   /\ nqs_num_sent state1 = nqs_num_sent state
                   /\ nqs_wakeup state1 = nqs_wakeup state
                   /\ (NT_STATUS_IS_OK status = true ->
                       nqs_result_addrs state1 = addrs /\ nqs_flags state1 = flags)).
      { subst state1. destruct (NT_STATUS_IS_OK status); cbn; auto 10.
        repeat split; discriminate. }
      destruct H1 as (E1 & E2 & E3 & E4 & E5 & E6).
      rewrite E1, E2, E3, E4.
      destruct ((i <? nqs_num_sent state)%nat && nth i (nqs_subreqs state) false)
        eqn:Ei; cbn [negb fst snd].
      2:{ rewrite E1, E2, E3, E4. repeat (split; [assumption|]). now left. }
      apply andb_true_iff in Ei. destruct Ei as (Hi & Hout).
      apply Nat.ltb_lt in Hi.
      pose proof (nqs_outstanding_insert (nqs_subreqs state) i false
                    ltac:(lia)) as Hins.
      rewrite Hout in Hins.
      assert (Hfree' : forall j, (nqs_num_sent state <= j)%nat ->
                nth j (<[i := false]> (nqs_subreqs state)) false = false).
      { intros j Hj. rewrite nth_insert_bool.
        destruct (decide _); [reflexivity|auto]. }
      cbn [nqs_num_addrs nqs_num_received nqs_subreqs nqs_num_sent].
      destruct (NT_STATUS_IS_OK status) eqn:Eok; cbn [negb].
      * cbn [fst snd nqs_subreqs nqs_num_addrs nqs_num_sent nqs_num_received
             nqs_received_index nqs_result_addrs nqs_flags].
        split; [now rewrite length_insert|]. split; [assumption|].
        split; [assumption|]. split; [lia|]. split; [assumption|].
        destruct (E6 eq_refl) as (-> & ->).
        assert (status = NT_STATUS_OK) as <-
          by (destruct status; try discriminate Eok; reflexivity).
        apply in_or_app. right. now left.
      * destruct (Nat.leb_spec (nqs_num_addrs state) (nqs_num_received state + 1))
          as [Hall|Hmore];
          cbn [fst snd nqs_subreqs nqs_num_addrs nqs_num_sent nqs_num_received
               nqs_wakeup].
        { split; [now rewrite length_insert|]. split; [assumption|].
          split; [assumption|]. split; [lia|]. right.
          split; [now apply NT_STATUS_IS_OK_false|]. split; [lia|].
          exists i, addrs, flags. apply in_or_app. right. now left. }
        { split; [now rewrite length_insert|]. split; [assumption|].
          split; [assumption|]. split; [lia|]. split; [congruence|lia]. }
    + destruct (nqs_wakeup state) eqn:Ew; cbn [fst snd].
      2:{ repeat (split; [assumption|]). rewrite Ew. split; [assumption|lia]. }
      symmetry in Hw. apply Nat.ltb_lt in Hw.
      unfold name_queries_next.
      cbn [nqs_num_addrs nqs_num_received nqs_subreqs nqs_num_sent].
      destruct ok; cbn [negb fst snd nqs_subreqs nqs_num_addrs nqs_num_sent
                        nqs_num_received nqs_wakeup].
      * pose proof (nqs_outstanding_insert (nqs_subreqs state)
                      (nqs_num_sent state) true ltac:(lia)) as Hins.
        rewrite (Hfree (nqs_num_sent state)) in Hins by lia.
        split; [now rewrite length_insert|]. split; [lia|]. split.
        { intros j Hj. rewrite nth_insert_bool, decide_False by lia.
          apply Hfree. lia. }
        split; [lia|]. split; [reflexivity|assumption].
      * repeat (split; [assumption|]). now left.
  - repeat (split; [assumption|]). destruct Hrs as (Hi & Hin).
    split; [assumption|]. apply in_or_app. now left.
  - repeat (split; [assumption|]).
    destruct Hrs as [->|(Hs & Hr & i & addrs & flags & Hin)]; [now left|].
    right. split; [assumption|]. split; [assumption|].
    exists i, addrs, flags. apply in_or_app. now left.
Qed.

Lemma nqs_invariant_run evs : forall pre st,
  nqs_invariant pre st -> nqs_invariant (pre ++ evs) (name_queries_run evs st).
Proof.
  unfold name_queries_run.
  induction evs as [|ev rest IH]; intros pre st H; cbn [fold_left].
  - now rewrite app_nil_r.
  - rewrite (cons_middle ev pre rest), app_assoc. apply IH.
    now apply nqs_invariant_step.
Qed.

Lemma name_queries_step_num_addrs ev st :
  nqs_num_addrs (snd (name_queries_step ev st)) = nqs_num_addrs (snd st).
Proof.
  destruct st as [rs state]. unfold name_queries_step. cbn [fst snd].
  destruct rs; try reflexivity.
  destruct ev as [i [[status addrs] flags]|ok].
  - unfold name_queries_done.
    destruct (NT_STATUS_IS_OK status); cbn [negb];
      repeat match goal with
      | |- context [if ?c then _ else _] => destruct c
      end; reflexivity.
  - destruct (nqs_wakeup state); [|reflexivity].
    unfold name_queries_next. destruct ok; reflexivity.
Qed.

Lemma name_queries_run_num_addrs evs : forall st,
  nqs_num_addrs (snd (name_queries_run evs st)) = nqs_num_addrs (snd st).
Proof.
  unfold name_queries_run.
  induction evs as [|ev rest IH]; intros st; cbn [fold_left]; [reflexivity|].
  rewrite IH. apply name_queries_step_num_addrs.
Qed.

(** X23. A [name_queries] request over at least one destination, whatever
    its sub-requests and wakeups deliver: while in progress it always has a
    wakeup pending or a sub-request outstanding; when done it returns the
    addresses, flags and index of a sub-request that succeeded; and it
    fails, other than with [NT_STATUS_INTERNAL_ERROR], only when every
    destination was queried and every query has failed, with the status of
    one of them. *)
Theorem name_queries_run_invariant (num_addrs : nat)
    (st0 : tevent_req_state * name_queries_state)
    (evs : list name_queries_event) :
  name_queries_send num_addrs = Some st0 ->
  let st := name_queries_run evs st0 in
  match fst st with
  | TEVENT_REQ_IN_PROGRESS =>
      nqs_wakeup (snd st) = true
      \/ exists i, (i < nqs_num_sent (snd st))%nat
                   /\ nth i (nqs_subreqs (snd st)) false = true
  | TEVENT_REQ_DONE =>
      exists i addrs flags,
        name_queries_recv st = (NT_STATUS_OK, addrs, flags, i)
        /\ (i < num_addrs)%nat
        /\ In (NameQueryDone i (NT_STATUS_OK, addrs, flags)) evs
  | TEVENT_REQ_ERROR status =>
      name_queries_recv st = (status, [], 0, 0%nat)
      /\ (status = NT_STATUS_INTERNAL_ERROR
          \/ (status <> NT_STATUS_OK
              /\ nqs_num_sent (snd st) = num_addrs
              /\ nqs_num_received (snd st) = num_addrs
              /\ exists i addrs flags, In (NameQueryDone i (status, addrs, flags)) evs))
  end.
Proof.
  intros Hsend st.
  pose proof (nqs_invariant_run evs [] st0 (nqs_invariant_send _ _ Hsend)) as Hinv.
  cbn [app] in Hinv. fold st in Hinv.
  assert (Hn : nqs_num_addrs (snd st) = num_addrs).
  { subst st. rewrite name_queries_run_num_addrs. unfold name_queries_send in Hsend.
    destruct (num_addrs =? 0)%nat; [discriminate|]. now injection Hsend as <-. }
  destruct Hinv as (Hlen & Hsent & Hfree & Hcount & Hrs).
  unfold name_queries_recv. destruct (fst st) as [| |status].
  - destruct Hrs as (Hw & Hrecv).
    destruct (nqs_wakeup (snd st)); [now left|right].
    symmetry in Hw. apply Nat.ltb_ge in Hw.
    destruct (nqs_outstanding_pos (nqs_subreqs (snd st)) ltac:(lia)) as (i & Hi).
    exists i. split; [|assumption].
    destruct (Nat.lt_ge_cases i (nqs_num_sent (snd st))) as [|Hge]; [assumption|].
    rewrite (Hfree i Hge) in Hi. discriminate.
  - destruct Hrs as (Hi & Hin). eexists _, _, _.
    split; [reflexivity|]. split; [lia|assumption].
  - split; [reflexivity|].
    destruct Hrs as [->|(Hs & Hr & Hex)]; [now left|].
    right. split; [assumption|]. split; [lia|]. split; [lia|assumption].
Qed.

Lemma name_queries_run_invariant_witness :
  name_queries_send 2
  = Some (TEVENT_REQ_IN_PROGRESS, mk_nqs 2 [true; false] 0 1 0 [] 0 true)
  /\ exists i addrs flags,
       name_queries_recv
         (name_queries_run
            [NameQueryDone 0 (NT_STATUS_NOT_FOUND, [], 0); WakeupFired true;
             NameQueryDone 1 (NT_STATUS_OK, [v4 10 0 0 7], 208)]
            (TEVENT_REQ_IN_PROGRESS, mk_nqs 2 [true; false] 0 1 0 [] 0 true))
       = (NT_STATUS_OK, addrs, flags, i)
       /\ (i < 2)%nat
       /\ In (NameQueryDone i (NT_STATUS_OK, addrs, flags))
            [NameQueryDone 0 (NT_STATUS_NOT_FOUND, [], 0); WakeupFired true;
             NameQueryDone 1 (NT_STATUS_OK, [v4 10 0 0 7], 208)].
Proof.
  split; [reflexivity|].
  exact (name_queries_run_invariant 2
           (TEVENT_REQ_IN_PROGRESS, mk_nqs 2 [true; false] 0 1 0 [] 0 true)
           [NameQueryDone 0 (NT_STATUS_NOT_FOUND, [], 0); WakeupFired true;
            NameQueryDone 1 (NT_STATUS_OK, [v4 10 0 0 7], 208)]
           eq_refl).
Defined.

(** ** The broadcast backend *)

Lemma name_resolve_bcast_addrs_filter ifs :
  name_resolve_bcast_addrs ifs
  = filter (fun a => ss_family a = AF_INET)
      (map (iface_n_bcast ifs) (seq 0 (iface_count ifs))).
Proof.
  unfold name_resolve_bcast_addrs.
  assert (H : forall idx acc,
    fold_left (fun bcast_addrs i =>
      let pss := iface_n_bcast ifs i in
      if negb (bool_decide (ss_family pss = AF_INET)) then bcast_addrs
      else bcast_addrs ++ [pss]) idx acc
    = acc ++ filter (fun a => ss_family a = AF_INET) (map (iface_n_bcast ifs) idx)).
  { induction idx as [|i rest IH]; intros acc; cbn [fold_left map].
    - now rewrite app_nil_r.
    - rewrite IH, filter_cons. case_bool_decide as Hf; cbn [negb].
      + rewrite decide_True by assumption. now rewrite <- app_assoc.
      + now rewrite decide_False by assumption. }
  apply (H _ []).
Qed.

(** X24. With NetBIOS enabled, [name_resolve_bcast_send] queries the
    broadcast addresses of the interfaces that have an IPv4 one, in the
    order of the interfaces and no other address; the [name_queries] request
    for them is started exactly when there is such an interface, and with
    NetBIOS disabled the request is posted with
    [NT_STATUS_INVALID_PARAMETER]. *)
Theorem name_resolve_bcast_send_destinations (env : nbt_env) :
  if lp_disable_netbios env
  then name_resolve_bcast_send env = inl NT_STATUS_INVALID_PARAMETER
  else exists subreq,
    name_resolve_bcast_send env
    = inr (filter (fun a => ss_family a = AF_INET)
             (map (iface_n_bcast (nbt_ifs env))
                (seq 0 (iface_count (nbt_ifs env)))), subreq)
    /\ (is_Some subreq
        <-> exists i, (i < iface_count (nbt_ifs env))%nat
                      /\ ss_family (iface_n_bcast (nbt_ifs env) i) = AF_INET).
Proof.
  unfold name_resolve_bcast_send.
  destruct (lp_disable_netbios env); [reflexivity|].
  rewrite name_resolve_bcast_addrs_filter.
  eexists. split; [reflexivity|].
  unfold name_queries_send.
  set (l := filter _ _).
  assert (Hl : l <> [] <-> exists i, (i < iface_count (nbt_ifs env))%nat
                 /\ ss_family (iface_n_bcast (nbt_ifs env) i) = AF_INET).
  { split.
    - intros Hne. destruct l as [|a r] eqn:El; [congruence|].
      assert (Ha : a ∈ l) by (rewrite El; left).
      subst l. rewrite El in Ha. rewrite <- El in Ha.
      apply list_elem_of_filter in Ha. destruct Ha as (Hf & Hin).
      apply list_elem_of_fmap in Hin. destruct Hin as (i & -> & Hi).
      apply elem_of_seq in Hi. exists i. split; [lia|assumption].
    - intros (i & Hi & Hf) Hnil.
      assert (Ha : iface_n_bcast (nbt_ifs env) i ∈ l).
      { subst l. apply list_elem_of_filter. split; [assumption|].
        apply list_elem_of_fmap. exists i. split; [reflexivity|].
        apply elem_of_seq. lia. }
      rewrite Hnil in Ha. now apply elem_of_nil in Ha. }
  rewrite <- Hl. destruct l; cbn [length Nat.eqb].
  - split; [intros [? [=]]|congruence].
  - split; [discriminate|eauto].
Qed.

(** ** The WINS backend *)

Lemma resolve_wins_alive_filter env src_ip dead servers :
  resolve_wins_alive env src_ip dead servers
  = filter (fun wins_ip => global_in_nmbd env && ismyip_v4 env wins_ip = false
                           /\ (wins_ip, src_ip) ∉ dead) servers.
Proof.
  unfold resolve_wins_alive.
  assert (H : forall l acc,
    fold_left (fun alive wins_ip =>
      if global_in_nmbd env && ismyip_v4 env wins_ip then alive
      else if wins_srv_is_dead wins_ip src_ip dead then alive
      else alive ++ [wins_ip]) l acc
    = acc ++ filter (fun wins_ip =>
                global_in_nmbd env && ismyip_v4 env wins_ip = false
                /\ (wins_ip, src_ip) ∉ dead) l).
  { induction l as [|x r IH]; intros acc; cbn [fold_left].
    - now rewrite app_nil_r.
    - rewrite IH, filter_cons. unfold wins_srv_is_dead.
      destruct (global_in_nmbd env && ismyip_v4 env x) eqn:Em.
      + rewrite decide_False by (intros [? _]; discriminate). reflexivity.
      + case_bool_decide as Hd.
        * rewrite decide_False by tauto. reflexivity.
        * rewrite decide_True by tauto. now rewrite <- app_assoc. }
  apply (H servers []).
Qed.

Lemma resolve_wins_tags_filter env src_ip dead tags :
  resolve_wins_tags env src_ip dead tags
  = filter (fun alive => alive <> [])
      (map (resolve_wins_alive env src_ip dead)
         (omap (wins_server_tag_ips env) tags)).
Proof.
  unfold resolve_wins_tags.
  assert (H : forall l acc,
    fold_left (fun sent tag =>
      match wins_server_tag_ips env tag with
      | None => sent
      | Some servers =>
          let alive := resolve_wins_alive env src_ip dead servers in
          if (length alive =? 0)%nat then sent else sent ++ [alive]
      end) l acc
    = acc ++ filter (fun alive => alive <> [])
               (map (resolve_wins_alive env src_ip dead)
                  (omap (wins_server_tag_ips env) l))).
  { induction l as [|tag rest IH]; intros acc; cbn [fold_left omap list_omap map].
    - now rewrite app_nil_r.
    - rewrite IH. destruct (wins_server_tag_ips env tag) as [servers|];
        [|reflexivity].
      cbn [map]. rewrite filter_cons. cbv zeta.
      destruct (resolve_wins_alive env src_ip dead servers) as [|x r].
      + cbn [length Nat.eqb]. now rewrite decide_False by congruence.
      + cbn [length Nat.eqb]. rewrite decide_True by discriminate.
        now rewrite <- app_assoc. }
  apply (H tags []).
Qed.

(** X25. When [resolve_wins_send] starts its sub-requests, every
    sub-request is for the servers of one tag, in their order, without
    those marked dead for the source address and, inside nmbd, without the
    machine's own addresses; no sub-request is for an empty list, and at
    least one is started.  So a server that [wins_srv_died] has marked is
    not asked again. *)
Theorem resolve_wins_send_alive (env : wins_env) (dead : gset (Z * Z))
    (src_ip : Z) (sent : list (list Z)) :
  resolve_wins_send env dead = inr (src_ip, sent) ->
  sent <> []
  /\ Forall (fun alive =>
       alive <> []
       /\ Forall (fun wins_ip =>
            global_in_nmbd env && ismyip_v4 env wins_ip = false
            /\ wins_srv_is_dead wins_ip src_ip dead = false) alive
       /\ exists tag servers tags,
            wins_srv_tags env = Some tags /\ In tag tags
            /\ wins_server_tag_ips env tag = Some servers
            /\ alive `sublist_of` servers) sent.
Proof.
  unfold resolve_wins_send.
  destruct (wins_srv_count env <? 1); [discriminate|].
  destruct (sockaddr_storage_to_samba_sockaddr _) as [src_sa|]; [|discriminate].
  destruct (negb (bool_decide (ss_family (u_ss src_sa) = AF_INET)));
    [discriminate|].
  destruct (wins_srv_tags env) as [tags|]; [|discriminate].
  destruct (length (resolve_wins_tags env (ss_addr (u_ss src_sa)) dead tags) =? 0)%nat
    eqn:El; [discriminate|].
  intros [= <- <-]. split; [now apply length_eqb_nil|].
  rewrite resolve_wins_tags_filter. apply Forall_forall. intros alive Ha.
  apply list_elem_of_filter in Ha. destruct Ha as (Hne & Ha).
  apply list_elem_of_fmap in Ha. destruct Ha as (servers & -> & Hs).
  apply list_elem_of_omap in Hs. destruct Hs as (tag & Htag & Hips).
  split; [assumption|]. rewrite resolve_wins_alive_filter. split.
  - apply Forall_forall. intros ip Hip. apply list_elem_of_filter in Hip.
    destruct Hip as ((Hm & Hd) & _). split; [assumption|].
    unfold wins_srv_is_dead. now apply bool_decide_eq_false_2.
  - exists tag, servers, tags. split; [reflexivity|].
    split; [now apply list_elem_of_In|]. split; [assumption|].
    apply sublist_filter.
Qed.

Lemma resolve_wins_send_alive_witness :
  resolve_wins_send sample_wins_env
    (wins_srv_died (ip4 10 0 0 2) (ip4 10 0 0 9) ∅)
  = inr (ip4 10 0 0 9, [[ip4 10 0 0 3]])
  /\ [[ip4 10 0 0 3]] <> [].
Proof.
  assert (H : resolve_wins_send sample_wins_env
                (wins_srv_died (ip4 10 0 0 2) (ip4 10 0 0 9) ∅)
              = inr (ip4 10 0 0 9, [[ip4 10 0 0 3]]))
    by (vm_compute; reflexivity).
  split; [exact H|].
  exact (proj1 (resolve_wins_send_alive sample_wins_env _ _ _ H)).
Defined.

Lemma resolve_wins_run_spec results : forall state,
  (rws_num_received state + length results = rws_num_sent state)%nat ->
  results <> [] ->
  resolve_wins_recv (resolve_wins_run results (TEVENT_REQ_IN_PROGRESS, state))
  = match find (fun r => NT_STATUS_IS_OK (fst (fst r))) results with
    | Some (_, addrs, flags) => (NT_STATUS_OK, addrs, flags)
    | None => (default NT_STATUS_OK (fst ∘ fst <$> last results), [], 0)
    end.
Proof.
  assert (Hstop : forall rs st, fst st <> TEVENT_REQ_IN_PROGRESS ->
            resolve_wins_run rs st = st).
  { unfold resolve_wins_run. induction rs as [|r rs IH]; intros st Hst;
      cbn [fold_left]; [reflexivity|].
    destruct (fst st) eqn:E; [congruence| |]; rewrite IH; try reflexivity;
      now rewrite E. }
  induction results as [|[[status addrs] flags] rest IH]; intros state Hn Hne;
    [congruence|].
  unfold resolve_wins_run. cbn [fold_left fst snd find].
  fold (resolve_wins_run rest (resolve_wins_done (status, addrs, flags) state)).
  unfold resolve_wins_done. destruct (NT_STATUS_IS_OK status) eqn:Eok.
  - rewrite Hstop by discriminate. reflexivity.
  - cbn [rws_num_received rws_num_sent]. cbn [length] in Hn.
    destruct rest as [|r rest'].
    + cbn [length] in Hn. destruct (Nat.ltb_spec (rws_num_received state + 1) (rws_num_sent state));
        [lia|]. cbn. reflexivity.
    + cbn [length] in Hn.
      destruct (Nat.ltb_spec (rws_num_received state + 1) (rws_num_sent state));
        [|lia].
      rewrite IH; [|cbn [rws_num_received rws_num_sent length]; lia|discriminate].
      rewrite last_cons_cons. reflexivity.
Qed.

(** X26. When each of the sub-requests [resolve_wins_send] started
    completes, in whatever order, [resolve_wins] returns the addresses and
    flags of the first one that succeeds; when none succeeds it returns the
    status of the one that completed last. *)
Theorem resolve_wins_first_success
    (results : list (NTSTATUS * list sockaddr_storage * Z)) :
  results <> [] ->
  resolve_wins_recv
    (resolve_wins_run results
       (TEVENT_REQ_IN_PROGRESS, mk_rws (length results) 0 [] 0))
  = match find (fun r => NT_STATUS_IS_OK (fst (fst r))) results with
    | Some (_, addrs, flags) => (NT_STATUS_OK, addrs, flags)
    | None => (default NT_STATUS_OK (fst ∘ fst <$> last results), [], 0)
    end.
Proof.
  intros Hne. apply resolve_wins_run_spec; [reflexivity|assumption].
Qed.

Lemma resolve_wins_first_success_witness :
  resolve_wins_recv
    (resolve_wins_run
       [(NT_STATUS_NOT_FOUND, [], 0); (NT_STATUS_OK, [v4 10 0 0 7], 208)]
       (TEVENT_REQ_IN_PROGRESS, mk_rws 2 0 [] 0))
  = (NT_STATUS_OK, [v4 10 0 0 7], 208).
Proof.
  apply (resolve_wins_first_success
           [(NT_STATUS_NOT_FOUND, [], 0); (NT_STATUS_OK, [v4 10 0 0 7], 208)]).
  discriminate.
Defined.

(** ** Callers of the driver *)

Lemma resolve_name_list_keeps_spec env s :
  resolve_name_list_keeps env s = true
  <-> ss_family (ss s) <> AF_UNSPEC /\ is_zero_addr (ss s) = false
      /\ is_broadcast_addr env (ss s) = false.
Proof.
  unfold resolve_name_list_keeps, sockaddr_storage_to_samba_sockaddr.
  destruct (ss_family (ss s)) eqn:Ef; cbn [u_ss].
  - split; [discriminate|]. intros (H & _). congruence.
  - rewrite andb_true_iff, !negb_true_iff. split; [intros (? & ?)|tauto].
    split; [congruence|tauto].
  - rewrite andb_true_iff, !negb_true_iff. split; [intros (? & ?)|tauto].
    split; [congruence|tauto].
Qed.

Lemma resolve_name_list_result_arr env ss_list : forall acc,
  fold_left (fun result_arr s =>
    if resolve_name_list_keeps env s then result_arr ++ [ss s]
    else result_arr) ss_list acc
  = acc ++ map ss (filter (fun s => resolve_name_list_keeps env s = true) ss_list).
Proof.
  induction ss_list as [|x r IH]; intros acc; cbn [fold_left].
  - now rewrite app_nil_r.
  - rewrite IH, filter_cons. destruct (resolve_name_list_keeps env x).
    + rewrite decide_True by reflexivity. cbn [map]. now rewrite <- app_assoc.
    + now rewrite decide_False by discriminate.
Qed.

(** X27. For a name that is not an IP literal, the list
    [resolve_name_list] returns with success is not empty and is made of the
    addresses of the list the driver resolved, in its order, that are IPv4
    or IPv6 and neither zero nor a broadcast address; no address is in it
    twice. *)
Theorem resolve_name_list_usable_addresses (env : resolver_env) (name : string)
    (name_type : Z) (st st' : resolver_state) (l : list sockaddr_storage) :
  is_ipaddress env name = false ->
  resolve_name_list env name name_type st = (NT_STATUS_OF NT_STATUS_OK, l, st') ->
  l <> []
  /\ NoDup l
  /\ Forall (fun a => ss_family a <> AF_UNSPEC /\ is_zero_addr a = false
                      /\ is_broadcast_addr env a = false) l
  /\ exists ss_list,
       internal_resolve_name env name name_type (sitename_fetch env)
         (lp_name_resolve_order env) st = (NT_STATUS_OK, ss_list, st')
       /\ l = map ss (filter (fun s => resolve_name_list_keeps env s = true) ss_list).
Proof.
  intros Hip. unfold resolve_name_list. rewrite Hip.
  pose proof (internal_resolve_name_result env name name_type
                (sitename_fetch env) (lp_name_resolve_order env) st) as Hres.
  destruct (internal_resolve_name env name name_type (sitename_fetch env)
              (lp_name_resolve_order env) st) as [[status ss_list] st1].
  destruct Hres as [(-> & _ & Hall & Hnd)|(Hs & _)].
  2:{ apply NT_STATUS_IS_OK_false in Hs. rewrite Hs. cbn [negb].
      intros [= -> _ _]. discriminate Hs. }
  cbn [NT_STATUS_IS_OK negb].
  destruct (fold_left _ ss_list 0%nat =? 0)%nat; [discriminate|].
  rewrite (resolve_name_list_result_arr env ss_list []). cbn [app].
  destruct (length _ =? 0)%nat eqn:El; [discriminate|].
  intros [= <- <-]. split; [now apply length_eqb_nil|].
  split; [|split].
  - apply NoDup_fmap_2_strong.
    + intros x y Hx Hy Hxy. apply list_elem_of_filter in Hx, Hy.
      rewrite Forall_forall in Hall.
      destruct (Hall x (proj2 Hx)) as (_ & Hpx).
      destruct (Hall y (proj2 Hy)) as (_ & Hpy).
      destruct x, y; cbn in *; congruence.
    + assert (Heq : filter (fun s => resolve_name_list_keeps env s = true) ss_list
                    = filter (fun s => resolve_name_list_keeps env s = true)
                        (filter (fun s => ss_family (ss s) <> AF_UNSPEC) ss_list)).
      { rewrite list_filter_filter. apply list_filter_iff. intros s.
        rewrite resolve_name_list_keeps_spec. tauto. }
      rewrite Heq. now apply NoDup_filter.
  - apply Forall_forall. intros a Ha. apply list_elem_of_fmap in Ha.
    destruct Ha as (s & -> & Hs). apply list_elem_of_filter in Hs.
    now apply resolve_name_list_keeps_spec.
  - exists ss_list. split; reflexivity.
Qed.

Lemma resolve_name_list_usable_addresses_witness :
  is_ipaddress sample_env_dual "dualhost" = false
  /\ resolve_name_list sample_env_dual "dualhost" 0x20 empty_resolver_state
     = (NT_STATUS_OF NT_STATUS_OK, [mk_ss AF_INET6 1; v4 10 0 0 5],
        mk_resolver_state
          (<[("dualhost"%string, 0x20)
             := [mk_sa sizeof_sockaddr_in6 (mk_ss AF_INET6 1);
                 mk_sa sizeof_sockaddr_in (v4 10 0 0 5)]]> ∅)
          [CALL_NAMECACHE_FETCH "dualhost" 0x20;
           CALL_BACKEND BACKEND_HOST NT_STATUS_OK])
  /\ NoDup [mk_ss AF_INET6 1; v4 10 0 0 5].
Proof.
  split; [reflexivity|].
  assert (H : resolve_name_list sample_env_dual "dualhost" 0x20
                empty_resolver_state
              = (NT_STATUS_OF NT_STATUS_OK, [mk_ss AF_INET6 1; v4 10 0 0 5],
                 mk_resolver_state
                   (<[("dualhost"%string, 0x20)
                      := [mk_sa sizeof_sockaddr_in6 (mk_ss AF_INET6 1);
                          mk_sa sizeof_sockaddr_in (v4 10 0 0 5)]]> ∅)
                   [CALL_NAMECACHE_FETCH "dualhost" 0x20;
                    CALL_BACKEND BACKEND_HOST NT_STATUS_OK]))
    by (vm_compute; reflexivity).
  split; [exact H|].
  exact (proj1 (proj2 (resolve_name_list_usable_addresses sample_env_dual
                         "dualhost" 0x20 empty_resolver_state _ _ eq_refl H))).
Defined.

Lemma internal_resolve_name_first env name name_type sitename resolve_order st :
  let '(status, ip_list, st') :=
    internal_resolve_name env name name_type sitename resolve_order st in
  NT_STATUS_IS_OK status = true ->
  exists x, ip_list_first ip_list = Some (ss x) /\ x ∈ ip_list
            /\ is_zero_addr (ss x) = false.
Proof.
  pose proof (internal_resolve_name_result env name name_type sitename
                resolve_order st) as H.
  destruct (internal_resolve_name env name name_type sitename resolve_order st)
    as [[status ip_list] st'].
  destruct H as [(-> & Hne & Hall & _)|(Hs & _)].
  - intros _. destruct ip_list as [|x r]; [congruence|].
    exists x. split; [reflexivity|]. split; [left|].
    inversion Hall as [|? ? (Hz & _) _]. exact Hz.
  - apply NT_STATUS_IS_OK_false in Hs. rewrite Hs. discriminate.
Qed.

(** [find_master_ip] reads [ip_list[0]] only of a list that has an entry. *)
Lemma find_master_ip_defined (disable_netbios : bool) (env : resolver_env)
    (group : string) (st : resolver_state) :
  exists found master_ss st',
    find_master_ip disable_netbios env group st = Some (found, master_ss, st')
    /\ (disable_netbios = true -> found = false /\ st' = st)
    /\ (if found
        then exists a, master_ss = Some a /\ is_zero_addr a = false
        else master_ss = None).
Proof.
  unfold find_master_ip. destruct disable_netbios.
  { exists false, None, st. auto. }
  pose proof (internal_resolve_name_first env group 0x1D None
                (lp_name_resolve_order env) st) as H1.
  destruct (internal_resolve_name env group 0x1D None
              (lp_name_resolve_order env) st) as [[status ip_list] st1].
  destruct (NT_STATUS_IS_OK status).
  { destruct (H1 eq_refl) as (x & -> & _ & Hz). cbn.
    exists true, (Some (ss x)), st1. split; [reflexivity|].
    split; [discriminate|eauto]. }
  pose proof (internal_resolve_name_first env group 0x1B None
                (lp_name_resolve_order env) st1) as H2.
  destruct (internal_resolve_name env group 0x1B None
              (lp_name_resolve_order env) st1) as [[status2 ip_list2] st2].
  destruct (NT_STATUS_IS_OK status2).
  { destruct (H2 eq_refl) as (x & -> & _ & Hz). cbn.
    exists true, (Some (ss x)), st2. split; [reflexivity|].
    split; [discriminate|eauto]. }
  exists false, None, st2. split; [reflexivity|]. split; [discriminate|reflexivity].
Qed.

Lemma sort_service_list_first ifs l x :
  ip_list_first l = Some (ss x) -> x ∈ l -> is_zero_addr (ss x) = false ->
  Forall (fun s => is_zero_addr (ss s) = false) l ->
  exists y, ip_list_first (if (1 <? length l)%nat then sort_service_list ifs l else l)
            = Some (ss y)
            /\ y ∈ l /\ is_zero_addr (ss y) = false.
Proof.
  intros Hf Hx Hz Hall. destruct (1 <? length l)%nat; [|eauto].
  assert (Hperm : Permutation (sort_service_list ifs l) l).
  { unfold sort_service_list. destruct (Z.of_nat (length l) <=? 1);
      [reflexivity|apply TYPESAFE_QSORT_perm]. }
  destruct (sort_service_list ifs l) as [|y r] eqn:Es.
  - apply Permutation_nil in Hperm. subst l. now apply elem_of_nil in Hx.
  - exists y. split; [reflexivity|].
    assert (Hy : y ∈ l) by (rewrite <- Hperm; left).
    split; [assumption|]. rewrite Forall_forall in Hall. auto.
Qed.

(** So does [get_pdc_ip]. *)
Lemma get_pdc_ip_defined (sec_ads : bool) (ifs : interfaces)
    (env : resolver_env) (domain : string) (st : resolver_state) :
  exists found pss st',
    get_pdc_ip sec_ads ifs env domain st = Some (found, pss, st')
    /\ (if found
        then exists a, pss = Some a /\ is_zero_addr a = false
        else pss = None).
Proof.
  unfold get_pdc_ip.
  set (first := if sec_ads then _ else _).
  assert (Hfirst : let '(status, ip_list, st1) := first in
            caller_status_is_ok status = true ->
            (length ip_list =? 0)%nat = false
            /\ Forall (fun s => is_zero_addr (ss s) = false) ip_list).
  { subst first. destruct sec_ads; [|discriminate].
    pose proof (internal_resolve_name_result env domain 0x1b None
                  (Some ["ads"%string]) st) as H.
    destruct (internal_resolve_name env domain 0x1b None (Some ["ads"%string]) st)
      as [[status ip_list] st1].
    cbn [caller_status_is_ok].
    destruct H as [(-> & Hne & Hall & _)|(Hs & _)].
    - intros _. split; [destruct ip_list; [congruence|reflexivity]|].
      eapply Forall_impl; [exact Hall|]. cbn. tauto.
    - apply NT_STATUS_IS_OK_false in Hs. rewrite Hs. discriminate. }
  destruct first as [[status ip_list] st1].
  set (second := if negb (caller_status_is_ok status) || (length ip_list =? 0)%nat
                 then _ else _).
  assert (Hsecond : let '(status, ip_list, st2) := second in
            caller_status_is_ok status = true ->
            ip_list <> []
            /\ Forall (fun s => is_zero_addr (ss s) = false) ip_list).
  { subst second. destruct (caller_status_is_ok status) eqn:Eok; cbn [negb orb].
    - destruct (Hfirst eq_refl) as (Hl & Hall). rewrite Hl, Eok.
      intros _. split; [now apply length_eqb_nil|assumption].
    - pose proof (internal_resolve_name_result env domain 0x1b None
                    (lp_name_resolve_order env) st1) as H.
      destruct (internal_resolve_name env domain 0x1b None
                  (lp_name_resolve_order env) st1) as [[status2 ip_list2] st2].
      cbn [caller_status_is_ok].
      destruct H as [(-> & Hne & Hall & _)|(Hs & _)].
      + intros _. split; [assumption|].
        eapply Forall_impl; [exact Hall|]. cbn. tauto.
      + apply NT_STATUS_IS_OK_false in Hs. rewrite Hs. discriminate. }
  destruct second as [[status2 ip_list2] st2].
  destruct (caller_status_is_ok status2); cbn [negb].
  2:{ exists false, None, st2. auto. }
  destruct (Hsecond eq_refl) as (Hne & Hall).
  destruct ip_list2 as [|x r] eqn:El; [congruence|]. rewrite <- El in *.
  assert (Hx : x ∈ ip_list2) by (rewrite El; left).
  assert (Hz : is_zero_addr (ss x) = false)
    by (rewrite Forall_forall in Hall; auto).
  destruct (sort_service_list_first ifs ip_list2 x) as (y & Hy & _ & Hzy);
    try assumption; [now rewrite El|].
  rewrite Hy. cbn. exists true, (Some (ss y)), st2. eauto.
Qed.

(** X28. [find_master_ip] and [get_pdc_ip] never read [ip_list[0]] of an
    empty list: a lookup that succeeds has at least one entry.  When they
    report an address it is never the zero address, when they report
    failure they return none, and with NetBIOS disabled [find_master_ip]
    fails without a lookup. *)
Theorem first_address_defined (disable_netbios sec_ads : bool)
    (ifs : interfaces) (env : resolver_env) (name : string)
    (st : resolver_state) :
  (exists found master_ss st',
     find_master_ip disable_netbios env name st = Some (found, master_ss, st')
     /\ (disable_netbios = true -> found = false /\ st' = st)
     /\ (if found
         then exists a, master_ss = Some a /\ is_zero_addr a = false
         else master_ss = None))
  /\ (exists found pss st',
        get_pdc_ip sec_ads ifs env name st = Some (found, pss, st')
        /\ (if found
            then exists a, pss = Some a /\ is_zero_addr a = false
            else pss = None)).
Proof.
  split; [apply find_master_ip_defined|apply get_pdc_ip_defined].
Qed.

(** ** The list of domain controllers *)

Section GetDcList.
Variable env : dc_env.
Variable domain : string.

Local Abbreviation star :=
  (fun tok : string => strequal (dc_resolver env) tok "*" = true).
Local Abbreviation neg_ok :=
  (fun s : ip_service =>
     NT_STATUS_IS_OK (check_negative_conn_cache env domain (ss s)) = true).

Lemma get_dc_list_copy_auto_filter auto_ip_list return_iplist :
  get_dc_list_copy_auto env domain auto_ip_list return_iplist
  = return_iplist ++ filter neg_ok auto_ip_list.
Proof.
  unfold get_dc_list_copy_auto. revert return_iplist.
  induction auto_ip_list as [|s r IH]; intros acc; cbn [fold_left].
  - now rewrite app_nil_r.
  - rewrite IH, filter_cons.
    destruct (NT_STATUS_IS_OK (check_negative_conn_cache env domain (ss s)));
      cbn [negb].
    + rewrite decide_True by reflexivity. destruct s. simpl.
      now rewrite <- app_assoc.
    + now rewrite decide_False by discriminate.
Qed.

Lemma get_dc_list_fill_neg_ok lookup_type auto_ip_list num_addresses tokens :
  forall return_iplist ordered st return_iplist' ordered' st',
  Forall neg_ok return_iplist ->
  get_dc_list_fill env domain lookup_type auto_ip_list num_addresses tokens
    (return_iplist, ordered, st)
  = Some (inr (return_iplist', ordered', st')) ->
  Forall neg_ok return_iplist'.
Proof.
  induction tokens as [|name rest IH]; intros ret o st ret' o' st' Hret;
    cbn [get_dc_list_fill].
  - now intros [= <- _ _].
  - destruct (negb (length ret <? num_addresses)%nat); [now intros [= <- _ _]|].
    destruct (strequal (dc_resolver env) name "*").
    + destruct (num_addresses <? length _)%nat; [discriminate|].
      apply IH. rewrite get_dc_list_copy_auto_filter.
      apply Forall_app. split; [assumption|apply Forall_filter_holds].
    + destruct (split_colon name) as [name0 port_str].
      destruct (resolve_name (dc_resolver env) name0 32 true st)
        as [[ok name_ss] st1].
      destruct ok; [|apply IH; assumption].
      destruct name_ss as [name_ss|]; [|apply IH; assumption].
      destruct (sockaddr_storage_to_samba_sockaddr name_ss) as [name_sa|];
        [|discriminate].
      destruct (NT_STATUS_IS_OK
                  (check_negative_conn_cache env domain (u_ss name_sa))) eqn:En;
        cbn [negb]; [|apply IH; assumption].
      apply IH. apply Forall_app. split; [assumption|].
      repeat constructor. exact En.
Qed.

(** The writes the second loop may make for the tokens it has before it. *)
Lemma get_dc_list_fill_defined lookup_type auto_ip_list num_addresses tokens :
  forall return_iplist ordered st,
  (length return_iplist + length (filter (fun tok => ~ star tok) tokens)
   + length (filter star tokens) * length auto_ip_list <= num_addresses)%nat ->
  is_Some (get_dc_list_fill env domain lookup_type auto_ip_list num_addresses
             tokens (return_iplist, ordered, st)).
Proof.
  induction tokens as [|name rest IH]; intros ret o st Hb;
    cbn [get_dc_list_fill]; [eauto|].
  destruct (negb (length ret <? num_addresses)%nat); [eauto|].
  rewrite !filter_cons in Hb.
  destruct (strequal (dc_resolver env) name "*") eqn:Es.
  - rewrite decide_False in Hb by (first [reflexivity|congruence|intros H; apply H; reflexivity]).
    rewrite decide_True in Hb by (first [reflexivity|congruence|intros H; apply H; reflexivity]). cbn [length] in Hb.
    rewrite get_dc_list_copy_auto_filter.
    pose proof (length_filter neg_ok auto_ip_list) as Hf.
    destruct (Nat.ltb_spec num_addresses
                (length (ret ++ filter neg_ok auto_ip_list))) as [Hlt|_].
    { rewrite length_app in Hlt. lia. }
    apply IH. rewrite length_app. lia.
  - rewrite decide_True in Hb by (first [reflexivity|congruence|intros H; apply H; reflexivity]).
    rewrite decide_False in Hb by (first [reflexivity|congruence|intros H; apply H; reflexivity]). cbn [length] in Hb.
    destruct (split_colon name) as [name0 port_str].
    destruct (resolve_name (dc_resolver env) name0 32 true st)
      as [[ok name_ss] st1].
    destruct ok; [|apply IH; lia].
    destruct name_ss as [name_ss|]; [|apply IH; lia].
    destruct (sockaddr_storage_to_samba_sockaddr name_ss) as [name_sa|];
      [|eauto].
    destruct (negb _); [apply IH; lia|].
    apply IH. rewrite length_app. cbn [length]. lia.
Qed.

Lemma internal_resolve_name_failed_nil renv name name_type sitename
    resolve_order st status l st' :
  internal_resolve_name renv name name_type sitename resolve_order st
  = (status, l, st') ->
  NT_STATUS_IS_OK status = false -> l = [].
Proof.
  intros E Hs.
  pose proof (internal_resolve_name_result renv name name_type sitename
                resolve_order st) as H.
  rewrite E in H. destruct H as [(-> & _)|(_ & -> & _)];
    [discriminate|reflexivity].
Qed.

Lemma get_dc_list_count_done auto_name_type sitename resolve_order tokens :
  forall auto_ip_list num_addresses st,
  get_dc_list_count env domain auto_name_type sitename resolve_order tokens
    (true, auto_ip_list, num_addresses, st)
  = (true, auto_ip_list, (num_addresses + length tokens)%nat, st).
Proof.
  induction tokens as [|name rest IH]; intros auto n st;
    cbn [get_dc_list_count negb andb length].
  - now rewrite Nat.add_0_r.
  - rewrite IH.
    replace (n + 1 + length rest)%nat with (n + S (length rest))%nat by lia.
    reflexivity.
Qed.

(** With the auto lookup asked for at most once, the first loop counts
    as many addresses as the second loop may write. *)
Lemma get_dc_list_count_bound auto_name_type sitename resolve_order tokens :
  forall num_addresses st,
  (length (filter star tokens) <= 1)%nat ->
  let '(done_auto_lookup, auto_ip_list, num_addresses', st') :=
    get_dc_list_count env domain auto_name_type sitename resolve_order tokens
      (false, [], num_addresses, st) in
  (num_addresses + length (filter (fun tok => ~ star tok) tokens)
   + length (filter star tokens) * length auto_ip_list = num_addresses')%nat.
Proof.
  induction tokens as [|name rest IH]; intros n st Hs;
    cbn [get_dc_list_count negb andb].
  - cbn. lia.
  - rewrite !filter_cons in *.
    destruct (strequal (dc_resolver env) name "*") eqn:Es.
    + rewrite decide_True in Hs by (first [reflexivity|congruence|intros H; apply H; reflexivity]). cbn [length] in Hs.
      rewrite decide_False by (first [reflexivity|congruence|intros H; apply H; reflexivity]).
      rewrite decide_True by (first [reflexivity|congruence|intros H; apply H; reflexivity]).
      assert (Hnone : filter star rest = [])
        by (destruct (filter star rest); [reflexivity|cbn [length] in Hs; lia]).
      assert (Hall : length (filter (fun tok => ~ star tok) rest) = length rest).
      { pose proof (filter_app_complement star rest) as Hp.
        apply Permutation_length in Hp. rewrite length_app, Hnone in Hp.
        cbn [length] in Hp. lia. }
      destruct (internal_resolve_name (dc_resolver env) domain auto_name_type
                  sitename resolve_order st) as [[status ip_list] st1] eqn:Ei.
      destruct (NT_STATUS_IS_OK status) eqn:Eok; cbn [negb];
        rewrite get_dc_list_count_done, Hnone, Hall; cbn [length].
      * lia.
      * rewrite (internal_resolve_name_failed_nil _ _ _ _ _ _ _ _ _ Ei Eok).
        cbn [length]. lia.
    + rewrite decide_False in Hs by (first [reflexivity|congruence|intros H; apply H; reflexivity]).
      rewrite decide_True by (first [reflexivity|congruence|intros H; apply H; reflexivity]).
      rewrite decide_False by (first [reflexivity|congruence|intros H; apply H; reflexivity]). cbn [length].
      specialize (IH (n + 1)%nat st Hs).
      destruct (get_dc_list_count env domain auto_name_type sitename
                  resolve_order rest (false, [], (n + 1)%nat, st))
        as [[[d a] n'] st']. lia.
Qed.
Lemma get_dc_list_count_step_nonzero auto_name_type sitename resolve_order tokens :
  forall done_auto_lookup auto_ip_list num_addresses st,
  (num_addresses + 1
   <= snd (fst (get_dc_list_count env domain auto_name_type sitename resolve_order
                  tokens (done_auto_lookup, auto_ip_list,
                          (num_addresses + 1)%nat, st))))%nat.
Proof.
  induction tokens as [|name rest IH]; intros d a n st;
    cbn [get_dc_list_count]; [cbn; lia|].
  destruct (negb d && strequal (dc_resolver env) name "*").
  - destruct (internal_resolve_name (dc_resolver env) domain auto_name_type
                sitename resolve_order st) as [[s0 l0] st0].
    destruct (negb (NT_STATUS_IS_OK s0)); rewrite get_dc_list_count_done;
      cbn [fst snd]; lia.
  - specialize (IH d a (n + 1)%nat st). lia.
Qed.
End GetDcList.

Lemma prioritize_ipv4_list_eq l :
  prioritize_ipv4_list l
  = filter (fun s => ss_family (ss s) = AF_INET) l
    ++ filter (fun s => ss_family (ss s) <> AF_INET) l.
Proof.
  unfold prioritize_ipv4_list.
  rewrite (fold_left_snoc_filter (fun s => ss_family (ss s) = AF_INET)).
  rewrite (fold_left_snoc_filter_not (fun s => ss_family (ss s) = AF_INET)).
  reflexivity.
Qed.

Lemma prioritize_ipv4_list_partitioned l :
  prioritize_ipv4_list l
  = filter (fun s => ss_family (ss s) = AF_INET) (prioritize_ipv4_list l)
    ++ filter (fun s => ss_family (ss s) <> AF_INET) (prioritize_ipv4_list l).
Proof.
  rewrite prioritize_ipv4_list_eq at 2 3. rewrite !filter_app.
  set (v4 := filter (fun s => ss_family (ss s) = AF_INET) l).
  set (other := filter (fun s => ss_family (ss s) <> AF_INET) l).
  assert (H4 : Forall (fun s => ss_family (ss s) = AF_INET) v4)
    by apply Forall_filter_holds.
  assert (Ho : Forall (fun s => ss_family (ss s) <> AF_INET) other)
    by apply Forall_filter_holds.
  rewrite (filter_all _ v4 H4), (filter_all _ other Ho).
  rewrite (filter_none (fun s => ss_family (ss s) = AF_INET) other Ho).
  rewrite (filter_none (fun s => ss_family (ss s) <> AF_INET) v4).
  - rewrite app_nil_r. apply prioritize_ipv4_list_eq.
  - eapply Forall_impl; [exact H4|]. intros s Hs. cbn. tauto.
Qed.

Lemma prioritize_ipv4_list_perm l : Permutation (prioritize_ipv4_list l) l.
Proof. rewrite prioritize_ipv4_list_eq. apply filter_app_complement. Qed.

(** X29. A list [get_dc_list] returns with success is not empty, holds no
    zero address and no IPv4 or IPv6 address/port pair twice.  When the
    preferred server list has tokens, no entry of it is one the negative
    connection cache flags, and the IPv4 entries come before all others.
    When it has none, the list is what the auto lookup resolved, as it
    came: the result of [internal_resolve_name] for the domain with the
    name type and the resolve order of the lookup type, [KDC_NAME_TYPE]
    and [kdc] for [DC_KDC_ONLY], 0x1C and [ads] (or [NULL] when [host] is
    not configured) for [DC_ADS_ONLY], 0x1C and the configured order
    otherwise. *)
Theorem get_dc_list_ok (env : dc_env) (now : Z)
    (saf_cache : gmap string (string * Z)) (domain : string)
    (sitename : option string) (lookup_type : dc_lookup_type)
    (st st' : resolver_state) (ip_list : list ip_service) (ordered : bool) :
  get_dc_list env now saf_cache domain sitename lookup_type st
  = Some (NT_STATUS_OF NT_STATUS_OK, ip_list, ordered, st') ->
  ip_list <> []
  /\ Forall (fun s => is_zero_addr (ss s) = false) ip_list
  /\ NoDup (filter (fun s => ss_family (ss s) <> AF_UNSPEC) ip_list)
  /\ (next_tokens env (get_dc_list_pserver env now saf_cache domain) <> [] ->
      Forall (fun s => NT_STATUS_IS_OK
                         (check_negative_conn_cache env domain (ss s)) = true)
        ip_list
      /\ ip_list
         = filter (fun s => ss_family (ss s) = AF_INET) ip_list
           ++ filter (fun s => ss_family (ss s) <> AF_INET) ip_list)
  /\ (next_tokens env (get_dc_list_pserver env now saf_cache domain) = [] ->
      exists configured,
        lp_name_resolve_order (dc_resolver env) = Some configured
        /\ internal_resolve_name (dc_resolver env) domain
             (match lookup_type with
              | DC_KDC_ONLY => KDC_NAME_TYPE
              | _ => 0x1C
              end)
             sitename
             (Some (match lookup_type with
                    | DC_NORMAL_LOOKUP => configured
                    | DC_ADS_ONLY =>
                        if str_list_check_ci (dc_resolver env) configured "host"
                        then ["ads"%string] else ["NULL"%string]
                    | DC_KDC_ONLY => ["kdc"%string]
                    end))
             st
           = (NT_STATUS_OK, ip_list, st')).
Proof.
  unfold get_dc_list.
  destruct (lp_name_resolve_order (dc_resolver env)) as [order0|]; [|discriminate].
  set (cfg := match lookup_type with
              | DC_NORMAL_LOOKUP => _ | DC_ADS_ONLY => _ | DC_KDC_ONLY => _
              end).
  assert (Hcfg : exists ordered0,
            cfg = (match lookup_type with
                   | DC_NORMAL_LOOKUP => order0
                   | DC_ADS_ONLY =>
                       if str_list_check_ci (dc_resolver env) order0 "host"
                       then ["ads"%string] else ["NULL"%string]
                   | DC_KDC_ONLY => ["kdc"%string]
                   end, ordered0,
                   match lookup_type with
                   | DC_KDC_ONLY => KDC_NAME_TYPE
                   | _ => 0x1C
                   end)).
  { subst cfg. destruct lookup_type; [eauto| |eauto].
    destruct (str_list_check_ci (dc_resolver env) order0 "host"); eauto. }
  clearbody cfg. destruct Hcfg as (ordered0 & ->).
  set (resolve_order := match lookup_type with
                        | DC_NORMAL_LOOKUP => order0
                        | DC_ADS_ONLY => _ | DC_KDC_ONLY => _
                        end).
  set (auto_name_type := match lookup_type with
                         | DC_KDC_ONLY => KDC_NAME_TYPE
                         | _ => 0x1C
                         end).
  set (tokens := next_tokens env (get_dc_list_pserver env now saf_cache domain)).
  destruct (get_dc_list_count env domain auto_name_type sitename
              (Some resolve_order) tokens (false, [], 0%nat, st))
    as [[[done_auto_lookup auto_ip_list] num_addresses] st1] eqn:Ec.
  destruct (Nat.eqb_spec num_addresses 0) as [Hz|Hnz].
  - destruct done_auto_lookup; [discriminate|].
    assert (Htok : tokens = []).
    { destruct tokens as [|name rest]; [reflexivity|]. exfalso.
      cbn [get_dc_list_count negb andb] in Ec.
      destruct (strequal (dc_resolver env) name "*").
      - destruct (internal_resolve_name (dc_resolver env) domain auto_name_type
                    sitename (Some resolve_order) st) as [[s0 l0] st0].
        destruct (negb (NT_STATUS_IS_OK s0));
          rewrite get_dc_list_count_done in Ec; discriminate Ec.
      - pose proof (get_dc_list_count_step_nonzero env domain auto_name_type
                      sitename (Some resolve_order) rest false [] 0 st) as Hpos.
        rewrite Ec in Hpos. cbn [fst snd] in Hpos. lia. }
    rewrite Htok in Ec. cbn [get_dc_list_count] in Ec.
    injection Ec as _ _ <-.
    pose proof (internal_resolve_name_result (dc_resolver env) domain
                  auto_name_type sitename (Some resolve_order) st) as Hres.
    destruct (internal_resolve_name (dc_resolver env) domain auto_name_type
                sitename (Some resolve_order) st) as [[status dc_iplist] st2] eqn:Ei.
    destruct Hres as [(-> & Hne & Hall & Hnd)|(Hs & _)].
    + cbn [NT_STATUS_IS_OK negb]. intros [= <- <- <-].
      split; [assumption|]. split.
      { eapply Forall_impl; [exact Hall|]. cbn. tauto. }
      split; [assumption|]. split; [intros Hne'; contradiction|].
      intros _. exists order0. split; [reflexivity|]. exact Ei.
    + apply NT_STATUS_IS_OK_false in Hs. rewrite Hs. cbn [negb].
      intros [= -> _ _ _]. discriminate Hs.
  - destruct (get_dc_list_fill env domain lookup_type auto_ip_list num_addresses
                tokens ([], ordered0, st1))
      as [[[[status o] st2]|[[return_iplist o] st2]]|] eqn:Ef; [| |discriminate].
    { intros [= -> _ _ _].
      clear - Ef. exfalso. revert Ef. generalize (@nil ip_service) ordered0 st1.
      induction tokens as [|name rest IH]; intros ret o0 s0;
        cbn [get_dc_list_fill]; [discriminate|].
      destruct (negb (length ret <? num_addresses)%nat); [discriminate|].
      destruct (strequal (dc_resolver env) name "*").
      - destruct (num_addresses <? length _)%nat; [discriminate|apply IH].
      - destruct (split_colon name) as [name0 port_str].
        destruct (resolve_name (dc_resolver env) name0 32 true s0)
          as [[ok name_ss] s1].
        destruct ok; [|apply IH]. destruct name_ss as [name_ss|]; [|apply IH].
        destruct (sockaddr_storage_to_samba_sockaddr name_ss);
          [|discriminate].
        destruct (negb _); apply IH. }
    pose proof (get_dc_list_fill_neg_ok env domain lookup_type auto_ip_list
                  num_addresses tokens [] ordered0 st1 return_iplist o st2
                  ltac:(constructor) Ef) as Hneg.
    set (r := remove_duplicate_addrs2 return_iplist).
    destruct (length r =? 0)%nat eqn:Elr; cbn [negb]; rewrite ?Elr; cbn [negb];
      [discriminate|].
    destruct (length (prioritize_ipv4_list r) =? 0)%nat eqn:Elp; cbn [negb];
      [discriminate|].
    intros [= <- <- <-].
    pose proof (prioritize_ipv4_list_perm r) as Hperm.
    assert (Hr : Forall (fun s => is_zero_addr (ss s) = false
                   /\ NT_STATUS_IS_OK
                        (check_negative_conn_cache env domain (ss s)) = true) r)
      by apply (remove_duplicate_addrs2_Forall _ _ Hneg).
    split; [now apply length_eqb_nil|]. split.
    { rewrite Hperm. eapply Forall_impl; [exact Hr|]. cbn. tauto. }
    split.
    { rewrite Hperm. apply remove_duplicate_addrs2_NoDup. }
    split.
    { intros _. split.
      { rewrite Hperm. eapply Forall_impl; [exact Hr|]. cbn. tauto. }
      apply prioritize_ipv4_list_partitioned. }
    intros Htok. exfalso. apply Hnz.
    rewrite Htok in Ec. cbn [get_dc_list_count] in Ec. congruence.
Qed.

Lemma get_dc_list_ok_witness :
  get_dc_list sample_dc_env 0 ∅ "workgroup" None DC_NORMAL_LOOKUP
    empty_resolver_state
  = Some (NT_STATUS_OF NT_STATUS_OK, [mk_ip_service (v4 10 0 0 5) PORT_NONE], true,
          mk_resolver_state
            (<[("fileserver"%string, 0x20)
               := [mk_sa sizeof_sockaddr_in (v4 10 0 0 5)]]> ∅)
            [CALL_NAMECACHE_FETCH "workgroup" 0x1C;
             CALL_BACKEND BACKEND_LMHOSTS NT_STATUS_NOT_FOUND;
             CALL_BACKEND BACKEND_WINS NT_STATUS_NOT_FOUND;
             CALL_BACKEND BACKEND_HOST NT_STATUS_INVALID_PARAMETER;
             CALL_BACKEND BACKEND_BCAST NT_STATUS_NOT_FOUND;
             CALL_NAMECACHE_FETCH "fileserver" 0x20;
             CALL_BACKEND BACKEND_LMHOSTS NT_STATUS_NOT_FOUND;
             CALL_BACKEND BACKEND_WINS NT_STATUS_NOT_FOUND;
             CALL_BACKEND BACKEND_HOST NT_STATUS_OK])
  /\ [mk_ip_service (v4 10 0 0 5) PORT_NONE] <> [].
Proof.
  assert (H : get_dc_list sample_dc_env 0 ∅ "workgroup" None DC_NORMAL_LOOKUP
                empty_resolver_state
              = Some (NT_STATUS_OF NT_STATUS_OK,
                      [mk_ip_service (v4 10 0 0 5) PORT_NONE], true,
                      mk_resolver_state
                        (<[("fileserver"%string, 0x20)
                           := [mk_sa sizeof_sockaddr_in (v4 10 0 0 5)]]> ∅)
                        [CALL_NAMECACHE_FETCH "workgroup" 0x1C;
                         CALL_BACKEND BACKEND_LMHOSTS NT_STATUS_NOT_FOUND;
                         CALL_BACKEND BACKEND_WINS NT_STATUS_NOT_FOUND;
                         CALL_BACKEND BACKEND_HOST NT_STATUS_INVALID_PARAMETER;
                         CALL_BACKEND BACKEND_BCAST NT_STATUS_NOT_FOUND;
                         CALL_NAMECACHE_FETCH "fileserver" 0x20;
                         CALL_BACKEND BACKEND_LMHOSTS NT_STATUS_NOT_FOUND;
                         CALL_BACKEND BACKEND_WINS NT_STATUS_NOT_FOUND;
                         CALL_BACKEND BACKEND_HOST NT_STATUS_OK]))
    by (vm_compute; reflexivity).
  split; [exact H|].
  exact (proj1 (get_dc_list_ok _ _ _ _ _ _ _ _ _ _ H)).
Defined.

(** X30. As long as the preferred server list names the auto lookup [*]
    at most once, [get_dc_list] never writes past the end of
    [return_iplist]: the first loop counts an entry for everything the
    second loop copies.  (A second [*] is counted as one entry but copies
    the whole auto lookup again.) *)
Theorem get_dc_list_defined (env : dc_env) (now : Z)
    (saf_cache : gmap string (string * Z)) (domain : string)
    (sitename : option string) (lookup_type : dc_lookup_type)
    (st : resolver_state) :
  (length (filter (fun tok => strequal (dc_resolver env) tok "*" = true)
             (next_tokens env (get_dc_list_pserver env now saf_cache domain)))
   <= 1)%nat ->
  is_Some (get_dc_list env now saf_cache domain sitename lookup_type st).
Proof.
  intros Hstar. unfold get_dc_list.
  destruct (lp_name_resolve_order (dc_resolver env)) as [order0|]; [|eauto].
  set (cfg := match lookup_type with
              | DC_NORMAL_LOOKUP => _ | DC_ADS_ONLY => _ | DC_KDC_ONLY => _
              end).
  destruct cfg as [[resolve_order ordered0] auto_name_type].
  set (tokens := next_tokens env (get_dc_list_pserver env now saf_cache domain))
    in *.
  pose proof (get_dc_list_count_bound env domain auto_name_type sitename
                (Some resolve_order) tokens 0 st Hstar) as Hb.
  destruct (get_dc_list_count env domain auto_name_type sitename
              (Some resolve_order) tokens (false, [], 0%nat, st))
    as [[[done_auto_lookup auto_ip_list] num_addresses] st1].
  destruct (num_addresses =? 0)%nat.
  - destruct done_auto_lookup; [eauto|].
    destruct (internal_resolve_name (dc_resolver env) domain auto_name_type
                sitename (Some resolve_order) st1) as [[status dc_iplist] st2].
    destruct (negb (NT_STATUS_IS_OK status)); eauto.
  - destruct (get_dc_list_fill_defined env domain lookup_type auto_ip_list
                num_addresses tokens [] ordered0 st1) as (r & Hr).
    { cbn [length]. lia. }
    rewrite Hr. destruct r as [[[status o] st2]|[[return_iplist o] st2]];
      [eauto|].
    cbv zeta.
    destruct (negb (length (remove_duplicate_addrs2 return_iplist) =? 0)%nat);
      destruct (negb (length _ =? 0)%nat); eauto.
Qed.

Lemma get_dc_list_defined_witness :
  (length (filter (fun tok => strequal (dc_resolver sample_dc_env) tok "*" = true)
             (next_tokens sample_dc_env
                (get_dc_list_pserver sample_dc_env 0 ∅ "workgroup"))) <= 1)%nat
  /\ is_Some (get_dc_list sample_dc_env 0 ∅ "workgroup" None DC_NORMAL_LOOKUP
                empty_resolver_state).
Proof.
  assert (H : (length (filter (fun tok => strequal (dc_resolver sample_dc_env)
                                             tok "*" = true)
                         (next_tokens sample_dc_env
                            (get_dc_list_pserver sample_dc_env 0 ∅ "workgroup")))
               <= 1)%nat) by (vm_compute; lia).
  split; [exact H|].
  exact (get_dc_list_defined sample_dc_env 0 ∅ "workgroup" None DC_NORMAL_LOOKUP
           empty_resolver_state H).
Defined.

(** With the auto lookup configured twice and two controllers found, the
    second copy of the auto lookup is written past the three entries
    counted. *)
Lemma get_dc_list_two_auto_lookups :
  get_dc_list sample_dc_env_twice 0 ∅ "workgroup" None DC_NORMAL_LOOKUP
    empty_resolver_state = None.
Proof. vm_compute. reflexivity. Qed.
